(** * CornellChecker: page monitor, extraction-and-diff engine

    A shallow embedding of [python_monitor_script.py] (module [Single]) and
    [python_monitor_script_multi.py] (module [Multi]).

    Conventions of the model.
    - A Python [str] is a Rocq [string]; every character stands for one code
      point below 256, so [String.length] is Python's [len].  The two signs
      in front of the messages of the multi-page script, which hold code
      points above 255, are the one exception ([Multi.ALERT_SIGN]).
    - The values that flow through the scripts (extracted data, what
      [json.load] returns) are JSON-shaped Python values, type [pyval].  A
      Python [dict] is an association list in insertion order.
    - Python exceptions are the [Raise] case of [result].
    - The outside world (HTTP fetch, the HTML parser, the clock, message
      delivery, iteration order of a [set]) is the record [runtime]; files and
      the sequence of external calls are the record [world].
    - Reading a file can fail in the ways [file] lists.  Writing a file
      succeeds: the directory can be written to and no file name leads into a
      directory that does not exist. *)

From Stdlib Require Import ZArith List String Ascii Bool Lia Permutation.
From Stdlib Require Import DecimalString DecimalNat OrderedTypeEx.
Import ListNotations.
Set Warnings "-register-all".
Set Default Proof Using "Type".
Open Scope list_scope.
Open Scope string_scope.

(* ------------------------------------------------------------------ *)
(** ** Python values, exceptions *)

Inductive pyval : Type :=
| VNone
| VBool (b : bool)
| VInt (n : Z)
| VStr (s : string)
| VList (l : list pyval)
| VDict (d : list (string * pyval)).

Inductive exn : Type :=
| TypeError
| KeyError
| AttributeError
| UnicodeDecodeError
| ValueError
| RecursionError.

Inductive result (A : Type) : Type :=
| Ok (a : A)
| Raise (e : exn).

Arguments Ok {A} a.
Arguments Raise {A} e.

Definition rbind {A B : Type} (r : result A) (k : A -> result B) : result B :=
  match r with
  | Ok a => k a
  | Raise e => Raise e
  end.

Declare Scope result_scope.
Delimit Scope result_scope with result.
Notation "x <- r ;; k" := (rbind r (fun x => k))
  (at level 61, r at next level, right associativity) : result_scope.

Fixpoint rmap {A B : Type} (f : A -> result B) (l : list A) : result (list B) :=
  match l with
  | [] => Ok []
  | x :: l' =>
      (y <- f x ;;
       ys <- rmap f l' ;;
       Ok (y :: ys))%result
  end.

(** [bool(v)]: the truth value Python gives a JSON-shaped value. *)
Definition truthy (v : pyval) : bool :=
  match v with
  | VNone => false
  | VBool b => b
  | VInt n => negb (Z.eqb n 0)
  | VStr s => negb (String.eqb s "")
  | VList l => match l with [] => false | _ => true end
  | VDict d => match d with [] => false | _ => true end
  end.

(* ------------------------------------------------------------------ *)
(** ** dict operations on association lists (keys are unique) *)

Fixpoint dict_get (k : string) (d : list (string * pyval)) : option pyval :=
  match d with
  | [] => None
  | (k', v) :: d' => if String.eqb k k' then Some v else dict_get k d'
  end.

(** [d.pop(k, None)], keeping the rest of the dict. *)
Fixpoint dict_pop (k : string) (d : list (string * pyval)) : list (string * pyval) :=
  match d with
  | [] => []
  | (k', v) :: d' => if String.eqb k k' then dict_pop k d' else (k', v) :: dict_pop k d'
  end.

(** [d[k] = v]: an existing key keeps its position, a new key goes last. *)
Fixpoint dict_set (k : string) (v : pyval) (d : list (string * pyval)) : list (string * pyval) :=
  match d with
  | [] => [(k, v)]
  | (k', v') :: d' => if String.eqb k k' then (k, v) :: d' else (k', v') :: dict_set k v d'
  end.

(** [d.get(k, default)] *)
Definition dict_get_default (k : string) (default : pyval) (d : list (string * pyval)) : pyval :=
  match dict_get k d with
  | Some v => v
  | None => default
  end.

(** [data[k] = v] on a dict. *)
Definition py_setitem (data : pyval) (k : string) (v : pyval) : pyval :=
  match data with
  | VDict d => VDict (dict_set k v d)
  | other => other
  end.

(** [v.get(k, default)] on an arbitrary value: only a dict has [get]. *)
Definition py_get (v : pyval) (k : string) (default : pyval) : result pyval :=
  match v with
  | VDict d => Ok (dict_get_default k default d)
  | _ => Raise AttributeError
  end.

(** [v[k]] with a string key. *)
Definition py_subscript (v : pyval) (k : string) : result pyval :=
  match v with
  | VDict d => match dict_get k d with Some x => Ok x | None => Raise KeyError end
  | _ => Raise TypeError
  end.

(** [len(v)] *)
Definition py_len (v : pyval) : result nat :=
  match v with
  | VStr s => Ok (String.length s)
  | VList l => Ok (List.length l)
  | VDict d => Ok (List.length d)
  | _ => Raise TypeError
  end.

Definition str_of_char (c : ascii) : string := String c EmptyString.

Fixpoint chars_of (s : string) : list string :=
  match s with
  | EmptyString => []
  | String c s' => str_of_char c :: chars_of s'
  end.

(** [for x in v]: the items a value yields when iterated. *)
Definition py_iter (v : pyval) : result (list pyval) :=
  match v with
  | VList l => Ok l
  | VDict d => Ok (map (fun kv => VStr (fst kv)) d)
  | VStr s => Ok (map VStr (chars_of s))
  | _ => Raise TypeError
  end.

(** Python's [==] on JSON-shaped values: a bool is the integer 0 or 1, lists
    compare element by element, dicts as maps (order of keys irrelevant). *)
Fixpoint py_eqb (a b : pyval) {struct a} : bool :=
  match a, b with
  | VNone, VNone => true
  | VBool x, VBool y => Bool.eqb x y
  | VBool x, VInt n => Z.eqb (Z.b2z x) n
  | VInt n, VBool y => Z.eqb n (Z.b2z y)
  | VInt n, VInt m => Z.eqb n m
  | VStr s, VStr t => String.eqb s t
  | VList l, VList m =>
      (fix go (l m : list pyval) {struct l} : bool :=
         match l, m with
         | [], [] => true
         | x :: l', y :: m' => py_eqb x y && go l' m'
         | _, _ => false
         end) l m
  | VDict d, VDict e =>
      Nat.eqb (List.length d) (List.length e) &&
      (fix go (d : list (string * pyval)) {struct d} : bool :=
         match d with
         | [] => true
         | (k, v) :: d' =>
             match dict_get k e with
             | Some w => py_eqb v w
             | None => false
             end && go d'
         end) d
  | _, _ => false
  end.

(* ------------------------------------------------------------------ *)
(** ** str methods *)

Definition code (c : ascii) : nat := nat_of_ascii c.

(** [c.isspace()] for code points below 256. *)
Definition is_space (c : ascii) : bool :=
  let n := code c in
  (((9 <=? n) && (n <=? 13)) || ((28 <=? n) && (n <=? 32)) || (n =? 133) || (n =? 160))%nat.

Fixpoint lstrip (s : string) : string :=
  match s with
  | EmptyString => EmptyString
  | String c s' => if is_space c then lstrip s' else s
  end.

Fixpoint rstrip (s : string) : string :=
  match s with
  | EmptyString => EmptyString
  | String c s' =>
      match rstrip s' with
      | EmptyString => if is_space c then EmptyString else str_of_char c
      | r => String c r
      end
  end.

(** [s.strip()] *)
Definition strip (s : string) : string := rstrip (lstrip s).

Definition lower_char (c : ascii) : ascii :=
  let n := code c in
  if (((65 <=? n) && (n <=? 90)) || ((192 <=? n) && (n <=? 222) && negb (n =? 215)))%nat
  then ascii_of_nat (n + 32) else c.

(** [s.lower()] *)
Fixpoint lower (s : string) : string :=
  match s with
  | EmptyString => EmptyString
  | String c s' => String (lower_char c) (lower s')
  end.

(** [sub in s] *)
Fixpoint contains (sub s : string) : bool :=
  if String.prefix sub s then true
  else match s with
       | EmptyString => false
       | String _ s' => contains sub s'
       end.

(** [sep.join(parts)] *)
Definition join (sep : string) (parts : list string) : string := String.concat sep parts.

(** [str(n)] for a natural number, as an f-string prints [len(...)] or an index. *)
Definition str_of_nat (n : nat) : string := NilZero.string_of_uint (Nat.to_uint n).

(** [s.split()]: maximal runs of non-space characters. *)
Fixpoint split_ws_aux (cur : string) (s : string) : list string :=
  match s with
  | EmptyString => match cur with EmptyString => [] | _ => [cur] end
  | String c s' =>
      if is_space c
      then match cur with
           | EmptyString => split_ws_aux EmptyString s'
           | _ => cur :: split_ws_aux EmptyString s'
           end
      else split_ws_aux (cur ++ str_of_char c) s'
  end.

Definition split_ws (s : string) : list string := split_ws_aux EmptyString s.

(* ------------------------------------------------------------------ *)
(** ** json.dumps(v, sort_keys=True) *)

Definition dquote : string := str_of_char (ascii_of_nat 34).
Definition backslash : string := str_of_char (ascii_of_nat 92).

Definition hex_digit (n : nat) : string :=
  String.substring n 1 "0123456789abcdef".

(** One character under [ensure_ascii=True]: the regular expression
    [ESCAPE_ASCII] picks the backslash, the double quote and everything
    outside the range space..tilde; [ESCAPE_DCT] has the short forms. *)
Definition escape_char (c : ascii) : string :=
  let n := code c in
  if (n =? 34)%nat then backslash ++ dquote
  else if (n =? 92)%nat then backslash ++ backslash
  else if (n =? 8)%nat then backslash ++ "b"
  else if (n =? 12)%nat then backslash ++ "f"
  else if (n =? 10)%nat then backslash ++ "n"
  else if (n =? 13)%nat then backslash ++ "r"
  else if (n =? 9)%nat then backslash ++ "t"
  else if ((n <? 32) || (126 <? n))%nat
       then backslash ++ "u00" ++ hex_digit (n / 16) ++ hex_digit (n mod 16)
  else str_of_char c.

Fixpoint escape_chars (s : string) : string :=
  match s with
  | EmptyString => EmptyString
  | String c s' => escape_char c ++ escape_chars s'
  end.

(** [py_encode_basestring_ascii] *)
Definition encode_basestring_ascii (s : string) : string :=
  dquote ++ escape_chars s ++ dquote.

(** [sorted(dct.items())]: keys are unique, so only keys are ever compared. *)
Fixpoint insert_item {A : Type} (x : string * A) (l : list (string * A)) : list (string * A) :=
  match l with
  | [] => [x]
  | y :: l' => if String.leb (fst x) (fst y) then x :: l else y :: insert_item x l'
  end.

Fixpoint sort_items {A : Type} (l : list (string * A)) : list (string * A) :=
  match l with
  | [] => []
  | x :: l' => insert_item x (sort_items l')
  end.

Definition str_of_Z (n : Z) : string := NilZero.string_of_int (Z.to_int n).

Definition render_item (kv : string * string) : string :=
  encode_basestring_ascii (fst kv) ++ ": " ++ snd kv.

(** The encoder of [json.dumps] with [sort_keys=True] and the default
    separators.  The items of a dict are rendered first and sorted by key
    afterwards; the order of the result depends on the keys alone, so this is
    the text Python produces by sorting first. *)
Fixpoint dumps_sorted (v : pyval) : string :=
  match v with
  | VNone => "null"
  | VBool true => "true"
  | VBool false => "false"
  | VInt n => str_of_Z n
  | VStr s => encode_basestring_ascii s
  | VList l => "[" ++ join ", " (map dumps_sorted l) ++ "]"
  | VDict d =>
      "{" ++ join ", " (map render_item
               (sort_items (map (fun kv => (fst kv, dumps_sorted (snd kv))) d))) ++ "}"
  end.

(* ------------------------------------------------------------------ *)
(** ** hashlib.md5(...).hexdigest() *)

Module MD5.

Local Open Scope Z_scope.

Definition mask32 : Z := 4294967295.

Definition add32 (x y : Z) : Z := Z.land (x + y) mask32.

Definition not32 (x : Z) : Z := Z.lxor x mask32.

Definition rotl32 (x : Z) (c : Z) : Z :=
  Z.lor (Z.land (Z.shiftl x c) mask32) (Z.shiftr x (32 - c)).

Definition shifts : list Z :=
  [7; 12; 17; 22; 7; 12; 17; 22; 7; 12; 17; 22; 7; 12; 17; 22;
   5; 9; 14; 20; 5; 9; 14; 20; 5; 9; 14; 20; 5; 9; 14; 20;
   4; 11; 16; 23; 4; 11; 16; 23; 4; 11; 16; 23; 4; 11; 16; 23;
   6; 10; 15; 21; 6; 10; 15; 21; 6; 10; 15; 21; 6; 10; 15; 21].

(** floor(2^32 * abs(sin(i + 1))) for i = 0..63 *)
Definition sines : list Z :=
  [3614090360; 3905402710; 606105819; 3250441966; 4118548399; 1200080426;
   2821735955; 4249261313; 1770035416; 2336552879; 4294925233; 2304563134;
   1804603682; 4254626195; 2792965006; 1236535329; 4129170786; 3225465664;
   643717713; 3921069994; 3593408605; 38016083; 3634488961; 3889429448;
   568446438; 3275163606; 4107603335; 1163531501; 2850285829; 4243563512;
   1735328473; 2368359562; 4294588738; 2272392833; 1839030562; 4259657740;
   2763975236; 1272893353; 4139469664; 3200236656; 681279174; 3936430074;
   3572445317; 76029189; 3654602809; 3873151461; 530742520; 3299628645;
   4096336452; 1126891415; 2878612391; 4237533241; 1700485571; 2399980690;
   4293915773; 2240044497; 1873313359; 4264355552; 2734768916; 1309151649;
   4149444226; 3174756917; 718787259; 3951481745].

Definition bytes_of (s : string) : list Z :=
  map (fun c => Z.of_nat (nat_of_ascii c)) (list_ascii_of_string s).

Definition le_bytes (count : nat) (x : Z) : list Z :=
  map (fun i => Z.land (Z.shiftr x (8 * Z.of_nat i)) 255) (seq 0 count).

(** The message followed by the bit 1, zeros up to 56 modulo 64, and the
    length in bits as 64 little-endian bits. *)
Definition pad (msg : list Z) : list Z :=
  let len := Z.of_nat (List.length msg) in
  let zeros := Z.to_nat ((55 - len) mod 64) in
  (msg ++ [128] ++ repeat 0 zeros ++ le_bytes 8 (Z.land (8 * len) 18446744073709551615))%list.

Fixpoint words_of (n : nat) (bs : list Z) : list Z :=
  match n with
  | O => []
  | S n' =>
      match bs with
      | b0 :: b1 :: b2 :: b3 :: rest =>
          (b0 + Z.shiftl b1 8 + Z.shiftl b2 16 + Z.shiftl b3 24) :: words_of n' rest
      | _ => []
      end
  end.

Definition state : Type := (Z * Z * Z * Z)%type.

Definition round (m : list Z) (st : state) (i : nat) : state :=
  let '(a, b, c, d) := st in
  let iz := Z.of_nat i in
  let '(f, g) :=
    if (i <? 16)%nat then (Z.lor (Z.land b c) (Z.land (not32 b) d), iz)
    else if (i <? 32)%nat then (Z.lor (Z.land d b) (Z.land (not32 d) c), (5 * iz + 1) mod 16)
    else if (i <? 48)%nat then (Z.lxor (Z.lxor b c) d, (3 * iz + 5) mod 16)
    else (Z.lxor c (Z.lor b (not32 d)), (7 * iz) mod 16) in
  let f' := add32 (add32 (add32 f a) (nth i sines 0)) (nth (Z.to_nat g) m 0) in
  (d, add32 b (rotl32 f' (nth i shifts 0)), b, c).

Definition compress (st : state) (m : list Z) : state :=
  let '(a0, b0, c0, d0) := st in
  let '(a, b, c, d) := fold_left (round m) (seq 0 64) st in
  (add32 a0 a, add32 b0 b, add32 c0 c, add32 d0 d).

Fixpoint blocks (n : nat) (bs : list Z) : list (list Z) :=
  match n with
  | O => []
  | S n' => words_of 16 (firstn 64 bs) :: blocks n' (skipn 64 bs)
  end.

Definition init : state := (1732584193, 4023233417, 2562383102, 271733878).

Definition digest (msg : list Z) : list Z :=
  let p := pad msg in
  let '(a, b, c, d) := fold_left compress (blocks (List.length p / 64) p) init in
  (le_bytes 4 a ++ le_bytes 4 b ++ le_bytes 4 c ++ le_bytes 4 d)%list.

Definition hex_byte (b : Z) : string :=
  hex_digit (Z.to_nat (b / 16)) ++ hex_digit (Z.to_nat (b mod 16)).

Definition hexdigest (s : string) : string :=
  String.concat "" (map hex_byte (digest (bytes_of s))).

End MD5.

(* ------------------------------------------------------------------ *)
(** ** The part of BeautifulSoup and soupsieve the scripts use *)

Module Bs4.

(** An attribute value: a string, or a list of tokens for the multi-valued
    attributes ([class] and the like). *)
Inductive attr : Type :=
| AStr (s : string)
| AList (l : list string).

(** The parse tree.  The BeautifulSoup object itself is the tag named
    [[document]]; tag and attribute names are lower case, as the parser
    leaves them. *)
Inductive node : Type :=
| Text (s : string)
| Tag (name : string) (attrs : list (string * attr)) (children : list node).

(** A NavigableString together with its [.parent]. *)
Record nstring : Type := { ns_text : string; ns_parent : option node }.

Definition matcher : Type := string -> bool.

Definition BeautifulSoup (html_parser : string -> list node) (markup : string) : node :=
  Tag "[document]" [] (html_parser markup).

Definition tag_name (n : node) : string :=
  match n with
  | Text _ => ""
  | Tag name _ _ => name
  end.

Definition is_tag (n : node) : bool :=
  match n with
  | Text _ => false
  | Tag _ _ _ => true
  end.

Fixpoint attr_lookup (k : string) (attrs : list (string * attr)) : option attr :=
  match attrs with
  | [] => None
  | (k', a) :: rest => if String.eqb k k' then Some a else attr_lookup k rest
  end.

Definition py_of_attr (a : attr) : pyval :=
  match a with
  | AStr s => VStr s
  | AList l => VList (map VStr l)
  end.

(** [tag.get(key, default)] *)
Definition get (n : node) (key : string) (default : pyval) : pyval :=
  match n with
  | Text _ => default
  | Tag _ attrs _ =>
      match attr_lookup key attrs with
      | Some a => py_of_attr a
      | None => default
      end
  end.

(** [tag.descendants]: everything below the tag, in document order. *)
Fixpoint descendants (n : node) : list node :=
  match n with
  | Text _ => []
  | Tag _ _ cs => flat_map (fun c => c :: descendants c) cs
  end.

(** [tag.find_all(names)] with a tag name or a list of tag names. *)
Definition find_all (names : list string) (root : node) : list node :=
  filter (fun n => is_tag n && existsb (String.eqb (tag_name n)) names) (descendants root).

(** The strings below a tag, in document order, each with its parent. *)
Fixpoint strings_under (parent : node) (n : node) : list nstring :=
  match n with
  | Text s => [{| ns_text := s; ns_parent := Some parent |}]
  | Tag _ _ cs => flat_map (strings_under n) cs
  end.

Definition all_strings (root : node) : list nstring :=
  match root with
  | Text _ => []
  | Tag _ _ cs => flat_map (strings_under root) cs
  end.

Fixpoint kw_lookup (k : string) (kwargs : list (string * matcher)) : option matcher :=
  match kwargs with
  | [] => None
  | (k', f) :: rest => if String.eqb k k' then Some f else kw_lookup k rest
  end.

Definition kw_remove (k : string) (kwargs : list (string * matcher)) : list (string * matcher) :=
  filter (fun kf => negb (String.eqb k (fst kf))) kwargs.

(** [tag.find_all(string=..., **kwargs)] as far as it returns strings.
    [_find_all] takes the deprecated keyword [text] for [string] when
    [string] is not given; any keyword left over is an attribute filter,
    which no string satisfies. *)
Definition find_all_strings (string_arg : option matcher)
    (kwargs : list (string * matcher)) (root : node) : list nstring :=
  let '(string_arg, kwargs) :=
    match string_arg, kw_lookup "text" kwargs with
    | None, Some f => (Some f, kw_remove "text" kwargs)
    | _, _ => (string_arg, kwargs)
    end in
  match string_arg, kwargs with
  | Some f, [] => filter (fun e => f (ns_text e)) (all_strings root)
  | _, _ => []
  end.

(** [tag.get_text(strip=True)]: the stripped strings below the tag that are
    not empty, joined without separator. *)
Definition get_text_strip (n : node) : string :=
  join "" (filter (fun s => negb (String.eqb s ""))
             (map (fun e => strip (ns_text e)) (all_strings n))).

(** [soup.title]: the first tag named [title], if any. *)
Definition title (root : node) : option node :=
  hd_error (find_all ["title"] root).

(** [tag.string]: the only child when it is a string, or its [.string]. *)
Fixpoint string_of (n : node) : option string :=
  match n with
  | Text s => Some s
  | Tag _ _ cs =>
      match cs with
      | [c] => string_of c
      | _ => None
      end
  end.

(** The selectors of the scripts, after soupsieve has compiled them. *)
Inductive css : Type :=
| CssClass (c : string)
| CssTag (t : string)
| CssAttrContains (t : option string) (a : string) (v : string).

Definition after (n : nat) (s : string) : string :=
  String.substring n (String.length s - n) s.

(** [.name], [name], [[attr*="value"]] and [name[attr*="value"]]. *)
Definition compile (selector : string) : option css :=
  if String.prefix "." selector then Some (CssClass (after 1 selector))
  else match String.index 0 "[" selector with
       | None => Some (CssTag selector)
       | Some i =>
           let t := String.substring 0 i selector in
           let body := after (i + 1) selector in
           let op := "*=" ++ dquote in
           let close := dquote ++ "]" in
           match String.index 0 op body with
           | None => None
           | Some j =>
               let a := String.substring 0 j body in
               let rest := after (j + 3) body in
               match String.index 0 close rest with
               | None => None
               | Some k =>
                   if (k + 2 =? String.length rest)%nat
                   then Some (CssAttrContains
                                (if String.eqb t "" then None else Some t)
                                a (String.substring 0 k rest))
                   else None
               end
           end
       end.

Definition classes_of (n : node) : list string :=
  match n with
  | Text _ => []
  | Tag _ attrs _ =>
      match attr_lookup "class" attrs with
      | Some (AList l) => l
      | Some (AStr s) => split_ws s
      | None => []
      end
  end.

Definition attr_text (a : attr) : string :=
  match a with
  | AStr s => s
  | AList l => join " " l
  end.

Definition matches (c : css) (n : node) : bool :=
  match n with
  | Text _ => false
  | Tag name attrs _ =>
      match c with
      | CssClass cl => existsb (String.eqb cl) (classes_of n)
      | CssTag t => String.eqb name t
      | CssAttrContains t a v =>
          match t with
          | Some t' => String.eqb name t'
          | None => true
          end &&
          match attr_lookup a attrs with
          | Some x => contains v (attr_text x)
          | None => false
          end
      end
  end.

(** [soup.select(selector)]: the matching tags below the root, in document
    order. *)
Definition select (selector : string) (root : node) : list node :=
  match compile selector with
  | Some c => filter (matches c) (descendants root)
  | None => []
  end.

End Bs4.

(* ------------------------------------------------------------------ *)
(** ** The outside world *)

(** One entry of the page configuration as [get_target_urls] builds it from
    the environment: a name and a URL, both of them strings. *)
Record page_config : Type := { name : string; url : string }.

(** The dict [{"name": ..., "url": ...}] that such a page is in Python. *)
Definition entry_of (page : page_config) : pyval :=
  VDict [("name", VStr (name page)); ("url", VStr (url page))].

(** What a run cannot decide by itself. *)
Record runtime : Type := {
  (** what [get_target_urls()] returns, for a configuration whose pages are
      records of a name and a URL ([MultiEnv.get_target_urls] is the function
      itself, over the environment and [urls_config.json]) *)
  target_urls : list page_config;
  (** whether [TEST_EMAIL] is set to [true] *)
  test_email : bool;
  (** [requests.get(url).text], or [None] after a [RequestException] *)
  http_get : string -> option string;
  (** the tree [html.parser] builds *)
  html_parser : string -> list Bs4.node;
  (** [datetime.now().isoformat()] *)
  now_iso : string;
  (** [datetime.now().strftime(...)] *)
  now_stamp : string;
  (** [list(s)] for a set [s]: the order in which a set yields its members;
      it follows the string hashes of the process *)
  set_order : list pyval -> list pyval;
  (** outcome of each delivery channel for a message *)
  twilio_ok : string -> bool;
  gmail_sms_ok : string -> bool;
  email_ok : string -> string -> bool
}.

(** A file that is read with [open(path, 'r')] and [json.load]:
    - [Unloadable e]: a file on which the read raises [e], an exception that
      is neither a [json.JSONDecodeError] nor an [IOError]:
      [UnicodeDecodeError] for bytes that are no text in the encoding [open]
      uses, [ValueError] or [RecursionError] for a document that [json.load]
      cannot build (an integer of too many digits, nesting too deep);
    - [Garbled]: text that [json.load] rejects with [json.JSONDecodeError],
      or a file that cannot be opened or read ([IOError]);
    - [Json v]: a JSON document, [v] being what [json.load] returns. *)
Inductive file : Type :=
| Unloadable (e : exn)
| Garbled
| Json (v : pyval).

Inductive event : Type :=
| EvFetch (url : string)
| EvSaveContent (path : string) (html : string)
| EvSaveSnapshot (path : string) (data : pyval)
| EvNotify (message : string)
| EvSmsTwilio (message : string)
| EvSmsGmail (message : string)
| EvEmail (subject : string) (body : string).

(** The snapshot files on disk and the external calls made so far, oldest
    first. *)
Record world : Type := {
  files : list (string * file);
  trace : list event
}.

Fixpoint file_lookup (path : string) (fs : list (string * file)) : option file :=
  match fs with
  | [] => None
  | (p, f) :: rest => if String.eqb path p then Some f else file_lookup path rest
  end.

Fixpoint file_write (path : string) (f : file) (fs : list (string * file)) : list (string * file) :=
  match fs with
  | [] => [(path, f)]
  | (p, f') :: rest =>
      if String.eqb path p then (path, f) :: rest else (p, f') :: file_write path f rest
  end.

Definition log (e : event) (w : world) : world :=
  {| files := files w; trace := (trace w ++ [e])%list |}.

Definition enumerate {A : Type} (l : list A) : list (nat * A) :=
  combine (seq 0 (List.length l)) l.

(* ------------------------------------------------------------------ *)
(** ** Code that runs in a world and may raise *)

Definition io (A : Type) : Type := world -> result A * world.

Definition ret {A : Type} (a : A) : io A := fun w => (Ok a, w).

Definition bind {A B : Type} (m : io A) (k : A -> io B) : io B :=
  fun w =>
    match m w with
    | (Ok a, w') => k a w'
    | (Raise e, w') => (Raise e, w')
    end.

Definition lift {A : Type} (r : result A) : io A := fun w => (r, w).

Definition emit (e : event) : io unit := fun w => (Ok tt, log e w).

(** [try: body except Exception: handler] *)
Definition try_except {A : Type} (body : io A) (handler : exn -> io A) : io A :=
  fun w =>
    match body w with
    | (Ok a, w') => (Ok a, w')
    | (Raise e, w') => handler e w'
    end.

Declare Scope io_scope.
Delimit Scope io_scope with io.
Notation "x <- m ;; k" := (bind m (fun x => k))
  (at level 61, m at next level, right associativity) : io_scope.
Notation "m ;; k" := (bind m (fun _ => k))
  (at level 61, right associativity) : io_scope.

(* ------------------------------------------------------------------ *)
(** ** Python sets of hashable values *)

Definition hashable (v : pyval) : bool :=
  match v with
  | VList _ | VDict _ => false
  | _ => true
  end.

Definition set_mem (v : pyval) (s : list pyval) : bool := existsb (py_eqb v) s.

(** [s.add(v)] *)
Definition set_add (s : list pyval) (v : pyval) : list pyval :=
  if set_mem v s then s else (s ++ [v])%list.

(** [a - b] *)
Definition set_diff (a b : list pyval) : list pyval :=
  filter (fun v => negb (set_mem v b)) a.

(** [set(item[key] for item in items)] *)
Fixpoint set_of_field (key : string) (items : list pyval) (acc : list pyval)
  : result (list pyval) :=
  match items with
  | [] => Ok acc
  | item :: rest =>
      (v <- py_subscript item key ;;
       if hashable v then set_of_field key rest (set_add acc v) else Raise TypeError)%result
  end.

(** [sep.join(items)]: every item has to be a [str]. *)
Definition py_join (sep : string) (items : list pyval) : result string :=
  (strs <- rmap (fun v => match v with VStr s => Ok s | _ => Raise TypeError end) items ;;
   Ok (join sep strs))%result.

(** [repr(s)] for a [str].  The text stands in single quotes, or in double
    quotes when it holds a single quote and no double quote.  The backslash
    and the quote in use are escaped by a backslash, tab, newline and carriage
    return have their short forms, and every other character that is not
    printable (below space, 127 to 160, and 173) is written [\xNN]. *)
Definition quote_of (s : string) : ascii :=
  if contains "'" s && negb (contains dquote s)
  then ascii_of_nat 34
  else ascii_of_nat 39.

Definition repr_char (quote c : ascii) : string :=
  let n := code c in
  if (n =? 92)%nat then backslash ++ backslash
  else if Ascii.eqb c quote then backslash ++ str_of_char c
  else if (n =? 9)%nat then backslash ++ "t"
  else if (n =? 10)%nat then backslash ++ "n"
  else if (n =? 13)%nat then backslash ++ "r"
  else if ((n <? 32) || ((126 <? n) && (n <? 161)) || (n =? 173))%nat
       then backslash ++ "x" ++ hex_digit (n / 16) ++ hex_digit (n mod 16)
  else str_of_char c.

Fixpoint repr_chars (quote : ascii) (s : string) : string :=
  match s with
  | EmptyString => EmptyString
  | String c s' => repr_char quote c ++ repr_chars quote s'
  end.

Definition repr_str (s : string) : string :=
  let quote := quote_of s in
  str_of_char quote ++ repr_chars quote s ++ str_of_char quote.

(** [repr(v)]: a dict is printed in the order of its entries. *)
Fixpoint py_repr (v : pyval) : string :=
  match v with
  | VNone => "None"
  | VBool true => "True"
  | VBool false => "False"
  | VInt n => str_of_Z n
  | VStr s => repr_str s
  | VList l => "[" ++ join ", " (map py_repr l) ++ "]"
  | VDict d =>
      "{" ++ join ", " (map (fun kv => repr_str (fst kv) ++ ": " ++ py_repr (snd kv)) d)
        ++ "}"
  end.

(** How an f-string, and [str()], print a value: a [str] as it is, every
    other value by its [repr]. *)
Definition py_format (v : pyval) : string :=
  match v with
  | VStr s => s
  | _ => py_repr v
  end.

Definition newline : string := str_of_char (ascii_of_nat 10).

(** [l.append(x)] *)
Definition list_append {A : Type} (l : list A) (x : A) : list A := (l ++ [x])%list.

(* ------------------------------------------------------------------ *)
(** ** python_monitor_script.py *)

Module Single.

Definition TARGET_URL : string := "https://www.cornell.edu/visit/plan/activities/?date=6-27-2025".
Definition SNAPSHOT_FILE : string := "page_snapshot.json".
Definition CONTENT_FILE : string := "page_content.html".

Definition fetch_page_content (rt : runtime) : io (option string) :=
  (emit (EvFetch TARGET_URL) ;;
   ret (http_get rt TARGET_URL))%io.

Definition input_data (inp : Bs4.node) : pyval :=
  VDict [("type", Bs4.get inp "type"
                    (VStr (if negb (String.eqb (Bs4.tag_name inp) "")
                           then Bs4.tag_name inp else "unknown")));
         ("name", Bs4.get inp "name" (VStr ""));
         ("value", Bs4.get inp "value" (VStr ""));
         ("text", VStr (if negb (String.eqb (Bs4.get_text_strip inp) "")
                        then Bs4.get_text_strip inp else ""))].

Definition form_entry (form : Bs4.node) : pyval :=
  VDict [("action", Bs4.get form "action" (VStr ""));
         ("method", Bs4.get form "method" (VStr ""));
         ("inputs", VList (map input_data
                             (Bs4.find_all ["input"; "select"; "textarea"; "button"] form)))].

Definition activity_selectors : list string :=
  [".activity"; ".event"; ".program"; ".tour";
   "[class*=" ++ dquote ++ "activity" ++ dquote ++ "]";
   "[class*=" ++ dquote ++ "event" ++ dquote ++ "]";
   "[class*=" ++ dquote ++ "registration" ++ dquote ++ "]";
   "button[class*=" ++ dquote ++ "register" ++ dquote ++ "]";
   "a[class*=" ++ dquote ++ "register" ++ dquote ++ "]";
   ".btn"; "button";
   "a[href*=" ++ dquote ++ "register" ++ dquote ++ "]"].

(** The body of the loop over the elements a selector matched: what one
    match appends to [activities]. *)
Definition activity_entry (selector : string) (elem : Bs4.node) : list pyval :=
  let text := Bs4.get_text_strip elem in
  if negb (String.eqb text "") && (5 <? String.length text)%nat
  then [VDict [("selector", VStr selector);
               ("text", VStr text);
               ("href", Bs4.get elem "href" (VStr ""));
               ("class", Bs4.get elem "class" (VList []))]]
  else [].

Definition status_keywords : list string :=
  ["available"; "sold out"; "full"; "register"; "book now"; "reserve"; "waitlist"].

(** [lambda x: x and keyword.lower() in x.lower()] *)
Definition mentions (keyword : string) : Bs4.matcher :=
  fun x => negb (String.eqb x "") && contains (lower keyword) (lower x).

Definition status_entry (keyword : string) (elem : Bs4.nstring) : list pyval :=
  match Bs4.ns_parent elem with
  | Some parent =>
      [VDict [("keyword", VStr keyword);
              ("text", VStr (strip (Bs4.ns_text elem)));
              ("parent_tag", VStr (Bs4.tag_name parent));
              ("parent_class", Bs4.get parent "class" (VList []))]]
  | None => []
  end.

Definition extract_form_data (rt : runtime) (html_content : string) : pyval :=
  let soup := Bs4.BeautifulSoup (html_parser rt) html_content in
  let form_data :=
    fold_left (fun fd '(i, form) => dict_set ("form_" ++ str_of_nat i) (form_entry form) fd)
              (enumerate (Bs4.find_all ["form"] soup)) [] in
  let activities :=
    flat_map (fun selector => flat_map (activity_entry selector) (Bs4.select selector soup))
             activity_selectors in
  let status_elements :=
    flat_map (fun keyword =>
                flat_map (status_entry keyword)
                         (Bs4.find_all_strings None [("text", mentions keyword)] soup))
             status_keywords in
  VDict [("forms", VDict form_data);
         ("activities", VList activities);
         ("status_elements", VList status_elements);
         ("page_title", match Bs4.title soup with
                        | Some t => match Bs4.string_of t with
                                    | Some s => VStr s
                                    | None => VNone
                                    end
                        | None => VStr ""
                        end);
         ("timestamp", VStr (now_iso rt))].

(** A file that does not exist gives [None]; [except (json.JSONDecodeError,
    IOError)] turns these two into [None] and lets every other exception of
    the read through. *)
Definition load_previous_snapshot : io pyval :=
  fun w =>
    match file_lookup SNAPSHOT_FILE (files w) with
    | Some (Json v) => (Ok v, w)
    | Some Garbled => (Ok VNone, w)
    | Some (Unloadable e) => (Raise e, w)
    | None => (Ok VNone, w)
    end.

Definition save_snapshot (data : pyval) : io unit :=
  fun w =>
    (Ok tt, log (EvSaveSnapshot SNAPSHOT_FILE data)
              {| files := file_write SNAPSHOT_FILE (Json data) (files w); trace := trace w |}).

Definition save_content (html_content : string) : io unit :=
  emit (EvSaveContent CONTENT_FILE html_content).

(** [data.copy()] needs a dict or a list, [pop] with a default needs a dict. *)
Definition calculate_content_hash (data : pyval) : result string :=
  match data with
  | VDict d =>
      let comparison_data := dict_pop "timestamp" d in
      let content_str := dumps_sorted (VDict comparison_data) in
      Ok (MD5.hexdigest content_str)
  | VList _ => Raise TypeError
  | _ => Raise AttributeError
  end.

Definition send_email_notification (rt : runtime) (subject body : string) : io bool :=
  (emit (EvEmail subject body) ;;
   ret (email_ok rt subject body))%io.

Definition send_notification (rt : runtime) (message : string) : io bool :=
  (emit (EvNotify message) ;;
   sent <- send_email_notification rt "Cornell Visit Activities Update" message ;;
   if sent then ret true else ret false)%io.

Definition FALLBACK_NOTE : string := "Page content changed (details unclear)".

Definition compare_snapshots (rt : runtime) (old_data new_data : pyval)
  : result (option (list string)) :=
  if negb (truthy old_data) then Ok (Some ["Initial snapshot created"])
  else
    (old_hash <- calculate_content_hash old_data ;;
     new_hash <- calculate_content_hash new_data ;;
     if String.eqb old_hash new_hash then Ok None
     else
       let changes : list string := [] in
       old_forms <- py_get old_data "forms" (VDict []) ;;
       new_forms <- py_get new_data "forms" (VDict []) ;;
       old_count <- py_len old_forms ;;
       new_count <- py_len new_forms ;;
       let changes :=
         if negb (old_count =? new_count)%nat
         then list_append changes ("Number of forms changed: " ++ str_of_nat old_count
                                     ++ " -> " ++ str_of_nat new_count)
         else changes in
       old_items <- py_get old_data "activities" (VList []) ;;
       old_items <- py_iter old_items ;;
       old_activities <- set_of_field "text" old_items [] ;;
       new_items <- py_get new_data "activities" (VList []) ;;
       new_items <- py_iter new_items ;;
       new_activities <- set_of_field "text" new_items [] ;;
       let added_activities := set_diff new_activities old_activities in
       let removed_activities := set_diff old_activities new_activities in
       changes <-
         match added_activities with
         | [] => Ok changes
         | _ =>
             listed <- py_join ", " (firstn 3 (set_order rt added_activities)) ;;
             Ok (list_append changes ("New activities: " ++ listed))
         end ;;
       changes <-
         match removed_activities with
         | [] => Ok changes
         | _ =>
             listed <- py_join ", " (firstn 3 (set_order rt removed_activities)) ;;
             Ok (list_append changes ("Removed activities: " ++ listed))
         end ;;
       old_items <- py_get old_data "status_elements" (VList []) ;;
       old_items <- py_iter old_items ;;
       old_status <- set_of_field "text" old_items [] ;;
       new_items <- py_get new_data "status_elements" (VList []) ;;
       new_items <- py_iter new_items ;;
       new_status <- set_of_field "text" new_items [] ;;
       let status_changes := set_diff new_status old_status in
       changes <-
         match status_changes with
         | [] => Ok changes
         | _ =>
             listed <- py_join ", " (firstn 2 (set_order rt status_changes)) ;;
             Ok (list_append changes ("Status changes: " ++ listed))
         end ;;
       match changes with
       | [] => Ok (Some [FALLBACK_NOTE])
       | _ => Ok (Some changes)
       end)%result.

Definition main (rt : runtime) : io unit :=
  (html_content <- fetch_page_content rt ;;
   match html_content with
   | None => ret tt
   | Some "" => ret tt
   | Some html_content =>
       save_content html_content ;;
       let current_data := extract_form_data rt html_content in
       previous_data <- load_previous_snapshot ;;
       changes <- lift (compare_snapshots rt previous_data current_data) ;;
       match changes with
       | Some ((_ :: _) as changes) =>
           let change_summary := join "; " (firstn 3 changes) in
           let message :=
             "Cornell Visit Page Changed!" ++ newline ++ newline ++ change_summary
               ++ newline ++ newline ++ "Check: " ++ TARGET_URL in
           send_notification rt message ;;
           ret tt
       | _ => ret tt
       end ;;
       save_snapshot current_data
   end)%io.

End Single.

(* ------------------------------------------------------------------ *)
(** ** python_monitor_script_multi.py *)

Module Multi.

Definition get_snapshot_filename (page_name : string) : string :=
  "page_snapshot_" ++ page_name ++ ".json".

Definition get_content_filename (page_name : string) : string :=
  "page_content_" ++ page_name ++ ".html".

Definition fetch_page_content (rt : runtime) (url : string) : io (option string) :=
  (emit (EvFetch url) ;;
   ret (http_get rt url))%io.

Definition input_data (inp : Bs4.node) : pyval :=
  VDict [("type", Bs4.get inp "type"
                    (VStr (if negb (String.eqb (Bs4.tag_name inp) "")
                           then Bs4.tag_name inp else "unknown")));
         ("name", Bs4.get inp "name" (VStr ""));
         ("value", Bs4.get inp "value" (VStr ""));
         ("text", VStr (if negb (String.eqb (Bs4.get_text_strip inp) "")
                        then Bs4.get_text_strip inp else ""))].

Definition form_entry (form : Bs4.node) : pyval :=
  VDict [("action", Bs4.get form "action" (VStr ""));
         ("method", Bs4.get form "method" (VStr ""));
         ("inputs", VList (map input_data
                             (Bs4.find_all ["input"; "select"; "textarea"; "button"] form)))].

Definition activity_selectors : list string :=
  [".activity"; ".event"; ".program"; ".tour";
   "[class*=" ++ dquote ++ "activity" ++ dquote ++ "]";
   "[class*=" ++ dquote ++ "event" ++ dquote ++ "]";
   "[class*=" ++ dquote ++ "registration" ++ dquote ++ "]";
   "button[class*=" ++ dquote ++ "register" ++ dquote ++ "]";
   "a[class*=" ++ dquote ++ "register" ++ dquote ++ "]";
   ".btn"; "button";
   "a[href*=" ++ dquote ++ "register" ++ dquote ++ "]"].

Definition activity_entry (selector : string) (elem : Bs4.node) : list pyval :=
  let text := Bs4.get_text_strip elem in
  if negb (String.eqb text "") && (5 <? String.length text)%nat
  then [VDict [("selector", VStr selector);
               ("text", VStr text);
               ("href", Bs4.get elem "href" (VStr ""));
               ("class", Bs4.get elem "class" (VList []))]]
  else [].

Definition status_keywords : list string :=
  ["available"; "sold out"; "full"; "register"; "book now"; "reserve"; "waitlist"].

Definition mentions (keyword : string) : Bs4.matcher :=
  fun x => negb (String.eqb x "") && contains (lower keyword) (lower x).

Definition status_entry (keyword : string) (elem : Bs4.nstring) : list pyval :=
  match Bs4.ns_parent elem with
  | Some parent =>
      [VDict [("keyword", VStr keyword);
              ("text", VStr (strip (Bs4.ns_text elem)));
              ("parent_tag", VStr (Bs4.tag_name parent));
              ("parent_class", Bs4.get parent "class" (VList []))]]
  | None => []
  end.

(** The same text as in the other script, except that the status search
    passes its filter as [string=] where the other passes [text=]. *)
Definition extract_form_data (rt : runtime) (html_content : string) : pyval :=
  let soup := Bs4.BeautifulSoup (html_parser rt) html_content in
  let form_data :=
    fold_left (fun fd '(i, form) => dict_set ("form_" ++ str_of_nat i) (form_entry form) fd)
              (enumerate (Bs4.find_all ["form"] soup)) [] in
  let activities :=
    flat_map (fun selector => flat_map (activity_entry selector) (Bs4.select selector soup))
             activity_selectors in
  let status_elements :=
    flat_map (fun keyword =>
                flat_map (status_entry keyword)
                         (Bs4.find_all_strings (Some (mentions keyword)) [] soup))
             status_keywords in
  VDict [("forms", VDict form_data);
         ("activities", VList activities);
         ("status_elements", VList status_elements);
         ("page_title", match Bs4.title soup with
                        | Some t => match Bs4.string_of t with
                                    | Some s => VStr s
                                    | None => VNone
                                    end
                        | None => VStr ""
                        end);
         ("timestamp", VStr (now_iso rt))].

(** As in the single-page script: only [json.JSONDecodeError] and [IOError]
    are caught. *)
Definition load_previous_snapshot (page_name : string) : io pyval :=
  fun w =>
    match file_lookup (get_snapshot_filename page_name) (files w) with
    | Some (Json v) => (Ok v, w)
    | Some Garbled => (Ok VNone, w)
    | Some (Unloadable e) => (Raise e, w)
    | None => (Ok VNone, w)
    end.

Definition save_snapshot (data : pyval) (page_name : string) : io unit :=
  fun w =>
    let snapshot_file := get_snapshot_filename page_name in
    (Ok tt, log (EvSaveSnapshot snapshot_file data)
              {| files := file_write snapshot_file (Json data) (files w); trace := trace w |}).

Definition save_content (html_content : string) (page_name : string) : io unit :=
  emit (EvSaveContent (get_content_filename page_name) html_content).

Definition calculate_content_hash (data : pyval) : result string :=
  match data with
  | VDict d =>
      let comparison_data := dict_pop "timestamp" d in
      let content_str := dumps_sorted (VDict comparison_data) in
      Ok (MD5.hexdigest content_str)
  | VList _ => Raise TypeError
  | _ => Raise AttributeError
  end.

Definition send_sms_twilio (rt : runtime) (message : string) : io bool :=
  (emit (EvSmsTwilio message) ;;
   ret (twilio_ok rt message))%io.

Definition send_sms_gmail (rt : runtime) (message : string) : io bool :=
  (emit (EvSmsGmail message) ;;
   ret (gmail_sms_ok rt message))%io.

Definition send_email_notification (rt : runtime) (subject body : string) : io bool :=
  (emit (EvEmail subject body) ;;
   ret (email_ok rt subject body))%io.

(** SMS first (Twilio, then the Gmail gateway), e-mail when neither went out. *)
Definition send_notification (rt : runtime) (message : string) : io unit :=
  (emit (EvNotify message) ;;
   by_twilio <- send_sms_twilio rt message ;;
   sms_sent <- (if by_twilio then ret true else send_sms_gmail rt message) ;;
   if negb sms_sent
   then (send_email_notification rt "Page Monitor Alert" message ;; ret tt)
   else ret tt)%io.

(** The sign in front of the alert text: in the source file the four
    characters U+00F0 U+0178 U+0161 U+00A8.  Two of them lie above 255, so
    the sign is written here as the eight bytes the source file has for it
    (UTF-8: c3 b0, c5 b8, c5 a1, c2 a8).  Likewise the sign in front of the
    test message, U+00F0 U+0178 U+00A7 U+00AA (c3 b0, c5 b8, c2 a7, c2 aa).
    The scripts only send these texts; they never measure or compare them. *)
Definition ALERT_SIGN : string :=
  string_of_list_ascii (map ascii_of_nat [195; 176; 197; 184; 197; 161; 194; 168]).

Definition TEST_SIGN : string :=
  string_of_list_ascii (map ascii_of_nat [195; 176; 197; 184; 194; 167; 194; 170]).

(** [len(changes) == 1 and "details unclear" in changes[0]] *)
Definition only_details_unclear (changes : list string) : bool :=
  (List.length changes =? 1)%nat && contains "details unclear" (nth 0 changes "").

Definition compare_snapshots (rt : runtime) (old_data new_data : pyval) (page_name : string)
  : io bool :=
  if negb (truthy old_data) then ret false
  else
    (old_hash <- lift (calculate_content_hash old_data) ;;
     new_hash <- lift (calculate_content_hash new_data) ;;
     if negb (String.eqb old_hash new_hash)
     then
       let changes : list string := [] in
       old_forms <- lift (py_get old_data "forms" (VDict [])) ;;
       new_forms <- lift (py_get new_data "forms" (VDict [])) ;;
       let changes :=
         if negb (py_eqb old_forms new_forms)
         then list_append changes ("Form changes detected for " ++ page_name)
         else changes in
       old_activities <- lift (py_get old_data "activities" (VList [])) ;;
       new_activities <- lift (py_get new_data "activities" (VList [])) ;;
       let changes :=
         if negb (py_eqb old_activities new_activities)
         then list_append changes ("Activity changes detected for " ++ page_name)
         else changes in
       old_status <- lift (py_get old_data "status_elements" (VList [])) ;;
       new_status <- lift (py_get new_data "status_elements" (VList [])) ;;
       let changes :=
         if negb (py_eqb old_status new_status)
         then list_append changes ("Status changes detected for " ++ page_name)
         else changes in
       match changes with
       | [] => ret false
       | _ =>
           if only_details_unclear changes
           then ret false
           else
             url_value <- lift (py_get new_data "url" (VStr "N/A")) ;;
             let message :=
               ALERT_SIGN ++ " PAGE CHANGE ALERT for " ++ page_name ++ "!"
                 ++ newline ++ newline ++ join newline changes
                 ++ newline ++ newline ++ "URL: " ++ py_format url_value
                 ++ newline ++ "Time: " ++ now_stamp rt in
             send_notification rt message ;;
             ret true
       end
     else ret false)%io.

Definition monitor_page (rt : runtime) (page : page_config) : io bool :=
  let page_name := name page in
  let url := url page in
  (html_content <- fetch_page_content rt url ;;
   match html_content with
   | None => ret false
   | Some "" => ret false
   | Some html_content =>
       save_content html_content page_name ;;
       let current_data := extract_form_data rt html_content in
       let current_data := py_setitem current_data "url" (VStr url) in
       previous_data <- load_previous_snapshot page_name ;;
       changes_detected <- compare_snapshots rt previous_data current_data page_name ;;
       save_snapshot current_data page_name ;;
       ret true
   end)%io.

(** The loop of [main] over pages that are records of a name and a URL, as
    [get_target_urls] builds them from the environment: every page inside its
    own [try], counting the pages [monitor_page] reports as monitored.  The
    handler prints [page_config['name']], which a record always has, and goes
    on.  [MultiEnv.monitor_all] is the loop over the pages of
    [urls_config.json], which can be any JSON values. *)
Fixpoint monitor_all (rt : runtime) (pages : list page_config) (success_count : nat)
  : io nat :=
  match pages with
  | [] => ret success_count
  | page :: rest =>
      (monitored <- try_except (monitor_page rt page)
                      (fun _ => lift (py_subscript (entry_of page) "name") ;; ret false) ;;
       monitor_all rt rest (if monitored then S success_count else success_count))%io
  end.

Definition main (rt : runtime) : io unit :=
  match target_urls rt with
  | [] => ret tt
  | pages =>
      if test_email rt
      then send_notification rt
             (TEST_SIGN ++ " This is a test notification from the multi-page monitor")
      else (monitor_all rt pages 0 ;; ret tt)%io
  end.

End Multi.

(* ------------------------------------------------------------------ *)
(** ** Notions used to state the properties *)

(** [data] without the key [k]. *)
Definition py_pop (k : string) (data : pyval) : pyval :=
  match data with
  | VDict d => VDict (dict_pop k d)
  | other => other
  end.

Definition notification_of (e : event) : list string :=
  match e with EvNotify m => [m] | _ => [] end.


Definition fetch_of (e : event) : list string :=
  match e with EvFetch u => [u] | _ => [] end.

(** The messages [send_notification] was called with. *)
Definition notified (w : world) : list string := flat_map notification_of (trace w).


(** The URLs fetched. *)
Definition fetched (w : world) : list string := flat_map fetch_of (trace w).

(** A set yields each of its members once, in some order. *)
Definition set_order_sound (rt : runtime) : Prop :=
  forall s : list pyval, Permutation (set_order rt s) s.

(** The shape of a snapshot that [save_snapshot] wrote: a dict whose
    [forms] is a dict and whose [activities] and [status_elements] are lists
    of dicts with a string under [text]. *)
Definition has_text (item : pyval) : bool :=
  match item with
  | VDict e => match dict_get "text" e with Some (VStr _) => true | _ => false end
  | _ => false
  end.

Definition texts_ok (key : string) (d : list (string * pyval)) : bool :=
  match dict_get_default key (VList []) d with
  | VList l => forallb has_text l
  | _ => false
  end.

Definition snapshot_shaped (data : pyval) : bool :=
  match data with
  | VDict d =>
      match dict_get_default "forms" (VDict []) d with VDict _ => true | _ => false end
      && texts_ok "activities" d && texts_ok "status_elements" d
  | _ => false
  end.

(** The [text] of every item under [key], in the order of the list. *)
Definition text_of (item : pyval) : list string :=
  match item with
  | VDict e => match dict_get "text" e with Some (VStr s) => [s] | _ => [] end
  | _ => []
  end.

Definition field_texts (key : string) (data : pyval) : list string :=
  match data with
  | VDict d =>
      match dict_get_default key (VList []) d with
      | VList l => flat_map text_of l
      | _ => []
      end
  | _ => []
  end.

(** The number of forms a snapshot records. *)
Definition form_count (data : pyval) : nat :=
  match data with
  | VDict d =>
      match dict_get_default "forms" (VDict []) d with
      | VDict f => List.length f
      | _ => 0
      end
  | _ => 0
  end.

Definition in_str (x : string) (l : list string) : bool := existsb (String.eqb x) l.

(** The distinct members of [l], each at its first position. *)
Fixpoint first_seen (l : list string) (seen : list string) : list string :=
  match l with
  | [] => []
  | x :: l' => if in_str x seen then first_seen l' seen else x :: first_seen l' (x :: seen)
  end.

(** The distinct texts of [a] that are no text of [b], in first-seen order. *)
Definition texts_minus (a b : list string) : list string :=
  filter (fun x => negb (in_str x b)) (first_seen a []).

(** Everything [extract_form_data] returns except the timestamp, as a
    function of the parse tree. *)
Definition content_of (soup : Bs4.node) : list (string * pyval) :=
  [("forms", VDict
      (fold_left (fun fd '(i, form) =>
                    dict_set ("form_" ++ str_of_nat i) (Single.form_entry form) fd)
                 (enumerate (Bs4.find_all ["form"] soup)) []));
   ("activities", VList
      (flat_map (fun selector =>
                   flat_map (Single.activity_entry selector) (Bs4.select selector soup))
                Single.activity_selectors));
   ("status_elements", VList
      (flat_map (fun keyword =>
                   flat_map (Single.status_entry keyword)
                            (filter (fun e => Single.mentions keyword (Bs4.ns_text e))
                                    (Bs4.all_strings soup)))
                Single.status_keywords));
   ("page_title", match Bs4.title soup with
                  | Some t => match Bs4.string_of t with
                              | Some s => VStr s
                              | None => VNone
                              end
                  | None => VStr ""
                  end)].

(** Whether [load_previous_snapshot] returns for the file at [path], if
    there is one: on a file whose read raises an exception it does not catch,
    it raises that exception. *)
Definition loadable (path : string) (w : world) : bool :=
  match file_lookup path (files w) with
  | Some (Unloadable _) => false
  | _ => true
  end.

(** What [load_previous_snapshot] finds at [path], when it returns. *)
Definition previous (path : string) (w : world) : pyval :=
  match file_lookup path (files w) with
  | Some (Json v) => v
  | _ => VNone
  end.

(** A value that is true in a condition and is no dict: a non-empty list or
    string, a non-zero number, [True]. *)
Definition foreign (v : pyval) : bool :=
  truthy v && match v with VDict _ => false | _ => true end.



(** The world after [save_snapshot] has written [data] to [path]. *)
Definition after_save (path : string) (data : pyval) (w : world) : world :=
  log (EvSaveSnapshot path data)
      {| files := file_write path (Json data) (files w); trace := trace w |}.

(** The text [main] of the single-page script sends for a list of notes. *)
Definition single_message (changes : list string) : string :=
  "Cornell Visit Page Changed!" ++ newline ++ newline ++ join "; " (firstn 3 changes)
    ++ newline ++ newline ++ "Check: " ++ Single.TARGET_URL.

(** An event of message delivery. *)
Definition is_delivery (e : event) : bool :=
  match e with
  | EvNotify _ | EvSmsTwilio _ | EvSmsGmail _ | EvEmail _ _ => true
  | _ => false
  end.

(** [w] with the events [evs] added to its trace. *)
Definition extend (evs : list event) (w : world) : world :=
  {| files := files w; trace := (trace w ++ evs)%list |}.

(** The events of one call of [send_notification] in the multi-page script. *)
Definition multi_delivery (rt : runtime) (message : string) : list event :=
  EvNotify message :: EvSmsTwilio message ::
  (if twilio_ok rt message then []
   else EvSmsGmail message ::
        (if gmail_sms_ok rt message then []
         else [EvEmail "Page Monitor Alert" message])).

(** The notes the multi-page script collects for two dicts. *)
Definition multi_notes (od nd : list (string * pyval)) (page_name : string) : list string :=
  let changes : list string := [] in
  let changes :=
    if negb (py_eqb (dict_get_default "forms" (VDict []) od)
                    (dict_get_default "forms" (VDict []) nd))
    then list_append changes ("Form changes detected for " ++ page_name)
    else changes in
  let changes :=
    if negb (py_eqb (dict_get_default "activities" (VList []) od)
                    (dict_get_default "activities" (VList []) nd))
    then list_append changes ("Activity changes detected for " ++ page_name)
    else changes in
  let changes :=
    if negb (py_eqb (dict_get_default "status_elements" (VList []) od)
                    (dict_get_default "status_elements" (VList []) nd))
    then list_append changes ("Status changes detected for " ++ page_name)
    else changes in
  changes.

(** The alert the multi-page script sends for a list of notes. *)
Definition multi_message (rt : runtime) (changes : list string)
    (nd : list (string * pyval)) (page_name : string) : string :=
  Multi.ALERT_SIGN ++ " PAGE CHANGE ALERT for " ++ page_name ++ "!"
    ++ newline ++ newline ++ join newline changes
    ++ newline ++ newline ++ "URL: " ++ py_format (dict_get_default "url" (VStr "N/A") nd)
    ++ newline ++ "Time: " ++ now_stamp rt.

(** The hash of a dict. *)
Definition dict_hash (d : list (string * pyval)) : string :=
  MD5.hexdigest (dumps_sorted (VDict (dict_pop "timestamp" d))).

(** The snapshot [monitor_page] builds from a fetched page. *)
Definition multi_current (rt : runtime) (page : page_config) (html : string) : pyval :=
  VDict (content_of (Bs4.BeautifulSoup (html_parser rt) html)
           ++ [("timestamp", VStr (now_iso rt)); ("url", VStr (url page))])%list.

(** A fetch that brought nothing: a failed request or an empty body. *)
Definition no_content (response : option string) : Prop :=
  response = None \/ response = Some "".

(** [set(item['text'] for item in d.get(key, []))] *)
Definition text_set (key : string) (d : list (string * pyval)) : result (list pyval) :=
  (items <- py_iter (dict_get_default key (VList []) d) ;;
   set_of_field "text" items [])%result.

(** [len(d.get('forms', {}))] *)
Definition count_forms (d : list (string * pyval)) : result nat :=
  py_len (dict_get_default "forms" (VDict []) d).

(** The note of the single-page script for a set difference: none when the
    difference is empty, else the prefix and at most [k] members of the
    difference in the order the set yields them. *)
Definition note_for (rt : runtime) (prefix : string) (k : nat) (difference : list pyval)
  : result (list string) :=
  match difference with
  | [] => Ok []
  | _ =>
      (listed <- py_join ", " (firstn k (set_order rt difference)) ;;
       Ok [prefix ++ listed])%result
  end.

(** The note of the single-page script for the number of forms. *)
Definition form_note (old_count new_count : nat) : list string :=
  if negb (old_count =? new_count)%nat
  then ["Number of forms changed: " ++ str_of_nat old_count ++ " -> " ++ str_of_nat new_count]
  else [].

Definition is_vstr (v : pyval) : bool :=
  match v with
  | VStr _ => true
  | _ => false
  end.

(** The reading of "the source URL takes no part in the hash": setting the
    key [url] to one value or another leaves the hash of a dict the same. *)
Definition hash_ignores_url : Prop :=
  forall (d : list (string * pyval)) (u1 u2 : string),
    Multi.calculate_content_hash (VDict (dict_set "url" (VStr u1) d))
    = Multi.calculate_content_hash (VDict (dict_set "url" (VStr u2) d)).


(** The reading of "the examples are listed in first-seen order": whatever
    order sets yield their members in, the note for new activities lists the
    first three new texts in the order in which the new snapshot has them. *)
Definition listed_in_first_seen_order : Prop :=
  forall (rt : runtime) (od nd : list (string * pyval)),
    set_order_sound rt ->
    od <> [] ->
    snapshot_shaped (VDict od) = true ->
    snapshot_shaped (VDict nd) = true ->
    dict_hash od <> dict_hash nd ->
    texts_minus (field_texts "activities" (VDict nd))
                (field_texts "activities" (VDict od)) <> [] ->
    exists notes : list string,
      Single.compare_snapshots rt (VDict od) (VDict nd) = Ok (Some notes)
      /\ In ("New activities: "
               ++ join ", " (firstn 3 (texts_minus (field_texts "activities" (VDict nd))
                                                   (field_texts "activities" (VDict od)))))
            notes.

(** What a note that lists members of the difference [a] minus [b] has to
    satisfy: at most [k] examples, as many as there are up to [k], all
    different, each a text of [a] that is no text of [b], taken from the
    front of the order in which the set yields the difference. *)
Definition lists_examples (rt : runtime) (prefix : string) (k : nat)
    (a b : list string) (notes : list string) : Prop :=
  exists listed : list string,
    In (prefix ++ join ", " listed) notes
    /\ List.length listed = Nat.min k (List.length (texts_minus a b))
    /\ NoDup listed
    /\ (forall x, In x listed -> In x a /\ ~ In x b)
    /\ map VStr listed = firstn k (set_order rt (map VStr (texts_minus a b))).

(* ------------------------------------------------------------------ *)
(** ** Sample pages and runtimes *)

Module Sample.

Import Bs4.

Definition signup_form : node :=
  Tag "form" [("action", AStr "/signup"); ("method", AStr "post")]
    [Tag "input" [("type", AStr "text"); ("name", AStr "email")] [];
     Tag "button" [("class", AList ["btn"; "register"])] [Text " Register "]].

Definition tour : node :=
  Tag "div" [("class", AList ["activity"])]
    [Tag "a" [("href", AStr "/register/tour")] [Text "Campus Tour - Register Now"]].

Definition open_house : node :=
  Tag "div" [("class", AList ["activity"])] [Text "Library Open House"].

Definition go_link : node := Tag "a" [("class", AList ["btn"])] [Text "Go"].

Definition page (title_text : string) (body : list node) : list node :=
  [Tag "html" []
     [Tag "head" [] [Tag "title" [] [Text title_text]];
      Tag "body" [] body]].

Definition parser (markup : string) : list node :=
  if String.eqb markup "v1" then page "Visit" [signup_form; tour; Tag "p" [] [Text "Sold Out"]]
  else if String.eqb markup "v2"
       then page "Visit" [signup_form; tour; open_house; Tag "p" [] [Text "Sold Out"]]
  else if String.eqb markup "v3"
       then page "Visit Cornell" [signup_form; tour; Tag "p" [] [Text "Sold Out"]]
  else if String.eqb markup "v4" then page "Visit" [tour; go_link]
  else [].

(** A runtime that serves [markup] at every URL; its sets yield their
    members in first-insertion order and every delivery channel is down. *)
Definition serving (markup : option string) (clock : string) : runtime :=
  {| target_urls := [{| name := "visit"; url := "https://example.org/visit" |}];
     test_email := false;
     http_get := fun _ => markup;
     html_parser := parser;
     now_iso := clock;
     now_stamp := clock;
     set_order := fun s => s;
     twilio_ok := fun _ => false;
     gmail_sms_ok := fun _ => false;
     email_ok := fun _ _ => false |}.

(** The same, with sets that yield their members in reverse order. *)
Definition serving_rev (markup : option string) (clock : string) : runtime :=
  {| target_urls := target_urls (serving markup clock);
     test_email := false;
     http_get := fun _ => markup;
     html_parser := parser;
     now_iso := clock;
     now_stamp := clock;
     set_order := fun s => rev s;
     twilio_ok := fun _ => false;
     gmail_sms_ok := fun _ => false;
     email_ok := fun _ _ => true |}.

Definition empty_world : world := {| files := []; trace := [] |}.

Definition visit : page_config := {| name := "visit"; url := "https://example.org/visit" |}.
Definition tours : page_config := {| name := "tours"; url := "https://example.org/tours" |}.

Definition morning : string := "2025-06-01T09:00:00".
Definition evening : string := "2025-06-01T21:00:00".

(** The snapshot [markup] gives at time [clock]. *)
Definition snapshot (markup : string) (clock : string) : pyval :=
  Single.extract_form_data (serving (Some markup) clock) markup.

(** The snapshot the multi-page script builds for [page] from [markup]. *)
Definition multi_snapshot (page : page_config) (markup : string) (clock : string) : pyval :=
  py_setitem (Multi.extract_form_data (serving (Some markup) clock) markup)
             "url" (VStr (url page)).

(** The entries of a dict. *)
Definition entries (data : pyval) : list (string * pyval) :=
  match data with
  | VDict d => d
  | _ => []
  end.

(** A world in which the single-page script has saved [data]. *)
Definition world_with (data : pyval) : world :=
  {| files := [(Single.SNAPSHOT_FILE, Json data)]; trace := [] |}.

End Sample.

(* ------------------------------------------------------------------ *)
(** ** Further notions *)

(** The exception [calculate_content_hash] raises on a value that is no
    dict. *)
Definition hash_error (v : pyval) : exn :=
  match v with
  | VList _ => TypeError
  | _ => AttributeError
  end.

(** The message of the test run of the multi-page script. *)
Definition test_message : string :=
  Multi.TEST_SIGN ++ " This is a test notification from the multi-page monitor".

(** The entries of a dict, none for another value. *)
Definition entries_of (data : pyval) : list (string * pyval) :=
  match data with
  | VDict d => d
  | _ => []
  end.

(** The text of the message of the single-page script, for the notes it
    shows. *)
Definition message_text (shown : list string) : string :=
  "Cornell Visit Page Changed!" ++ newline ++ newline ++ join "; " shown
    ++ newline ++ newline ++ "Check: " ++ Single.TARGET_URL.

(** More sample pages. *)
Module Sample2.

Import Bs4.

Definition parser (markup : string) : list node :=
  if String.eqb markup "v5"
  then Sample.page "Visit"
         [Sample.signup_form; Sample.open_house; Tag "p" [] [Text "Sold Out"]]
  else if String.eqb markup "empty" then []
  else Sample.parser markup.

(** A runtime that serves [markup] at every URL; sets yield their members
    in first-insertion order, Twilio is down and the Gmail gateway is up. *)
Definition serving (markup : option string) (clock : string) : runtime :=
  {| target_urls := [Sample.visit; Sample.tours];
     test_email := false;
     http_get := fun _ => markup;
     html_parser := parser;
     now_iso := clock;
     now_stamp := clock;
     set_order := fun s => s;
     twilio_ok := fun _ => false;
     gmail_sms_ok := fun _ => true;
     email_ok := fun _ _ => false |}.

Definition snapshot (markup : string) (clock : string) : pyval :=
  Single.extract_form_data (serving (Some markup) clock) markup.

Definition multi_snapshot (page : page_config) (markup : string) (clock : string) : pyval :=
  py_setitem (Multi.extract_form_data (serving (Some markup) clock) markup)
             "url" (VStr (url page)).

End Sample2.

(** How many of the three fields the multi-page script compares differ. *)
Definition fields_differing (od nd : list (string * pyval)) : nat :=
  (if py_eqb (dict_get_default "forms" (VDict []) od)
             (dict_get_default "forms" (VDict []) nd) then 0 else 1)
  + (if py_eqb (dict_get_default "activities" (VList []) od)
               (dict_get_default "activities" (VList []) nd) then 0 else 1)
  + (if py_eqb (dict_get_default "status_elements" (VList []) od)
               (dict_get_default "status_elements" (VList []) nd) then 0 else 1).

(** Whether the multi-page script sends an alert for two dicts. *)
Definition multi_alerts (od nd : list (string * pyval)) (page_name : string) : bool :=
  negb (String.eqb (dict_hash od) (dict_hash nd))
  && (0 <? fields_differing od nd)%nat
  && negb ((fields_differing od nd =? 1)%nat && contains "details unclear" page_name).

(** The entry the extractor makes for the form at position [i]. *)
Definition keyed_form (entry : nat * Bs4.node) : string * pyval :=
  ("form_" ++ str_of_nat (fst entry), Single.form_entry (snd entry)).

(** [int(s)] for the text of a natural number. *)
Definition nat_of_str (s : string) : option nat :=
  option_map Nat.of_uint (NilZero.uint_of_string s).

(** The status entry of a string that lies directly in the document. *)
Definition top_level_status (keyword text : string) : pyval :=
  VDict [("keyword", VStr keyword);
         ("text", VStr (strip text));
         ("parent_tag", VStr "[document]");
         ("parent_class", VList [])].

(** The attempts a caller makes when it tries channels in turn until one
    reports success. *)
Fixpoint until_first_success (attempts : list (event * bool)) : list event :=
  match attempts with
  | [] => []
  | (e, ok) :: rest => e :: (if ok then [] else until_first_success rest)
  end.

(** The entry of [activities] for an element and the selector that matched
    it. *)
Definition activity_of (selector : string) (elem : Bs4.node) : pyval :=
  VDict [("selector", VStr selector);
         ("text", VStr (Bs4.get_text_strip elem));
         ("href", Bs4.get elem "href" (VStr ""));
         ("class", Bs4.get elem "class" (VList []))].

Definition attr_selector (tag attr value : string) : string :=
  tag ++ "[" ++ attr ++ "*=" ++ dquote ++ value ++ dquote ++ "]".

(* ------------------------------------------------------------------ *)
(** ** python_monitor_script_multi.py: the configuration and the pages as
       they come out of it *)

Module MultiEnv.

(** The variables of the process and [urls_config.json]: missing, or a
    [file]. *)
Record environment : Type := {
  vars : list (string * string);
  urls_config : option file
}.

(** [os.getenv(key)] *)
Fixpoint getenv (vars : list (string * string)) (key : string) : option string :=
  match vars with
  | [] => None
  | (k, v) :: rest => if String.eqb key k then Some v else getenv rest key
  end.

(** [os.getenv(key, default)] *)
Definition getenv_default (vars : list (string * string)) (key default : string) : string :=
  match getenv vars key with
  | Some v => v
  | None => default
  end.

(** [{"name": name, "url": url}] *)
Definition page_entry (name url : string) : pyval :=
  VDict [("name", VStr name); ("url", VStr url)].

(** The [while True] loop over [TARGET_URL_1], [TARGET_URL_2], ...; [fuel]
    bounds the number of rounds. *)
Fixpoint numbered_urls (vars : list (string * string)) (fuel i : nat) : list pyval :=
  match fuel with
  | O => []
  | S fuel' =>
      let url := getenv vars ("TARGET_URL_" ++ str_of_nat i) in
      let name := getenv_default vars ("TARGET_NAME_" ++ str_of_nat i)
                                 ("page_" ++ str_of_nat i) in
      match url with
      | None => []
      | Some "" => []
      | Some url => page_entry name url :: numbered_urls vars fuel' (S i)
      end
  end.

(** The loop ends by itself within as many rounds as there are variables,
    plus the one that finds no URL.  The file is read only when the
    environment gave no page; [except (json.JSONDecodeError, IOError)] lets
    every other exception of the read and the [AttributeError] of
    [config.get] through. *)
Definition get_target_urls (env : environment) : result pyval :=
  match getenv (vars env) "TARGET_URL" with
  | Some (String c rest) => Ok (VList [page_entry "default" (String c rest)])
  | _ =>
      let urls := numbered_urls (vars env) (S (List.length (vars env))) 1 in
      match urls, urls_config env with
      | [], Some (Json config) => py_get config "urls" (VList [])
      | [], Some (Unloadable e) => Raise e
      | _, _ => Ok (VList urls)
      end
  end.

(** [monitor_page] for a page as the configuration gives it: any value.
    The name goes into the file names through f-strings; [requests] takes
    [str(url)] for a URL that is no [str]. *)
Definition monitor_page (rt : runtime) (page_config : pyval) : io bool :=
  (page_name <- lift (py_subscript page_config "name") ;;
   url <- lift (py_subscript page_config "url") ;;
   html_content <- Multi.fetch_page_content rt (py_format url) ;;
   match html_content with
   | None => ret false
   | Some "" => ret false
   | Some html_content =>
       Multi.save_content html_content (py_format page_name) ;;
       let current_data := Multi.extract_form_data rt html_content in
       let current_data := py_setitem current_data "url" url in
       previous_data <- Multi.load_previous_snapshot (py_format page_name) ;;
       changes_detected <-
         Multi.compare_snapshots rt previous_data current_data (py_format page_name) ;;
       Multi.save_snapshot current_data (py_format page_name) ;;
       ret true
   end)%io.

(** The loop of [main]; the handler prints [page_config['name']]. *)
Fixpoint monitor_all (rt : runtime) (pages : list pyval) (success_count : nat) : io nat :=
  match pages with
  | [] => ret success_count
  | page_config :: rest =>
      (monitored <- try_except (monitor_page rt page_config)
                      (fun _ => lift (py_subscript page_config "name") ;; ret false) ;;
       monitor_all rt rest (if monitored then S success_count else success_count))%io
  end.

Definition main (env : environment) (rt : runtime) : io unit :=
  (target_urls <- lift (get_target_urls env) ;;
   if negb (truthy target_urls) then ret tt
   else
     found <- lift (py_len target_urls) ;;
     if String.eqb (lower (getenv_default (vars env) "TEST_EMAIL" "false")) "true"
     then Multi.send_notification rt
            (Multi.TEST_SIGN ++ " This is a test notification from the multi-page monitor")
     else
       pages <- lift (py_iter target_urls) ;;
       monitor_all rt pages 0 ;;
       ret tt)%io.

End MultiEnv.
Example md5_empty : MD5.hexdigest "" = "d41d8cd98f00b204e9800998ecf8427e".
Proof. vm_compute. reflexivity. Qed.

Example md5_abc : MD5.hexdigest "abc" = "900150983cd24fb0d6963f7d28e17f72".
Proof. vm_compute. reflexivity. Qed.

Example md5_two_blocks :
  MD5.hexdigest "12345678901234567890123456789012345678901234567890123456789012345678901234567890"
  = "57edf4a22be3c955ac49da2e2107b67a".
Proof. vm_compute. reflexivity. Qed.

(* ------------------------------------------------------------------ *)
(** ** The selectors compile *)

Example selectors_compile :
  map Bs4.compile Single.activity_selectors =
  [Some (Bs4.CssClass "activity"); Some (Bs4.CssClass "event");
   Some (Bs4.CssClass "program"); Some (Bs4.CssClass "tour");
   Some (Bs4.CssAttrContains None "class" "activity");
   Some (Bs4.CssAttrContains None "class" "event");
   Some (Bs4.CssAttrContains None "class" "registration");
   Some (Bs4.CssAttrContains (Some "button") "class" "register");
   Some (Bs4.CssAttrContains (Some "a") "class" "register");
   Some (Bs4.CssClass "btn"); Some (Bs4.CssTag "button");
   Some (Bs4.CssAttrContains (Some "a") "href" "register")].
Proof. vm_compute. reflexivity. Qed.

(* ------------------------------------------------------------------ *)
(** ** Extraction *)

Lemma single_extract_eq (rt : runtime) (html : string) :
  Single.extract_form_data rt html =
  VDict (content_of (Bs4.BeautifulSoup (html_parser rt) html)
           ++ [("timestamp", VStr (now_iso rt))])%list.
Proof. reflexivity. Qed.

Lemma multi_extract_eq (rt : runtime) (html : string) :
  Multi.extract_form_data rt html =
  VDict (content_of (Bs4.BeautifulSoup (html_parser rt) html)
           ++ [("timestamp", VStr (now_iso rt))])%list.
Proof. reflexivity. Qed.

Lemma pop_timestamp_content (soup : Bs4.node) (ts : pyval) :
  dict_pop "timestamp" (content_of soup ++ [("timestamp", ts)])%list = content_of soup.
Proof. reflexivity. Qed.

Lemma same_parse_same_soup (rt1 rt2 : runtime) (html : string) :
  html_parser rt1 html = html_parser rt2 html ->
  Bs4.BeautifulSoup (html_parser rt1) html = Bs4.BeautifulSoup (html_parser rt2) html.
Proof. unfold Bs4.BeautifulSoup. intros ->. reflexivity. Qed.

(** C10.  The two scripts carry the same extractor and the same hash: on the
    same parse of the same HTML the two [extract_form_data] return values that
    agree on every key but [timestamp] (and on it as well when the clock reads
    the same), and the two [calculate_content_hash] agree on every value. *)
Theorem duplicated_functions_agree (rt1 rt2 : runtime) (html : string) :
  html_parser rt1 html = html_parser rt2 html ->
  py_pop "timestamp" (Single.extract_form_data rt1 html)
    = py_pop "timestamp" (Multi.extract_form_data rt2 html)
  /\ (now_iso rt1 = now_iso rt2 ->
      Single.extract_form_data rt1 html = Multi.extract_form_data rt2 html)
  /\ (forall data : pyval,
        Single.calculate_content_hash data = Multi.calculate_content_hash data).
Proof.
  intros Hparse.
  rewrite single_extract_eq, multi_extract_eq.
  rewrite (same_parse_same_soup rt1 rt2 html Hparse).
  split; [| split].
  - unfold py_pop. now rewrite !pop_timestamp_content.
  - now intros ->.
  - intros data. destruct data; reflexivity.
Qed.

Lemma duplicated_functions_agree_witness :
  py_pop "timestamp"
    (Single.extract_form_data (Sample.serving (Some "v1") Sample.morning) "v1")
  = py_pop "timestamp"
      (Multi.extract_form_data (Sample.serving_rev (Some "v2") Sample.evening) "v1").
Proof.
  apply (duplicated_functions_agree
           (Sample.serving (Some "v1") Sample.morning)
           (Sample.serving_rev (Some "v2") Sample.evening) "v1").
  reflexivity.
Defined.

(** C7.  Extraction is deterministic: two runs over the same HTML, parsed
    alike, return the same entries followed by their own [timestamp], and the
    two results have the same content hash. *)
Theorem extraction_deterministic (rt1 rt2 : runtime) (html : string) :
  html_parser rt1 html = html_parser rt2 html ->
  exists (content : list (string * pyval)) (digest : string),
    dict_get "timestamp" content = None
    /\ Single.extract_form_data rt1 html
         = VDict (content ++ [("timestamp", VStr (now_iso rt1))])%list
    /\ Single.extract_form_data rt2 html
         = VDict (content ++ [("timestamp", VStr (now_iso rt2))])%list
    /\ Single.calculate_content_hash (Single.extract_form_data rt1 html) = Ok digest
    /\ Single.calculate_content_hash (Single.extract_form_data rt2 html) = Ok digest.
Proof.
  intros Hparse.
  exists (content_of (Bs4.BeautifulSoup (html_parser rt1) html)).
  exists (MD5.hexdigest
            (dumps_sorted (VDict (content_of (Bs4.BeautifulSoup (html_parser rt1) html))))).
  rewrite !single_extract_eq.
  rewrite <- (same_parse_same_soup rt1 rt2 html Hparse).
  unfold Single.calculate_content_hash.
  rewrite !pop_timestamp_content.
  repeat split; reflexivity.
Qed.

Lemma extraction_deterministic_witness :
  exists (content : list (string * pyval)) (digest : string),
    dict_get "timestamp" content = None
    /\ Sample.snapshot "v1" Sample.morning
         = VDict (content ++ [("timestamp", VStr Sample.morning)])%list
    /\ Sample.snapshot "v1" Sample.evening
         = VDict (content ++ [("timestamp", VStr Sample.evening)])%list
    /\ Single.calculate_content_hash (Sample.snapshot "v1" Sample.morning) = Ok digest
    /\ Single.calculate_content_hash (Sample.snapshot "v1" Sample.evening) = Ok digest.
Proof.
  apply (extraction_deterministic
           (Sample.serving (Some "v1") Sample.morning)
           (Sample.serving (Some "v1") Sample.evening) "v1").
  reflexivity.
Defined.

Lemma activity_entry_short (selector : string) (elem : Bs4.node) :
  String.length (Bs4.get_text_strip elem) <= 5 ->
  Single.activity_entry selector elem = [].
Proof.
  intros Hlen. unfold Single.activity_entry.
  replace (5 <? String.length (Bs4.get_text_strip elem))%nat with false.
  - now rewrite andb_false_r.
  - symmetry. apply Nat.ltb_ge. exact Hlen.
Qed.

Lemma activity_entry_inv (selector : string) (elem : Bs4.node) (item : pyval) :
  In item (Single.activity_entry selector elem) ->
  5 < String.length (Bs4.get_text_strip elem)
  /\ item = VDict [("selector", VStr selector);
                   ("text", VStr (Bs4.get_text_strip elem));
                   ("href", Bs4.get elem "href" (VStr ""));
                   ("class", Bs4.get elem "class" (VList []))].
Proof.
  unfold Single.activity_entry.
  destruct (5 <? String.length (Bs4.get_text_strip elem))%nat eqn:Hlen.
  - destruct (negb (Bs4.get_text_strip elem =? "")); simpl; [| tauto].
    intros [<- | []]. split; [| reflexivity].
    now apply Nat.ltb_lt.
  - rewrite andb_false_r. simpl. tauto.
Qed.

(** C6.  An element that an activity selector matched and whose stripped
    text has at most 5 characters (none included) adds nothing to
    [activities]; every entry of [activities] comes from a match whose
    stripped text is longer than 5 characters, and carries that text. *)
Theorem short_text_never_an_activity (rt : runtime) (html : string) :
  let soup := Bs4.BeautifulSoup (html_parser rt) html in
  (forall selector elem,
      In selector Single.activity_selectors ->
      In elem (Bs4.select selector soup) ->
      String.length (Bs4.get_text_strip elem) <= 5 ->
      Single.activity_entry selector elem = [])
  /\ exists activities : list pyval,
       py_get (Single.extract_form_data rt html) "activities" (VList [])
         = Ok (VList activities)
       /\ activities
            = flat_map (fun selector =>
                          flat_map (Single.activity_entry selector)
                                   (Bs4.select selector soup))
                       Single.activity_selectors
       /\ forall item, In item activities ->
            exists selector elem,
              In selector Single.activity_selectors
              /\ In elem (Bs4.select selector soup)
              /\ 5 < String.length (Bs4.get_text_strip elem)
              /\ py_subscript item "text" = Ok (VStr (Bs4.get_text_strip elem)).
Proof.
  intros soup. split.
  - intros selector elem _ _ Hlen. now apply activity_entry_short.
  - eexists. split; [reflexivity |]. split; [reflexivity |].
    intros item Hin.
    apply in_flat_map in Hin. destruct Hin as (selector & Hsel & Hin).
    apply in_flat_map in Hin. destruct Hin as (elem & Helem & Hin).
    apply activity_entry_inv in Hin. destruct Hin as [Hlen ->].
    exists selector, elem. repeat split; assumption || reflexivity.
Qed.

Lemma short_text_never_an_activity_witness :
  Single.activity_entry ".btn" Sample.go_link = [].
Proof.
  apply (proj1 (short_text_never_an_activity (Sample.serving None Sample.morning) "v4")).
  - simpl. tauto.
  - vm_compute. tauto.
  - vm_compute. lia.
Defined.

(* ------------------------------------------------------------------ *)
(** ** Runs of the single-page script *)

Lemma extend_extend (evs1 evs2 : list event) (w : world) :
  extend evs2 (extend evs1 w) = extend (evs1 ++ evs2) w.
Proof. unfold extend. simpl. now rewrite app_assoc. Qed.

Lemma log_extend (e : event) (w : world) : log e w = extend [e] w.
Proof. reflexivity. Qed.

Lemma single_load (w : world) :
  loadable Single.SNAPSHOT_FILE w = true ->
  Single.load_previous_snapshot w = (Ok (previous Single.SNAPSHOT_FILE w), w).
Proof.
  unfold Single.load_previous_snapshot, previous, loadable.
  destruct (file_lookup Single.SNAPSHOT_FILE (files w)) as [[e | | v] |];
    intros H; try reflexivity; discriminate H.
Qed.

Lemma single_load_unloadable (w : world) (e : exn) :
  file_lookup Single.SNAPSHOT_FILE (files w) = Some (Unloadable e) ->
  Single.load_previous_snapshot w = (Raise e, w).
Proof.
  intros H. unfold Single.load_previous_snapshot. now rewrite H.
Qed.

Lemma loadable_cases (path : string) (w : world) :
  loadable path w = true
  \/ exists e : exn, file_lookup path (files w) = Some (Unloadable e).
Proof.
  unfold loadable.
  destruct (file_lookup path (files w)) as [[e | | v] |];
    try (left; reflexivity).
  right. now exists e.
Qed.

(** A file from which a true value was read could be loaded. *)
Lemma truthy_previous_loadable (path : string) (w : world) :
  truthy (previous path w) = true -> loadable path w = true.
Proof.
  unfold previous, loadable.
  destruct (file_lookup path (files w)) as [[e | | v] |]; intros H;
    try reflexivity; discriminate H.
Qed.

Lemma loadable_extend (path : string) (evs : list event) (w : world) :
  loadable path (extend evs w) = loadable path w.
Proof. reflexivity. Qed.

Lemma previous_extend (path : string) (evs : list event) (w : world) :
  previous path (extend evs w) = previous path w.
Proof. reflexivity. Qed.

(** A fetch that fails, or returns an empty body, ends the run at once. *)
Lemma single_main_no_content (rt : runtime) (w : world) :
  http_get rt Single.TARGET_URL = None \/ http_get rt Single.TARGET_URL = Some "" ->
  Single.main rt w = (Ok tt, extend [EvFetch Single.TARGET_URL] w).
Proof.
  intros [H | H]; unfold Single.main, Single.fetch_page_content, bind, emit, ret;
    rewrite H; reflexivity.
Qed.

(** The run after a successful fetch, by the outcome of the comparison. *)
Lemma single_main_run (rt : runtime) (w : world) (html : string) :
  http_get rt Single.TARGET_URL = Some html ->
  html <> "" ->
  loadable Single.SNAPSHOT_FILE w = true ->
  let current := Single.extract_form_data rt html in
  let w1 := extend [EvFetch Single.TARGET_URL; EvSaveContent Single.CONTENT_FILE html] w in
  Single.main rt w =
  match Single.compare_snapshots rt (previous Single.SNAPSHOT_FILE w) current with
  | Raise e => (Raise e, w1)
  | Ok (Some (c :: cs)) =>
      (Ok tt,
       after_save Single.SNAPSHOT_FILE current
         (extend [EvNotify (single_message (c :: cs));
                  EvEmail "Cornell Visit Activities Update" (single_message (c :: cs))] w1))
  | Ok _ => (Ok tt, after_save Single.SNAPSHOT_FILE current w1)
  end.
Proof.
  intros Hget Hne Hdec current w1.
  unfold Single.main, Single.fetch_page_content, bind at 1 2.
  unfold emit at 1, ret at 1. rewrite Hget.
  destruct html as [| ch html']; [congruence |].
  unfold bind at 1. unfold Single.save_content, emit.
  unfold bind at 1. rewrite single_load by exact Hdec.
  unfold bind at 1. unfold lift.
  rewrite !log_extend, extend_extend, previous_extend. simpl app.
  fold current. fold w1.
  destruct (Single.compare_snapshots rt (previous Single.SNAPSHOT_FILE w) current)
    as [[[| c cs] |] | e]; try reflexivity.
  unfold bind, Single.send_notification, Single.send_email_notification, bind, emit, ret.
  rewrite !log_extend. subst w1. rewrite !extend_extend.
  destruct (email_ok rt _ _); reflexivity.
Qed.

(** The run over a snapshot file that cannot be loaded ends in the exception
    of the read, after the HTML was saved. *)
Lemma single_main_unloadable (rt : runtime) (w : world) (html : string) (e : exn) :
  http_get rt Single.TARGET_URL = Some html ->
  html <> "" ->
  file_lookup Single.SNAPSHOT_FILE (files w) = Some (Unloadable e) ->
  Single.main rt w
  = (Raise e,
     extend [EvFetch Single.TARGET_URL; EvSaveContent Single.CONTENT_FILE html] w).
Proof.
  intros Hget Hne Hdec.
  unfold Single.main, Single.fetch_page_content, bind at 1 2.
  unfold emit at 1, ret at 1. rewrite Hget.
  destruct html as [| ch html']; [congruence |].
  unfold bind at 1. unfold Single.save_content, emit.
  unfold bind at 1. rewrite (single_load_unloadable _ e) by exact Hdec.
  rewrite !log_extend, extend_extend. reflexivity.
Qed.


(* ------------------------------------------------------------------ *)
(** ** Runs of the multi-page script *)

Lemma multi_send_notification_run (rt : runtime) (message : string) (w : world) :
  Multi.send_notification rt message w = (Ok tt, extend (multi_delivery rt message) w).
Proof.
  unfold Multi.send_notification, Multi.send_sms_twilio, Multi.send_sms_gmail,
    Multi.send_email_notification, multi_delivery, bind, emit, ret.
  rewrite !log_extend, !extend_extend. simpl app.
  destruct (twilio_ok rt message); simpl.
  - reflexivity.
  - rewrite !log_extend, !extend_extend. simpl app.
    destruct (gmail_sms_ok rt message); simpl.
    + reflexivity.
    + rewrite !log_extend, !extend_extend. reflexivity.
Qed.

Lemma multi_delivery_is_delivery (rt : runtime) (message : string) :
  forallb is_delivery (multi_delivery rt message) = true.
Proof.
  unfold multi_delivery.
  destruct (twilio_ok rt message), (gmail_sms_ok rt message); reflexivity.
Qed.

Lemma extend_nil (w : world) : extend [] w = w.
Proof. destruct w. unfold extend. simpl. now rewrite app_nil_r. Qed.

(** Without a previous snapshot the comparison sends nothing. *)
Lemma multi_compare_baseline (rt : runtime) (old new : pyval) (page_name : string)
    (w : world) :
  truthy old = false ->
  Multi.compare_snapshots rt old new page_name w = (Ok false, w).
Proof.
  intros H. unfold Multi.compare_snapshots. rewrite H. reflexivity.
Qed.

(** The comparison of two dicts. *)
Lemma multi_compare_dicts (rt : runtime) (od nd : list (string * pyval))
    (page_name : string) (w : world) :
  od <> [] ->
  Multi.compare_snapshots rt (VDict od) (VDict nd) page_name w =
  if String.eqb (dict_hash od) (dict_hash nd) then (Ok false, w)
  else match multi_notes od nd page_name with
       | [] => (Ok false, w)
       | changes =>
           if Multi.only_details_unclear changes then (Ok false, w)
           else (Ok true,
                 extend (multi_delivery rt (multi_message rt changes nd page_name)) w)
       end.
Proof.
  intros Hne. unfold Multi.compare_snapshots.
  destruct od as [| entry od']; [congruence |]. cbn [truthy negb].
  unfold Multi.calculate_content_hash, lift, bind at 1 2.
  fold (dict_hash (entry :: od')). fold (dict_hash nd).
  destruct (String.eqb (dict_hash (entry :: od')) (dict_hash nd)); cbn [negb];
    [reflexivity |].
  unfold py_get, bind, ret.
  fold (multi_notes (entry :: od') nd page_name).
  destruct (multi_notes (entry :: od') nd page_name) as [| c cs] eqn:Hnotes;
    [reflexivity |].
  destruct (Multi.only_details_unclear (c :: cs)); [reflexivity |].
  rewrite multi_send_notification_run. reflexivity.
Qed.

(** Whatever the previous snapshot, the comparison with a dict touches no
    file and adds delivery events only. *)
Lemma multi_compare_frame (rt : runtime) (old : pyval) (nd : list (string * pyval))
    (page_name : string) (w : world) :
  exists (r : result bool) (evs : list event),
    Multi.compare_snapshots rt old (VDict nd) page_name w = (r, extend evs w)
    /\ forallb is_delivery evs = true.
Proof.
  destruct (truthy old) eqn:Htruthy.
  - destruct old as [| b | n | s | l | od].
    + discriminate.
    + exists (Raise AttributeError), []. rewrite extend_nil.
      unfold Multi.compare_snapshots. rewrite Htruthy. split; reflexivity.
    + exists (Raise AttributeError), []. rewrite extend_nil.
      unfold Multi.compare_snapshots. rewrite Htruthy. split; reflexivity.
    + exists (Raise AttributeError), []. rewrite extend_nil.
      unfold Multi.compare_snapshots. rewrite Htruthy. split; reflexivity.
    + exists (Raise TypeError), []. rewrite extend_nil.
      unfold Multi.compare_snapshots. rewrite Htruthy. split; reflexivity.
    + assert (Hne : od <> []) by (destruct od; [discriminate | congruence]).
      rewrite (multi_compare_dicts rt od nd page_name w Hne).
      destruct (String.eqb (dict_hash od) (dict_hash nd)).
      * exists (Ok false), []. now rewrite extend_nil.
      * destruct (multi_notes od nd page_name) as [| c cs].
        -- exists (Ok false), []. now rewrite extend_nil.
        -- cbv beta iota zeta.
           destruct (Multi.only_details_unclear (c :: cs)).
           ++ exists (Ok false), []. now rewrite extend_nil.
           ++ eexists _, _. split; [reflexivity |].
              apply multi_delivery_is_delivery.
  - exists (Ok false), []. rewrite extend_nil.
    now rewrite multi_compare_baseline.
Qed.

Lemma multi_load (page_name : string) (w : world) :
  loadable (Multi.get_snapshot_filename page_name) w = true ->
  Multi.load_previous_snapshot page_name w
  = (Ok (previous (Multi.get_snapshot_filename page_name) w), w).
Proof.
  unfold Multi.load_previous_snapshot, previous, loadable.
  destruct (file_lookup (Multi.get_snapshot_filename page_name) (files w))
    as [[e | | v] |]; intros H; try reflexivity; discriminate H.
Qed.

Lemma multi_load_unloadable (page_name : string) (w : world) (e : exn) :
  file_lookup (Multi.get_snapshot_filename page_name) (files w) = Some (Unloadable e) ->
  Multi.load_previous_snapshot page_name w = (Raise e, w).
Proof.
  intros H. unfold Multi.load_previous_snapshot. now rewrite H.
Qed.

(** A fetch that fails, or returns an empty body, ends the page at once. *)
Lemma multi_monitor_page_no_content (rt : runtime) (page : page_config) (w : world) :
  http_get rt (url page) = None \/ http_get rt (url page) = Some "" ->
  Multi.monitor_page rt page w = (Ok false, extend [EvFetch (url page)] w).
Proof.
  intros [H | H]; unfold Multi.monitor_page, Multi.fetch_page_content, bind, emit, ret;
    rewrite H; reflexivity.
Qed.

(** The page after a successful fetch, by the outcome of the comparison. *)
Lemma multi_monitor_page_run (rt : runtime) (page : page_config) (w : world)
    (html : string) :
  http_get rt (url page) = Some html ->
  html <> "" ->
  loadable (Multi.get_snapshot_filename (name page)) w = true ->
  let current := multi_current rt page html in
  let path := Multi.get_snapshot_filename (name page) in
  let w1 := extend [EvFetch (url page);
                    EvSaveContent (Multi.get_content_filename (name page)) html] w in
  Multi.monitor_page rt page w =
  match Multi.compare_snapshots rt (previous path w) current (name page) w1 with
  | (Ok _, w2) => (Ok true, after_save path current w2)
  | (Raise e, w2) => (Raise e, w2)
  end.
Proof.
  intros Hget Hne Hdec current path w1.
  unfold Multi.monitor_page, Multi.fetch_page_content, bind at 1 2.
  unfold emit at 1, ret at 1. rewrite Hget.
  destruct html as [| ch html']; [congruence |].
  unfold bind at 1. unfold Multi.save_content, emit.
  unfold bind at 1. rewrite multi_load by exact Hdec.
  rewrite !log_extend, extend_extend, previous_extend. simpl app.
  fold path. fold w1.
  unfold bind at 1.
  change (py_setitem (Multi.extract_form_data rt (String ch html')) "url" (VStr (url page)))
    with current.
  destruct (Multi.compare_snapshots rt (previous path w) current (name page) w1)
    as [[b | e] w2]; reflexivity.
Qed.

(** The page over a snapshot file that cannot be loaded: the read raises
    after the HTML was saved. *)
Lemma multi_monitor_page_unloadable (rt : runtime) (page : page_config) (w : world)
    (html : string) (e : exn) :
  http_get rt (url page) = Some html ->
  html <> "" ->
  file_lookup (Multi.get_snapshot_filename (name page)) (files w) = Some (Unloadable e) ->
  Multi.monitor_page rt page w
  = (Raise e,
     extend [EvFetch (url page);
             EvSaveContent (Multi.get_content_filename (name page)) html] w).
Proof.
  intros Hget Hne Hdec.
  unfold Multi.monitor_page, Multi.fetch_page_content, bind at 1 2.
  unfold emit at 1, ret at 1. rewrite Hget.
  destruct html as [| ch html']; [congruence |].
  unfold bind at 1. unfold Multi.save_content, emit.
  unfold bind at 1. rewrite (multi_load_unloadable _ _ e) by exact Hdec.
  rewrite !log_extend, extend_extend. reflexivity.
Qed.

Lemma fetched_extend (evs : list event) (w : world) :
  fetched (extend evs w) = (fetched w ++ flat_map fetch_of evs)%list.
Proof. unfold fetched, extend. simpl. apply flat_map_app. Qed.

Lemma fetched_after_save (path : string) (data : pyval) (w : world) :
  fetched (after_save path data w) = fetched w.
Proof.
  unfold fetched, after_save, log. simpl. rewrite flat_map_app. simpl.
  now rewrite app_nil_r.
Qed.

Lemma delivery_no_fetch (evs : list event) :
  forallb is_delivery evs = true -> flat_map fetch_of evs = [].
Proof.
  induction evs as [| e evs IH]; simpl; [reflexivity |].
  intros H. apply andb_true_iff in H. destruct H as [He Hevs].
  rewrite (IH Hevs). destruct e; simpl in *; congruence.
Qed.

(** A page is fetched exactly once, whatever happens to it afterwards. *)
Lemma multi_monitor_page_fetches (rt : runtime) (page : page_config) (w : world) :
  exists (r : result bool) (w' : world),
    Multi.monitor_page rt page w = (r, w')
    /\ fetched w' = (fetched w ++ [url page])%list.
Proof.
  destruct (http_get rt (url page)) as [html |] eqn:Hget.
  - destruct (String.eqb_spec html "") as [-> | Hne].
    + rewrite multi_monitor_page_no_content by (now right).
      eexists _, _. split; [reflexivity |]. now rewrite fetched_extend.
    + destruct (loadable_cases (Multi.get_snapshot_filename (name page)) w)
        as [Hdec | (e & Hfile)];
        [| rewrite (multi_monitor_page_unloadable rt page w html e Hget Hne Hfile);
           eexists _, _; split; [reflexivity |]; now rewrite fetched_extend].
      rewrite (multi_monitor_page_run rt page w html Hget Hne Hdec). cbv zeta.
      destruct (multi_compare_frame rt
                  (previous (Multi.get_snapshot_filename (name page)) w)
                  (content_of (Bs4.BeautifulSoup (html_parser rt) html)
                     ++ [("timestamp", VStr (now_iso rt)); ("url", VStr (url page))])%list
                  (name page)
                  (extend [EvFetch (url page);
                           EvSaveContent (Multi.get_content_filename (name page)) html] w))
        as (r & evs & Hrun & Hevs).
      unfold multi_current. rewrite Hrun.
      destruct r as [b | e]; eexists _, _; (split; [reflexivity |]);
        rewrite ?fetched_after_save, !fetched_extend, (delivery_no_fetch evs Hevs);
        simpl; now rewrite app_nil_r.
  - rewrite multi_monitor_page_no_content by (now left).
    eexists _, _. split; [reflexivity |]. now rewrite fetched_extend.
Qed.

(** The loop never raises and fetches every configured page, in order. *)
Lemma multi_monitor_all_fetches (rt : runtime) (pages : list page_config) :
  forall (count : nat) (w : world),
  exists (count' : nat) (w' : world),
    Multi.monitor_all rt pages count w = (Ok count', w')
    /\ fetched w' = (fetched w ++ map url pages)%list.
Proof.
  induction pages as [| page rest IH]; intros count w.
  - exists count, w. split; [reflexivity |]. simpl. now rewrite app_nil_r.
  - destruct (multi_monitor_page_fetches rt page w) as (r & w1 & Hrun & Hfetch).
    simpl. unfold bind at 1. unfold try_except. rewrite Hrun.
    destruct r as [b | e].
    + destruct (IH (if b then S count else count) w1) as (count' & w' & Hrest & Hf).
      exists count', w'. split; [exact Hrest |].
      rewrite Hf, Hfetch, <- app_assoc. reflexivity.
    + unfold ret.
      destruct (IH count w1) as (count' & w' & Hrest & Hf).
      exists count', w'. split; [exact Hrest |].
      rewrite Hf, Hfetch, <- app_assoc. reflexivity.
Qed.
(* ------------------------------------------------------------------ *)
(** ** What a run sends *)

Lemma notified_extend (evs : list event) (w : world) :
  notified (extend evs w) = (notified w ++ flat_map notification_of evs)%list.
Proof. unfold notified, extend. simpl. apply flat_map_app. Qed.

Lemma notified_after_save (path : string) (data : pyval) (w : world) :
  notified (after_save path data w) = notified w.
Proof.
  unfold notified, after_save, log. simpl. rewrite flat_map_app. simpl.
  now rewrite app_nil_r.
Qed.

(** A non-empty list of notes is sent, whatever the notes are. *)
Lemma single_main_notifies (rt : runtime) (w : world) (html : string)
    (c : string) (cs : list string) :
  http_get rt Single.TARGET_URL = Some html ->
  html <> "" ->
  loadable Single.SNAPSHOT_FILE w = true ->
  Single.compare_snapshots rt (previous Single.SNAPSHOT_FILE w)
    (Single.extract_form_data rt html) = Ok (Some (c :: cs)) ->
  notified (snd (Single.main rt w)) = (notified w ++ [single_message (c :: cs)])%list.
Proof.
  intros Hget Hne Hdec Hcmp.
  rewrite (single_main_run rt w html Hget Hne Hdec). cbv zeta. rewrite Hcmp. cbn [snd].
  rewrite notified_after_save, !notified_extend. simpl.
  now rewrite app_nil_r.
Qed.

(** C1, at the single-page script.  With no previous snapshot (no file, a
    file that cannot be opened or parsed, or one that holds an empty value:
    all the cases in which [load_previous_snapshot] returns a false value)
    [compare_snapshots] returns the note [Initial snapshot created], and
    [main] calls [send_notification] with it; the multi-page
    [compare_snapshots] returns [False] there and sends nothing. *)
Theorem single_baseline_is_notified (rt : runtime) (w : world) (html : string) :
  http_get rt Single.TARGET_URL = Some html ->
  html <> "" ->
  loadable Single.SNAPSHOT_FILE w = true ->
  truthy (previous Single.SNAPSHOT_FILE w) = false ->
  Single.compare_snapshots rt (previous Single.SNAPSHOT_FILE w)
    (Single.extract_form_data rt html) = Ok (Some ["Initial snapshot created"])
  /\ notified (snd (Single.main rt w))
     = (notified w ++ [single_message ["Initial snapshot created"]])%list
  /\ forall page_name w',
       Multi.compare_snapshots rt (previous Single.SNAPSHOT_FILE w)
         (Single.extract_form_data rt html) page_name w' = (Ok false, w').
Proof.
  intros Hget Hne Hdec Hold.
  assert (Hcmp : Single.compare_snapshots rt (previous Single.SNAPSHOT_FILE w)
                   (Single.extract_form_data rt html)
                 = Ok (Some ["Initial snapshot created"])).
  { unfold Single.compare_snapshots. now rewrite Hold. }
  split; [exact Hcmp | split].
  - now apply single_main_notifies with (html := html).
  - intros page_name w'. now apply multi_compare_baseline.
Qed.

Lemma single_baseline_is_notified_witness :
  notified (snd (Single.main (Sample.serving (Some "v1") Sample.morning) Sample.empty_world))
  = [single_message ["Initial snapshot created"]].
Proof.
  apply (single_baseline_is_notified
           (Sample.serving (Some "v1") Sample.morning) Sample.empty_world "v1").
  - reflexivity.
  - discriminate.
  - reflexivity.
  - reflexivity.
Defined.

(** C2, at the single-page script.  When the comparison returns exactly the
    fallback note, [main] calls [send_notification] with it; the guard of the
    multi-page script would hold that list back. *)
Theorem single_fallback_is_notified (rt : runtime) (w : world) (html : string) :
  http_get rt Single.TARGET_URL = Some html ->
  html <> "" ->
  Single.compare_snapshots rt (previous Single.SNAPSHOT_FILE w)
    (Single.extract_form_data rt html) = Ok (Some [Single.FALLBACK_NOTE]) ->
  notified (snd (Single.main rt w))
    = (notified w ++ [single_message [Single.FALLBACK_NOTE]])%list
  /\ Multi.only_details_unclear [Single.FALLBACK_NOTE] = true.
Proof.
  intros Hget Hne Hcmp. split.
  - apply single_main_notifies with (html := html); try assumption.
    apply truthy_previous_loadable.
    destruct (truthy (previous Single.SNAPSHOT_FILE w)) eqn:Hold; [reflexivity |].
    unfold Single.compare_snapshots in Hcmp. rewrite Hold in Hcmp.
    cbn [negb] in Hcmp. discriminate Hcmp.
  - reflexivity.
Qed.

Lemma single_fallback_is_notified_witness :
  notified (snd (Single.main (Sample.serving (Some "v3") Sample.evening)
                   (Sample.world_with (Sample.snapshot "v1" Sample.morning))))
  = [single_message [Single.FALLBACK_NOTE]].
Proof.
  apply (single_fallback_is_notified
           (Sample.serving (Some "v3") Sample.evening)
           (Sample.world_with (Sample.snapshot "v1" Sample.morning)) "v3").
  - reflexivity.
  - discriminate.
  - vm_compute. reflexivity.
Defined.

(* ------------------------------------------------------------------ *)
(** ** The comparison of the single-page script *)

Lemma rbind_text_set {B : Type} (key : string) (d : list (string * pyval))
    (s : list pyval) (k : list pyval -> result B) :
  text_set key d = Ok s ->
  (items <- py_iter (dict_get_default key (VList []) d) ;;
   s' <- set_of_field "text" items [] ;;
   k s')%result = k s.
Proof.
  unfold text_set. destruct (py_iter (dict_get_default key (VList []) d)); simpl.
  - intros ->. reflexivity.
  - discriminate.
Qed.

(** The comparison of two dicts with different hashes whose fields can be
    read: the notes are the form note, the two activity notes and the status
    note, in this order, or the fallback note when there is none. *)
Lemma single_compare_dicts (rt : runtime) (od nd : list (string * pyval))
    (m n : nat) (oa na os ns : list pyval) :
  od <> [] ->
  dict_hash od <> dict_hash nd ->
  count_forms od = Ok m ->
  count_forms nd = Ok n ->
  text_set "activities" od = Ok oa ->
  text_set "activities" nd = Ok na ->
  text_set "status_elements" od = Ok os ->
  text_set "status_elements" nd = Ok ns ->
  Single.compare_snapshots rt (VDict od) (VDict nd) =
  (added <- note_for rt "New activities: " 3 (set_diff na oa) ;;
   removed <- note_for rt "Removed activities: " 3 (set_diff oa na) ;;
   status <- note_for rt "Status changes: " 2 (set_diff ns os) ;;
   match (form_note m n ++ added ++ removed ++ status)%list with
   | [] => Ok (Some [Single.FALLBACK_NOTE])
   | changes => Ok (Some changes)
   end)%result.
Proof.
  intros Hne Hhash Hm Hn Hoa Hna Hos Hns.
  unfold Single.compare_snapshots.
  destruct od as [| entry od']; [congruence |]. cbn [truthy negb].
  unfold Single.calculate_content_hash. cbn [rbind].
  fold (dict_hash (entry :: od')). fold (dict_hash nd).
  apply String.eqb_neq in Hhash. rewrite Hhash.
  unfold py_get. cbn [rbind].
  unfold count_forms in Hm, Hn. rewrite Hm, Hn. cbn [rbind].
  rewrite (rbind_text_set "activities" (entry :: od') oa _ Hoa).
  rewrite (rbind_text_set "activities" nd na _ Hna).
  unfold note_for, form_note, list_append.
  destruct (set_diff na oa) as [| a1 added].
  - cbn [rbind].
    destruct (set_diff oa na) as [| r1 removed].
    + cbn [rbind].
      rewrite (rbind_text_set "status_elements" (entry :: od') os _ Hos).
      rewrite (rbind_text_set "status_elements" nd ns _ Hns).
      destruct (set_diff ns os) as [| s1 status].
      * cbn [rbind]. destruct (negb (m =? n)%nat); reflexivity.
      * destruct (py_join ", " (firstn 2 (set_order rt (s1 :: status)))); cbn [rbind];
          [| reflexivity].
        destruct (negb (m =? n)%nat); reflexivity.
    + destruct (py_join ", " (firstn 3 (set_order rt (r1 :: removed)))); cbn [rbind];
        [| reflexivity].
      rewrite (rbind_text_set "status_elements" (entry :: od') os _ Hos).
      rewrite (rbind_text_set "status_elements" nd ns _ Hns).
      destruct (set_diff ns os) as [| s1 status].
      * cbn [rbind]. destruct (negb (m =? n)%nat); reflexivity.
      * destruct (py_join ", " (firstn 2 (set_order rt (s1 :: status)))); cbn [rbind];
          [| reflexivity].
        destruct (negb (m =? n)%nat); reflexivity.
  - destruct (py_join ", " (firstn 3 (set_order rt (a1 :: added)))); cbn [rbind];
      [| reflexivity].
    destruct (set_diff oa na) as [| r1 removed].
    + cbn [rbind].
      rewrite (rbind_text_set "status_elements" (entry :: od') os _ Hos).
      rewrite (rbind_text_set "status_elements" nd ns _ Hns).
      destruct (set_diff ns os) as [| s1 status].
      * cbn [rbind]. destruct (negb (m =? n)%nat); reflexivity.
      * destruct (py_join ", " (firstn 2 (set_order rt (s1 :: status)))); cbn [rbind];
          [| reflexivity].
        destruct (negb (m =? n)%nat); reflexivity.
    + destruct (py_join ", " (firstn 3 (set_order rt (r1 :: removed)))); cbn [rbind];
        [| reflexivity].
      rewrite (rbind_text_set "status_elements" (entry :: od') os _ Hos).
      rewrite (rbind_text_set "status_elements" nd ns _ Hns).
      destruct (set_diff ns os) as [| s1 status].
      * cbn [rbind]. destruct (negb (m =? n)%nat); reflexivity.
      * destruct (py_join ", " (firstn 2 (set_order rt (s1 :: status)))); cbn [rbind];
          [| reflexivity].
        destruct (negb (m =? n)%nat); reflexivity.
Qed.

(** The single-page script returns exactly the fallback note when the hashes
    differ and neither the form count nor the text sets do. *)
Lemma single_fallback_when_no_note (rt : runtime) (od nd : list (string * pyval))
    (n : nat) (oa na os ns : list pyval) :
  od <> [] ->
  dict_hash od <> dict_hash nd ->
  count_forms od = Ok n ->
  count_forms nd = Ok n ->
  text_set "activities" od = Ok oa ->
  text_set "activities" nd = Ok na ->
  text_set "status_elements" od = Ok os ->
  text_set "status_elements" nd = Ok ns ->
  set_diff na oa = [] ->
  set_diff oa na = [] ->
  set_diff ns os = [] ->
  Single.compare_snapshots rt (VDict od) (VDict nd) = Ok (Some [Single.FALLBACK_NOTE]).
Proof.
  intros Hne Hhash Hm Hn Hoa Hna Hos Hns Hadded Hremoved Hstatus.
  rewrite (single_compare_dicts rt od nd n n oa na os ns) by assumption.
  rewrite Hadded, Hremoved, Hstatus. unfold note_for, form_note. cbn [rbind].
  rewrite Nat.eqb_refl. reflexivity.
Qed.

Example single_fallback_example :
  Single.compare_snapshots (Sample.serving None Sample.evening)
    (Sample.snapshot "v1" Sample.morning) (Sample.snapshot "v3" Sample.evening)
  = Ok (Some ["Page content changed (details unclear)"]).
Proof.
  apply (single_fallback_when_no_note _ _ _ 1
           (map VStr ["Campus Tour - Register Now"; "Register"])
           (map VStr ["Campus Tour - Register Now"; "Register"])
           (map VStr ["Sold Out"; "Register"; "Campus Tour - Register Now"])
           (map VStr ["Sold Out"; "Register"; "Campus Tour - Register Now"]));
    vm_compute; solve [reflexivity | discriminate].
Qed.

Lemma multi_notes_not_fallback (od nd : list (string * pyval)) (page_name : string) :
  ~ In Single.FALLBACK_NOTE (multi_notes od nd page_name).
Proof.
  unfold multi_notes, list_append.
  destruct (negb (py_eqb (dict_get_default "forms" (VDict []) od)
                         (dict_get_default "forms" (VDict []) nd)));
    destruct (negb (py_eqb (dict_get_default "activities" (VList []) od)
                           (dict_get_default "activities" (VList []) nd)));
    destruct (negb (py_eqb (dict_get_default "status_elements" (VList []) od)
                           (dict_get_default "status_elements" (VList []) nd)));
    simpl; intuition discriminate.
Qed.

(** C5, at the multi-page script.  When the hashes of two dicts differ and
    none of its three comparisons adds a note, [compare_snapshots] of the
    multi-page script returns [False] with an empty list of notes and without
    any external call; the fallback note is in none of its note lists. *)
Theorem multi_builds_no_fallback_note (rt : runtime) (od nd : list (string * pyval))
    (page_name : string) (w : world) :
  od <> [] ->
  dict_hash od <> dict_hash nd ->
  multi_notes od nd page_name = [] ->
  Multi.compare_snapshots rt (VDict od) (VDict nd) page_name w = (Ok false, w)
  /\ forall od' nd' page_name',
       ~ In Single.FALLBACK_NOTE (multi_notes od' nd' page_name').
Proof.
  intros Hne Hhash Hnotes. split.
  - rewrite (multi_compare_dicts rt od nd page_name w Hne).
    apply String.eqb_neq in Hhash. rewrite Hhash, Hnotes. reflexivity.
  - intros. apply multi_notes_not_fallback.
Qed.

Lemma multi_builds_no_fallback_note_witness :
  Multi.compare_snapshots (Sample.serving None Sample.evening)
    (VDict (Sample.entries (Sample.snapshot "v1" Sample.morning)))
    (VDict (Sample.entries (Sample.snapshot "v3" Sample.evening)))
    "visit" Sample.empty_world
  = (Ok false, Sample.empty_world).
Proof.
  apply (multi_builds_no_fallback_note (Sample.serving None Sample.evening)
           (Sample.entries (Sample.snapshot "v1" Sample.morning))
           (Sample.entries (Sample.snapshot "v3" Sample.evening))
           "visit" Sample.empty_world).
  - vm_compute. discriminate.
  - vm_compute. discriminate.
  - vm_compute. reflexivity.
Defined.

(* ------------------------------------------------------------------ *)
(** ** Snapshots the scripts wrote can always be compared *)

Lemma set_add_strs (s : list pyval) (v : pyval) :
  forallb is_vstr s = true -> is_vstr v = true -> forallb is_vstr (set_add s v) = true.
Proof.
  intros Hs Hv. unfold set_add. destruct (set_mem v s); [exact Hs |].
  rewrite forallb_app, Hs. simpl. now rewrite Hv.
Qed.

Lemma set_of_field_shaped (items : list pyval) :
  forallb has_text items = true ->
  forall acc, forallb is_vstr acc = true ->
  exists s, set_of_field "text" items acc = Ok s /\ forallb is_vstr s = true.
Proof.
  induction items as [| item rest IH]; intros Hitems acc Hacc.
  - exists acc. split; [reflexivity | exact Hacc].
  - simpl in Hitems. apply andb_true_iff in Hitems. destruct Hitems as [Hitem Hrest].
    destruct item as [| | | | | e]; try discriminate Hitem.
    simpl in Hitem. cbn [set_of_field py_subscript].
    destruct (dict_get "text" e) as [[| | | t | |] |]; try discriminate Hitem.
    cbn [rbind hashable].
    apply (IH Hrest). now apply set_add_strs.
Qed.

Lemma text_set_shaped (key : string) (d : list (string * pyval)) :
  texts_ok key d = true ->
  exists s, text_set key d = Ok s /\ forallb is_vstr s = true.
Proof.
  unfold texts_ok, text_set.
  destruct (dict_get_default key (VList []) d) as [| | | | l |]; try discriminate.
  intros Hl. cbn [py_iter rbind]. now apply set_of_field_shaped.
Qed.

Lemma py_join_strs (sep : string) (items : list pyval) :
  forallb is_vstr items = true -> exists s, py_join sep items = Ok s.
Proof.
  unfold py_join. intros H.
  assert (Hmap : exists strs,
             rmap (fun v => match v with VStr s => Ok s | _ => Raise TypeError end) items
             = Ok strs).
  { induction items as [| v rest IH]; [now exists [] |].
    simpl in H. apply andb_true_iff in H. destruct H as [Hv Hrest].
    destruct v; try discriminate Hv.
    destruct (IH Hrest) as (strs & Hstrs).
    exists (s :: strs). simpl. now rewrite Hstrs. }
  destruct Hmap as (strs & ->). now eexists.
Qed.

Lemma forallb_permutation {A : Type} (f : A -> bool) (l l' : list A) :
  Permutation l l' -> forallb f l = true -> forallb f l' = true.
Proof.
  intros Hperm. rewrite !forallb_forall. intros H x Hx.
  apply H. apply Permutation_in with (l := l'); [now apply Permutation_sym | exact Hx].
Qed.

Lemma in_firstn {A : Type} (k : nat) (l : list A) (x : A) :
  In x (firstn k l) -> In x l.
Proof.
  intros Hin. rewrite <- (firstn_skipn k l). apply in_or_app. now left.
Qed.

Lemma forallb_firstn {A : Type} (f : A -> bool) (k : nat) (l : list A) :
  forallb f l = true -> forallb f (firstn k l) = true.
Proof.
  rewrite !forallb_forall. intros H x Hx. apply H. now apply in_firstn with (k := k).
Qed.

Lemma forallb_set_diff (f : pyval -> bool) (a b : list pyval) :
  forallb f a = true -> forallb f (set_diff a b) = true.
Proof.
  rewrite !forallb_forall. intros H x Hx. apply H.
  unfold set_diff in Hx. now apply filter_In in Hx.
Qed.

Lemma note_for_strs (rt : runtime) (prefix : string) (k : nat) (difference : list pyval) :
  set_order_sound rt ->
  forallb is_vstr difference = true ->
  exists notes, note_for rt prefix k difference = Ok notes.
Proof.
  intros Hsound Hstrs. unfold note_for.
  destruct difference as [| v rest]; [now eexists |].
  destruct (py_join_strs ", " (firstn k (set_order rt (v :: rest)))) as (listed & Hjoin).
  - apply forallb_firstn.
    apply forallb_permutation with (l := v :: rest); [| exact Hstrs].
    apply Permutation_sym, Hsound.
  - rewrite Hjoin. now eexists.
Qed.

Lemma count_forms_shaped (d : list (string * pyval)) :
  snapshot_shaped (VDict d) = true -> exists n, count_forms d = Ok n.
Proof.
  unfold snapshot_shaped, count_forms.
  destruct (dict_get_default "forms" (VDict []) d); try discriminate.
  intros _. now eexists.
Qed.


(** What the extractor returns has the shape of a snapshot. *)
Lemma activity_entries_have_text (soup : Bs4.node) :
  forallb has_text
    (flat_map (fun selector =>
                 flat_map (Single.activity_entry selector) (Bs4.select selector soup))
              Single.activity_selectors) = true.
Proof.
  apply forallb_forall. intros item Hin.
  apply in_flat_map in Hin. destruct Hin as (selector & _ & Hin).
  apply in_flat_map in Hin. destruct Hin as (elem & _ & Hin).
  apply activity_entry_inv in Hin. destruct Hin as [_ ->]. reflexivity.
Qed.

Lemma status_entries_have_text (soup : Bs4.node) :
  forallb has_text
    (flat_map (fun keyword =>
                 flat_map (Single.status_entry keyword)
                          (filter (fun e => Single.mentions keyword (Bs4.ns_text e))
                                  (Bs4.all_strings soup)))
              Single.status_keywords) = true.
Proof.
  apply forallb_forall. intros item Hin.
  apply in_flat_map in Hin. destruct Hin as (keyword & _ & Hin).
  apply in_flat_map in Hin. destruct Hin as (elem & _ & Hin).
  unfold Single.status_entry in Hin.
  destruct (Bs4.ns_parent elem); simpl in Hin; [| tauto].
  destruct Hin as [<- | []]. reflexivity.
Qed.

Lemma content_shaped (soup : Bs4.node) (tail : list (string * pyval)) :
  dict_get "forms" tail = None ->
  dict_get "activities" tail = None ->
  dict_get "status_elements" tail = None ->
  snapshot_shaped (VDict (content_of soup ++ tail)%list) = true.
Proof.
  intros _ _ _. unfold snapshot_shaped, texts_ok, content_of.
  cbn [app dict_get_default dict_get String.eqb Ascii.eqb Bool.eqb].
  rewrite activity_entries_have_text, status_entries_have_text. reflexivity.
Qed.

Lemma single_extract_shaped (rt : runtime) (html : string) :
  snapshot_shaped (Single.extract_form_data rt html) = true.
Proof. rewrite single_extract_eq. now apply content_shaped. Qed.

Lemma multi_current_shaped (rt : runtime) (page : page_config) (html : string) :
  snapshot_shaped (multi_current rt page html) = true.
Proof. unfold multi_current. now apply content_shaped. Qed.

(* ------------------------------------------------------------------ *)
(** ** The new snapshot is always saved *)












(* ------------------------------------------------------------------ *)
(** ** The content hash *)

Lemma leb_trans (a b c : string) :
  String.leb a b = true -> String.leb b c = true -> String.leb a c = true.
Proof.
  unfold String.leb.
  destruct (String.compare a b) eqn:Hab; try discriminate; intros _;
    destruct (String.compare b c) eqn:Hbc; try discriminate; intros _.
  - apply String.compare_eq_iff in Hab, Hbc. subst.
    destruct (String.compare c c) eqn:Hcc; try reflexivity.
    pose proof (String.compare_antisym c c) as Hanti.
    rewrite Hcc in Hanti. discriminate Hanti.
  - apply String.compare_eq_iff in Hab. subst. now rewrite Hbc.
  - apply String.compare_eq_iff in Hbc. subst. now rewrite Hab.
  - assert (Hac : String.compare a c = Lt).
    { apply String_as_OT.cmp_lt.
      apply String_as_OT.lt_trans with (y := b); now apply String_as_OT.cmp_lt. }
    now rewrite Hac.
Qed.

Section SortItems.

Context {A : Type}.

Implicit Types (x y : string * A) (l : list (string * A)).

(** Two items with different keys go into a list in either order. *)
Lemma insert_item_comm x y l :
  fst x <> fst y ->
  insert_item x (insert_item y l) = insert_item y (insert_item x l).
Proof.
  intros Hxy. induction l as [| z l IH].
  - simpl.
    destruct (String.leb (fst x) (fst y)) eqn:Hle1, (String.leb (fst y) (fst x)) eqn:Hle2;
      try reflexivity.
    + elim Hxy. now apply String.leb_antisym.
    + destruct (String.leb_total (fst x) (fst y)); congruence.
  - simpl.
    destruct (String.leb (fst y) (fst z)) eqn:Hyz, (String.leb (fst x) (fst z)) eqn:Hxz;
      simpl.
    + destruct (String.leb (fst x) (fst y)) eqn:Hle1,
        (String.leb (fst y) (fst x)) eqn:Hle2; try rewrite Hxz; try rewrite Hyz;
        try reflexivity.
      * elim Hxy. now apply String.leb_antisym.
      * destruct (String.leb_total (fst x) (fst y)); congruence.
    + destruct (String.leb (fst x) (fst y)) eqn:Hle1.
      * rewrite (leb_trans _ _ _ Hle1 Hyz) in Hxz. discriminate.
      * now rewrite Hxz, Hyz.
    + destruct (String.leb (fst y) (fst x)) eqn:Hle2.
      * rewrite (leb_trans _ _ _ Hle2 Hxz) in Hyz. discriminate.
      * now rewrite Hxz, Hyz.
    + now rewrite Hxz, Hyz, IH.
Qed.

(** Sorting by key gives one result for all orders of a list with distinct
    keys. *)
Lemma sort_items_permutation l l' :
  Permutation l l' -> NoDup (map fst l) -> sort_items l = sort_items l'.
Proof.
  induction 1 as [| x l l' Hperm IH | x y l | l l' l'' H1 IH1 H2 IH2]; intros Hnodup.
  - reflexivity.
  - simpl. inversion Hnodup; subst. now rewrite IH.
  - simpl. apply insert_item_comm.
    inversion Hnodup; subst. simpl in *. intros Heq. apply H1. left. now symmetry.
  - rewrite IH1 by assumption. apply IH2.
    apply Permutation_NoDup with (l := map fst l); [| assumption].
    now apply Permutation_map.
Qed.

End SortItems.

Lemma dumps_sorted_permutation (d d' : list (string * pyval)) :
  Permutation d d' -> NoDup (map fst d) ->
  dumps_sorted (VDict d) = dumps_sorted (VDict d').
Proof.
  intros Hperm Hnodup. cbn [dumps_sorted].
  rewrite (sort_items_permutation
             (map (fun kv => (fst kv, dumps_sorted (snd kv))) d)
             (map (fun kv => (fst kv, dumps_sorted (snd kv))) d')).
  - reflexivity.
  - now apply Permutation_map.
  - rewrite map_map. simpl. exact Hnodup.
Qed.

Lemma dict_pop_filter (k : string) (d : list (string * pyval)) :
  dict_pop k d = filter (fun kv => negb (String.eqb k (fst kv))) d.
Proof.
  induction d as [| [k' v] d IH]; simpl; [reflexivity |].
  destruct (String.eqb k k'); simpl; now rewrite IH.
Qed.

Lemma filter_permutation {A : Type} (f : A -> bool) (l l' : list A) :
  Permutation l l' -> Permutation (filter f l) (filter f l').
Proof.
  induction 1 as [| x l l' _ IH | x y l | l l' l'' _ IH1 _ IH2]; simpl.
  - constructor.
  - destruct (f x); [now constructor | assumption].
  - destruct (f x), (f y); try apply Permutation_refl. apply perm_swap.
  - now apply Permutation_trans with (l' := filter f l').
Qed.

Lemma filter_keys_nodup (f : string * pyval -> bool) (d : list (string * pyval)) :
  NoDup (map fst d) -> NoDup (map fst (filter f d)).
Proof.
  induction d as [| kv d IH]; simpl; intros Hnodup; [constructor |].
  inversion Hnodup; subst.
  destruct (f kv); simpl; [| now apply IH].
  constructor; [| now apply IH].
  intros Hin. apply H1. apply in_map_iff in Hin. destruct Hin as (kv' & Hk & Hin).
  apply filter_In in Hin. destruct Hin as [Hin _].
  apply in_map_iff. now exists kv'.
Qed.

Lemma dict_pop_set (k : string) (v : pyval) (d : list (string * pyval)) :
  dict_pop k (dict_set k v d) = dict_pop k d.
Proof.
  induction d as [| [k' v'] d IH]; simpl.
  - now rewrite String.eqb_refl.
  - destruct (String.eqb k k') eqn:Heq; simpl.
    + now rewrite String.eqb_refl.
    + now rewrite Heq, IH.
Qed.

Lemma dict_get_pop_other (k k' : string) (d : list (string * pyval)) :
  k <> k' -> dict_get k (dict_pop k' d) = dict_get k d.
Proof.
  intros Hne. induction d as [| [k0 v0] d IH]; simpl; [reflexivity |].
  destruct (String.eqb k' k0) eqn:Hpop.
  - apply String.eqb_eq in Hpop. subst k0.
    apply String.eqb_neq in Hne. now rewrite Hne.
  - simpl. now rewrite IH.
Qed.

(** The hash of the snapshot of a page depends on the URL it was fetched
    from. *)
Example hash_depends_on_url :
  Multi.calculate_content_hash (Sample.multi_snapshot Sample.visit "v1" Sample.morning)
    = Ok "9b778e3eabf4258e69b1d96a53787b7c"
  /\ Multi.calculate_content_hash (Sample.multi_snapshot Sample.tours "v1" Sample.morning)
     = Ok "ef86311eac8a3ddcb90fa2ee8885abd1".
Proof. split; vm_compute; reflexivity. Qed.

(** C3 as stated fails: the hash of a dict changes with the value under
    [url]. *)
Lemma hash_ignores_url_fails : ~ hash_ignores_url.
Proof.
  intros H.
  specialize (H (Sample.entries (Sample.snapshot "v1" Sample.morning))
                "https://example.org/visit" "https://example.org/tours").
  vm_compute in H. discriminate H.
Qed.

(** C3, amended.  The content hash of a dict is the MD5 digest of its JSON
    text with sorted keys after the key [timestamp] alone has been removed:
    the value under [timestamp] does not affect it, the order of the keys
    does not affect it, and every other key, [url] included, is part of what
    is hashed.  The two scripts compute the same hash. *)
Theorem content_hash_canonical (d d' : list (string * pyval)) (t1 t2 : pyval) :
  NoDup (map fst d) ->
  Permutation d d' ->
  Multi.calculate_content_hash (VDict d)
    = Ok (MD5.hexdigest (dumps_sorted (VDict (dict_pop "timestamp" d))))
  /\ Multi.calculate_content_hash (VDict (dict_set "timestamp" t1 d))
     = Multi.calculate_content_hash (VDict (dict_set "timestamp" t2 d))
  /\ Multi.calculate_content_hash (VDict d) = Multi.calculate_content_hash (VDict d')
  /\ (forall k v, k <> "timestamp" ->
        dict_get k d = Some v -> dict_get k (dict_pop "timestamp" d) = Some v)
  /\ Single.calculate_content_hash (VDict d) = Multi.calculate_content_hash (VDict d).
Proof.
  intros Hnodup Hperm. repeat split.
  - unfold Multi.calculate_content_hash. now rewrite !dict_pop_set.
  - unfold Multi.calculate_content_hash. f_equal. f_equal.
    apply dumps_sorted_permutation.
    + rewrite !dict_pop_filter. now apply filter_permutation.
    + rewrite dict_pop_filter. now apply filter_keys_nodup.
  - intros k v Hk Hget. now rewrite dict_get_pop_other.
Qed.

Lemma content_hash_canonical_witness :
  Multi.calculate_content_hash
    (VDict [("url", VStr "https://example.org/visit"); ("page_title", VStr "Visit");
            ("timestamp", VStr Sample.morning)])
  = Multi.calculate_content_hash
      (VDict [("timestamp", VStr Sample.morning); ("page_title", VStr "Visit");
              ("url", VStr "https://example.org/visit")]).
Proof.
  apply (content_hash_canonical
           [("url", VStr "https://example.org/visit"); ("page_title", VStr "Visit");
            ("timestamp", VStr Sample.morning)]
           [("timestamp", VStr Sample.morning); ("page_title", VStr "Visit");
            ("url", VStr "https://example.org/visit")]
           VNone VNone).
  - repeat constructor; simpl; intuition discriminate.
  - apply Permutation_sym, (Permutation_rev
      [("timestamp", VStr Sample.morning); ("page_title", VStr "Visit");
       ("url", VStr "https://example.org/visit")]).
Defined.

(* ------------------------------------------------------------------ *)
(** ** The activity notes of the single-page script *)

Lemma in_str_iff (x : string) (l : list string) : in_str x l = true <-> In x l.
Proof.
  unfold in_str. rewrite existsb_exists. split.
  - intros (y & Hin & Heq). apply String.eqb_eq in Heq. now subst.
  - intros Hin. exists x. split; [exact Hin | apply String.eqb_refl].
Qed.

Lemma in_str_app (x : string) (l l' : list string) :
  in_str x (l ++ l') = in_str x l || in_str x l'.
Proof. unfold in_str. apply existsb_app. Qed.

Lemma set_mem_strs (t : string) (acc : list string) :
  set_mem (VStr t) (map VStr acc) = in_str t acc.
Proof.
  unfold set_mem, in_str. induction acc as [| a acc IH]; cbn [map existsb]; [reflexivity |].
  rewrite IH. reflexivity.
Qed.

Lemma in_first_seen (x : string) (l : list string) :
  forall seen, In x (first_seen l seen) <-> In x l /\ ~ In x seen.
Proof.
  induction l as [| y l IH]; intros seen; simpl; [tauto |].
  destruct (in_str y seen) eqn:Hy.
  - rewrite IH. apply in_str_iff in Hy. split.
    + intros [Hin Hseen]. split; [now right | exact Hseen].
    + intros [[-> | Hin] Hseen]; [contradiction | now split].
  - assert (Hy' : ~ In y seen).
    { intros Hin. apply in_str_iff in Hin. congruence. }
    simpl. rewrite IH. simpl. split.
    + intros [-> | [Hin Hseen]]; [split; [now left | exact Hy'] |].
      split; [now right | tauto].
    + intros [[-> | Hin] Hseen]; [now left |].
      destruct (String.eqb_spec y x) as [-> | Hne]; [now left | right].
      split; [exact Hin | intros [Heq | Hs]; [now apply Hne | now apply Hseen]].
Qed.

Lemma first_seen_nodup (l : list string) : forall seen, NoDup (first_seen l seen).
Proof.
  induction l as [| y l IH]; intros seen; simpl; [constructor |].
  destruct (in_str y seen); [apply IH |].
  constructor; [| apply IH].
  rewrite in_first_seen. simpl. tauto.
Qed.

(** The set the comprehension builds holds the distinct texts at their first
    positions. *)
Lemma set_of_field_first_seen (items : list pyval) :
  forallb has_text items = true ->
  forall acc seen : list string,
    (forall x, in_str x seen = in_str x acc) ->
    set_of_field "text" items (map VStr acc)
    = Ok (map VStr (acc ++ first_seen (flat_map text_of items) seen)).
Proof.
  induction items as [| item rest IH]; intros Hitems acc seen Hseen.
  - simpl. now rewrite app_nil_r.
  - simpl in Hitems. apply andb_true_iff in Hitems. destruct Hitems as [Hitem Hrest].
    destruct item as [| | | | | e]; try discriminate Hitem.
    cbn [set_of_field py_subscript flat_map text_of]. simpl in Hitem.
    destruct (dict_get "text" e) as [[| | | t | |] |]; try discriminate Hitem.
    cbn [rbind hashable app first_seen].
    unfold set_add. rewrite set_mem_strs, Hseen.
    destruct (in_str t acc) eqn:Ht.
    + now apply IH.
    + change (map VStr acc ++ [VStr t])%list with (map VStr acc ++ map VStr [t])%list.
      rewrite <- map_app.
      rewrite (IH Hrest (acc ++ [t])%list (t :: seen)).
      * now rewrite <- app_assoc.
      * intros x. rewrite in_str_app. unfold in_str at 1 3. simpl.
        fold (in_str x seen). rewrite Hseen. rewrite orb_false_r. apply orb_comm.
Qed.

Lemma text_set_first_seen (key : string) (d : list (string * pyval)) :
  texts_ok key d = true ->
  text_set key d = Ok (map VStr (first_seen (field_texts key (VDict d)) [])).
Proof.
  unfold texts_ok, text_set, field_texts.
  destruct (dict_get_default key (VList []) d) as [| | | | l |]; try discriminate.
  intros Hl. cbn [py_iter rbind].
  exact (set_of_field_first_seen l Hl [] [] (fun x => eq_refl)).
Qed.

Lemma set_diff_strs (a b : list string) :
  set_diff (map VStr a) (map VStr b) = map VStr (filter (fun x => negb (in_str x b)) a).
Proof.
  unfold set_diff. induction a as [| x a IH]; simpl; [reflexivity |].
  rewrite set_mem_strs. destruct (in_str x b); simpl; now rewrite IH.
Qed.

Lemma in_str_first_seen (x : string) (l : list string) :
  in_str x (first_seen l []) = in_str x l.
Proof.
  apply eq_true_iff_eq. rewrite !in_str_iff, in_first_seen. simpl. tauto.
Qed.

Lemma text_sets_minus (a b : list string) :
  set_diff (map VStr (first_seen a [])) (map VStr (first_seen b []))
  = map VStr (texts_minus a b).
Proof.
  rewrite set_diff_strs. unfold texts_minus. f_equal.
  apply filter_ext. intros x. now rewrite in_str_first_seen.
Qed.

Lemma texts_minus_spec (a b : list string) (x : string) :
  In x (texts_minus a b) <-> In x a /\ ~ In x b.
Proof.
  unfold texts_minus. rewrite filter_In, in_first_seen, negb_true_iff.
  destruct (in_str x b) eqn:Hb.
  - apply in_str_iff in Hb. split; [intros [_ H]; discriminate H | tauto].
  - assert (Hb' : ~ In x b) by (intros Hin; apply in_str_iff in Hin; congruence).
    simpl. tauto.
Qed.

Lemma texts_minus_nodup (a b : list string) : NoDup (texts_minus a b).
Proof. unfold texts_minus. apply NoDup_filter, first_seen_nodup. Qed.

Lemma py_join_map_VStr (sep : string) (l : list string) :
  py_join sep (map VStr l) = Ok (join sep l).
Proof.
  unfold py_join.
  assert (H : rmap (fun v => match v with VStr s => Ok s | _ => Raise TypeError end)
                (map VStr l) = Ok l).
  { induction l as [| x l IH]; simpl; [reflexivity | now rewrite IH]. }
  now rewrite H.
Qed.

Lemma nodup_firstn {A : Type} (k : nat) (l : list A) : NoDup l -> NoDup (firstn k l).
Proof.
  revert l. induction k as [| k IH]; intros l Hl; [constructor |].
  destruct l as [| x l]; [constructor |]. simpl.
  inversion Hl; subst. constructor; [| now apply IH].
  intros Hin. apply in_firstn in Hin. contradiction.
Qed.

(** The note for a difference of two text sets that is not empty. *)
Lemma note_for_texts (rt : runtime) (prefix : string) (k : nat) (a b : list string) :
  set_order_sound rt ->
  texts_minus a b <> [] ->
  exists listed : list string,
    note_for rt prefix k (map VStr (texts_minus a b)) = Ok [prefix ++ join ", " listed]
    /\ List.length listed = Nat.min k (List.length (texts_minus a b))
    /\ NoDup listed
    /\ (forall x, In x listed -> In x a /\ ~ In x b)
    /\ map VStr listed = firstn k (set_order rt (map VStr (texts_minus a b))).
Proof.
  intros Hsound Hne.
  destruct (Permutation_map_inv VStr (texts_minus a b) (Hsound (map VStr (texts_minus a b))))
    as (P & HP & Hperm).
  exists (firstn k P).
  assert (Hnote : note_for rt prefix k (map VStr (texts_minus a b))
                  = Ok [prefix ++ join ", " (firstn k P)]).
  { unfold note_for. destruct (texts_minus a b) as [| x rest]; [congruence |].
    cbn [map]. cbn [map] in HP. rewrite HP, firstn_map, py_join_map_VStr.
    reflexivity. }
  split; [exact Hnote |]. split; [| split; [| split]].
  - rewrite length_firstn. now rewrite (Permutation_length Hperm).
  - apply nodup_firstn. apply Permutation_NoDup with (l := texts_minus a b).
    + exact Hperm.
    + apply texts_minus_nodup.
  - intros x Hin. apply texts_minus_spec.
    apply Permutation_in with (l := P); [now apply Permutation_sym |].
    now apply in_firstn with (k := k).
  - now rewrite HP, firstn_map.
Qed.

Lemma note_for_texts_cases (rt : runtime) (prefix : string) (k : nat) (a b : list string) :
  set_order_sound rt ->
  exists note : list string,
    note_for rt prefix k (map VStr (texts_minus a b)) = Ok note
    /\ (texts_minus a b <> [] ->
        exists listed : list string,
          note = [prefix ++ join ", " listed]
          /\ List.length listed = Nat.min k (List.length (texts_minus a b))
          /\ NoDup listed
          /\ (forall x, In x listed -> In x a /\ ~ In x b)
          /\ map VStr listed = firstn k (set_order rt (map VStr (texts_minus a b)))).
Proof.
  intros Hsound.
  destruct (list_eq_dec string_dec (texts_minus a b) []) as [Hnil | Hne].
  - exists []. rewrite Hnil. split; [reflexivity | congruence].
  - destruct (note_for_texts rt prefix k a b Hsound Hne) as (listed & Hnote & Hprops).
    exists [prefix ++ join ", " listed]. split; [exact Hnote |].
    intros _. now exists listed.
Qed.

Lemma lists_examples_in (rt : runtime) (prefix : string) (k : nat) (a b : list string)
    (note notes : list string) :
  (exists listed : list string,
      note = [prefix ++ join ", " listed]
      /\ List.length listed = Nat.min k (List.length (texts_minus a b))
      /\ NoDup listed
      /\ (forall x, In x listed -> In x a /\ ~ In x b)
      /\ map VStr listed = firstn k (set_order rt (map VStr (texts_minus a b)))) ->
  incl note notes ->
  lists_examples rt prefix k a b notes.
Proof.
  intros (listed & -> & Hprops) Hincl. exists listed. split; [| exact Hprops].
  apply Hincl. now left.
Qed.

(** C4, amended.  For two snapshots with different hashes: when some
    activity text of the new one is no text of the old one, the notes hold a
    note [New activities: ...] that lists distinct such texts, three of them
    or all when there are fewer, in the order in which the set difference
    yields its members (whatever order that is); likewise a note
    [Removed activities: ...] for the texts of the old one that are no
    text of the new one. *)
Theorem activity_notes_follow_set_order (rt : runtime) (od nd : list (string * pyval)) :
  set_order_sound rt ->
  od <> [] ->
  snapshot_shaped (VDict od) = true ->
  snapshot_shaped (VDict nd) = true ->
  dict_hash od <> dict_hash nd ->
  let old_texts := field_texts "activities" (VDict od) in
  let new_texts := field_texts "activities" (VDict nd) in
  exists notes : list string,
    Single.compare_snapshots rt (VDict od) (VDict nd) = Ok (Some notes)
    /\ (texts_minus new_texts old_texts <> [] ->
        lists_examples rt "New activities: " 3 new_texts old_texts notes)
    /\ (texts_minus old_texts new_texts <> [] ->
        lists_examples rt "Removed activities: " 3 old_texts new_texts notes).
Proof.
  intros Hsound Hne Hold Hnew Hhash old_texts new_texts.
  destruct (count_forms_shaped od Hold) as (m & Hm).
  destruct (count_forms_shaped nd Hnew) as (n & Hn).
  unfold snapshot_shaped in Hold, Hnew.
  apply andb_true_iff in Hold. destruct Hold as [Hold Hos].
  apply andb_true_iff in Hold. destruct Hold as [_ Hoa].
  apply andb_true_iff in Hnew. destruct Hnew as [Hnew Hns].
  apply andb_true_iff in Hnew. destruct Hnew as [_ Hna].
  destruct (text_set_shaped _ _ Hos) as (os & Hos' & Sos).
  destruct (text_set_shaped _ _ Hns) as (ns & Hns' & Sns).
  rewrite (single_compare_dicts rt od nd m n _ _ os ns Hne Hhash Hm Hn
             (text_set_first_seen _ _ Hoa) (text_set_first_seen _ _ Hna) Hos' Hns').
  rewrite !text_sets_minus. fold old_texts new_texts.
  destruct (note_for_texts_cases rt "New activities: " 3 new_texts old_texts Hsound)
    as (added & -> & Hadded).
  destruct (note_for_texts_cases rt "Removed activities: " 3 old_texts new_texts Hsound)
    as (removed & -> & Hremoved).
  destruct (note_for_strs rt "Status changes: " 2 (set_diff ns os) Hsound)
    as (status & ->); [now apply forallb_set_diff |].
  cbn [rbind].
  destruct (form_note m n ++ added ++ removed ++ status)%list as [| c cs] eqn:Hnotes.
  - apply app_eq_nil in Hnotes. destruct Hnotes as [_ Hnotes].
    apply app_eq_nil in Hnotes. destruct Hnotes as [-> Hnotes].
    apply app_eq_nil in Hnotes. destruct Hnotes as [-> _].
    eexists. split; [reflexivity |]. split; intros Hdiff.
    + destruct (Hadded Hdiff) as (listed & Habs & _). discriminate Habs.
    + destruct (Hremoved Hdiff) as (listed & Habs & _). discriminate Habs.
  - exists (c :: cs). split; [reflexivity |]. rewrite <- Hnotes. split; intros Hdiff.
    + apply lists_examples_in with (note := added); [now apply Hadded |].
      intros x Hx. apply in_or_app. right. apply in_or_app. now left.
    + apply lists_examples_in with (note := removed); [now apply Hremoved |].
      intros x Hx. apply in_or_app. right. apply in_or_app. right.
      apply in_or_app. now left.
Qed.

Lemma activity_notes_follow_set_order_witness :
  exists notes : list string,
    Single.compare_snapshots (Sample.serving_rev None Sample.evening)
      (VDict (Sample.entries (Sample.snapshot "v4" Sample.morning)))
      (VDict (Sample.entries (Sample.snapshot "v2" Sample.evening)))
    = Ok (Some notes)
    /\ lists_examples (Sample.serving_rev None Sample.evening) "New activities: " 3
         (field_texts "activities"
            (VDict (Sample.entries (Sample.snapshot "v2" Sample.evening))))
         (field_texts "activities"
            (VDict (Sample.entries (Sample.snapshot "v4" Sample.morning))))
         notes.
Proof.
  destruct (activity_notes_follow_set_order (Sample.serving_rev None Sample.evening)
              (Sample.entries (Sample.snapshot "v4" Sample.morning))
              (Sample.entries (Sample.snapshot "v2" Sample.evening)))
    as (notes & Hrun & Hadded & _).
  - intros s. apply Permutation_sym, Permutation_rev.
  - vm_compute. discriminate.
  - vm_compute. reflexivity.
  - vm_compute. reflexivity.
  - vm_compute. discriminate.
  - exists notes. split; [exact Hrun |]. apply Hadded. vm_compute. discriminate.
Defined.

(** C4 as stated fails: with sets that yield their members last-inserted
    first, the note lists the new texts in the reverse of first-seen order. *)
Lemma first_seen_order_fails : ~ listed_in_first_seen_order.
Proof.
  intros H.
  destruct (H (Sample.serving_rev None Sample.evening)
              (Sample.entries (Sample.snapshot "v4" Sample.morning))
              (Sample.entries (Sample.snapshot "v2" Sample.evening)))
    as (notes & Hrun & Hin).
  - intros s. apply Permutation_sym, Permutation_rev.
  - vm_compute. discriminate.
  - vm_compute. reflexivity.
  - vm_compute. reflexivity.
  - vm_compute. discriminate.
  - vm_compute. discriminate.
  - vm_compute in Hrun. injection Hrun as <-.
    vm_compute in Hin. intuition discriminate.
Qed.

(** The run the counterexample rests on. *)
Example reverse_order_run :
  Single.compare_snapshots (Sample.serving_rev None Sample.evening)
    (Sample.snapshot "v4" Sample.morning) (Sample.snapshot "v2" Sample.evening)
  = Ok (Some ["Number of forms changed: 0 -> 1";
              "New activities: Register, Library Open House";
              "Status changes: Register, Sold Out"])
  /\ texts_minus (field_texts "activities" (Sample.snapshot "v2" Sample.evening))
                 (field_texts "activities" (Sample.snapshot "v4" Sample.morning))
     = ["Library Open House"; "Register"].
Proof. split; vm_compute; reflexivity. Qed.

(** One new activity gives one note, in either order of sets. *)
Example one_new_activity :
  Single.compare_snapshots (Sample.serving None Sample.evening)
    (Sample.snapshot "v1" Sample.morning) (Sample.snapshot "v2" Sample.evening)
  = Ok (Some ["New activities: Library Open House"])
  /\ Single.compare_snapshots (Sample.serving_rev None Sample.evening)
       (Sample.snapshot "v1" Sample.morning) (Sample.snapshot "v2" Sample.evening)
     = Ok (Some ["New activities: Library Open House"]).
Proof. split; vm_compute; reflexivity. Qed.

(* ------------------------------------------------------------------ *)
(** ** Pages as the configuration gives them *)

(** For a page given by a name and a URL the two descriptions of
    [monitor_page] agree. *)
Lemma monitor_page_entry (rt : runtime) (page : page_config) (w : world) :
  MultiEnv.monitor_page rt (entry_of page) w = Multi.monitor_page rt page w.
Proof. reflexivity. Qed.

Lemma monitor_all_entries (rt : runtime) (pages : list page_config) :
  forall (count : nat) (w : world),
    MultiEnv.monitor_all rt (map entry_of pages) count w
    = Multi.monitor_all rt pages count w.
Proof.
  induction pages as [| page rest IH]; intros count w; [reflexivity |].
  cbn [map MultiEnv.monitor_all Multi.monitor_all].
  unfold bind at 1 3. unfold try_except. rewrite monitor_page_entry.
  destruct (Multi.monitor_page rt page w) as [[b | e] w1].
  - apply IH.
  - cbn [entry_of py_subscript dict_get String.eqb Ascii.eqb Bool.eqb].
    unfold bind, lift, ret. apply IH.
Qed.

Lemma monitor_all_app (rt : runtime) (first rest : list pyval) :
  forall (count : nat) (w : world),
    MultiEnv.monitor_all rt (first ++ rest) count w
    = match MultiEnv.monitor_all rt first count w with
      | (Ok count', w') => MultiEnv.monitor_all rt rest count' w'
      | (Raise e, w') => (Raise e, w')
      end.
Proof.
  induction first as [| page first IH]; intros count w; [reflexivity |].
  cbn [app MultiEnv.monitor_all]. unfold bind at 1 3.
  destruct (try_except (MultiEnv.monitor_page rt page)
              (fun _ => (lift (py_subscript page "name");; ret false)%io) w)
    as [[b | e] w1]; [apply IH | reflexivity].
Qed.

Lemma monitor_page_nameless (rt : runtime) (page_config : pyval) (e : exn) (w : world) :
  py_subscript page_config "name" = Raise e ->
  MultiEnv.monitor_page rt page_config w = (Raise e, w).
Proof.
  intros Hname. unfold MultiEnv.monitor_page, bind, lift. rewrite Hname. reflexivity.
Qed.


(** The loop with a page that has no name: the handler raises. *)
Lemma monitor_all_nameless (rt : runtime) (page_config : pyval) (rest : list pyval)
    (e : exn) (count : nat) (w : world) :
  py_subscript page_config "name" = Raise e ->
  MultiEnv.monitor_all rt (page_config :: rest) count w = (Raise e, w).
Proof.
  intros Hname. cbn [MultiEnv.monitor_all]. unfold bind at 1. unfold try_except.
  rewrite (monitor_page_nameless rt page_config e w Hname).
  unfold bind, lift. rewrite Hname. reflexivity.
Qed.

(** The loop with a page that has a name: whatever the page does, the loop
    goes on from the world the page left. *)
Lemma monitor_all_named (rt : runtime) (page_config page_name : pyval)
    (rest : list pyval) (count : nat) (w : world) :
  py_subscript page_config "name" = Ok page_name ->
  MultiEnv.monitor_all rt (page_config :: rest) count w
  = match MultiEnv.monitor_page rt page_config w with
    | (Ok monitored, w1) =>
        MultiEnv.monitor_all rt rest (if monitored then S count else count) w1
    | (Raise _, w1) => MultiEnv.monitor_all rt rest count w1
    end.
Proof.
  intros Hname. cbn [MultiEnv.monitor_all]. unfold bind at 1. unfold try_except.
  destruct (MultiEnv.monitor_page rt page_config w) as [[b | e] w1]; [reflexivity |].
  unfold bind, lift, ret. rewrite Hname. reflexivity.
Qed.

Lemma env_monitor_page_no_content (rt : runtime) (page_config page_name url : pyval)
    (w : world) :
  py_subscript page_config "name" = Ok page_name ->
  py_subscript page_config "url" = Ok url ->
  no_content (http_get rt (py_format url)) ->
  MultiEnv.monitor_page rt page_config w = (Ok false, extend [EvFetch (py_format url)] w).
Proof.
  intros Hname Hurl Hfail.
  unfold MultiEnv.monitor_page, bind at 1 2. unfold lift at 1 2.
  rewrite Hname, Hurl.
  unfold Multi.fetch_page_content, bind, emit, ret.
  destruct Hfail as [H | H]; rewrite H; reflexivity.
Qed.



(* ------------------------------------------------------------------ *)
(** ** Failures of one page and the other pages *)

(** C9.  A fetch that brings nothing ends the run of that page right after
    the fetch: nothing is compared, saved or sent and nothing is raised, in
    both scripts; in the multi-page script the loop then goes on with the
    remaining pages.  The loop also goes on after every exception of a page
    from which [page_config['name']] can be read.  A page from which it
    cannot be read ends the whole run: [monitor_page] raises, the handler of
    the loop raises again while it prints the name, and the remaining pages
    are never processed. *)
Theorem page_failure_containment (rt : runtime) (page_config : pyval)
    (rest : list pyval) (count : nat) (w : world) :
  (no_content (http_get rt Single.TARGET_URL) ->
   Single.main rt w = (Ok tt, extend [EvFetch Single.TARGET_URL] w))
  /\ (forall page_name url : pyval,
        py_subscript page_config "name" = Ok page_name ->
        py_subscript page_config "url" = Ok url ->
        no_content (http_get rt (py_format url)) ->
        MultiEnv.monitor_page rt page_config w
          = (Ok false, extend [EvFetch (py_format url)] w)
        /\ MultiEnv.monitor_all rt (page_config :: rest) count w
           = MultiEnv.monitor_all rt rest count (extend [EvFetch (py_format url)] w))
  /\ (forall (page_name : pyval) (e : exn) (w1 : world),
        py_subscript page_config "name" = Ok page_name ->
        MultiEnv.monitor_page rt page_config w = (Raise e, w1) ->
        MultiEnv.monitor_all rt (page_config :: rest) count w
        = MultiEnv.monitor_all rt rest count w1)
  /\ (forall e : exn,
        py_subscript page_config "name" = Raise e ->
        MultiEnv.monitor_page rt page_config w = (Raise e, w)
        /\ MultiEnv.monitor_all rt (page_config :: rest) count w = (Raise e, w)).
Proof.
  split; [| split; [| split]].
  - apply single_main_no_content.
  - intros page_name url Hname Hurl Hfail.
    pose proof (env_monitor_page_no_content rt page_config page_name url w
                  Hname Hurl Hfail) as Hpage.
    split; [exact Hpage |].
    now rewrite (monitor_all_named rt page_config page_name rest count w Hname), Hpage.
  - intros page_name e w1 Hname Hpage.
    now rewrite (monitor_all_named rt page_config page_name rest count w Hname), Hpage.
  - intros e Hname. split.
    + now apply monitor_page_nameless.
    + now apply monitor_all_nameless.
Qed.

Lemma page_failure_containment_witness :
  MultiEnv.monitor_all (Sample.serving (Some "") Sample.morning)
    [entry_of Sample.visit; entry_of Sample.tours] 0 Sample.empty_world
  = MultiEnv.monitor_all (Sample.serving (Some "") Sample.morning)
      [entry_of Sample.tours] 0 (extend [EvFetch (url Sample.visit)] Sample.empty_world)
  /\ MultiEnv.monitor_all (Sample.serving (Some "v1") Sample.morning)
       [VDict [("url", VStr "https://example.org/visit")]; entry_of Sample.tours]
       0 Sample.empty_world
     = (Raise KeyError, Sample.empty_world).
Proof.
  split.
  - destruct (page_failure_containment (Sample.serving (Some "") Sample.morning)
                (entry_of Sample.visit) [entry_of Sample.tours] 0 Sample.empty_world)
      as (_ & Hfetch & _ & _).
    apply (Hfetch (VStr "visit") (VStr (url Sample.visit)));
      [reflexivity | reflexivity | right; reflexivity].
  - destruct (page_failure_containment (Sample.serving (Some "v1") Sample.morning)
                (VDict [("url", VStr "https://example.org/visit")])
                [entry_of Sample.tours] 0 Sample.empty_world)
      as (_ & _ & _ & Hname).
    apply (Hname KeyError). reflexivity.
Defined.

(** The run of [main] over an [urls_config.json] whose first page has no
    name: it ends in [KeyError] before anything is fetched, also for the
    second page, which is well formed. *)
Example nameless_entry_stops_main :
  MultiEnv.main
    {| MultiEnv.vars := [];
       MultiEnv.urls_config :=
         Some (Json (VDict [("urls",
                             VList [VDict [("url", VStr "https://example.org/visit")];
                                    entry_of Sample.tours])])) |}
    (Sample.serving (Some "v1") Sample.morning) Sample.empty_world
  = (Raise KeyError, Sample.empty_world).
Proof. reflexivity. Qed.

(* ------------------------------------------------------------------ *)
(** ** A page that has not changed *)

Lemma truthy_content (soup : Bs4.node) (tail : list (string * pyval)) :
  truthy (VDict (content_of soup ++ tail)%list) = true.
Proof. reflexivity. Qed.

Lemma content_not_nil (soup : Bs4.node) (tail : list (string * pyval)) :
  (content_of soup ++ tail)%list <> [].
Proof. discriminate. Qed.

Lemma single_compare_same_page (rt0 rt : runtime) (html : string) :
  html_parser rt0 html = html_parser rt html ->
  Single.compare_snapshots rt (Single.extract_form_data rt0 html)
    (Single.extract_form_data rt html) = Ok None.
Proof.
  intros Hparse. rewrite !single_extract_eq.
  rewrite (same_parse_same_soup rt0 rt html Hparse).
  unfold Single.compare_snapshots, Single.calculate_content_hash.
  rewrite truthy_content. cbn [negb rbind].
  rewrite !pop_timestamp_content.
  now rewrite String.eqb_refl.
Qed.

Lemma pop_timestamp_current (soup : Bs4.node) (ts u : pyval) :
  dict_pop "timestamp" (content_of soup ++ [("timestamp", ts); ("url", u)])%list
  = (content_of soup ++ [("url", u)])%list.
Proof. reflexivity. Qed.

Lemma multi_compare_same_page (rt0 rt : runtime) (page : page_config) (html : string)
    (w : world) :
  html_parser rt0 html = html_parser rt html ->
  Multi.compare_snapshots rt (multi_current rt0 page html) (multi_current rt page html)
    (name page) w = (Ok false, w).
Proof.
  intros Hparse. unfold multi_current.
  rewrite (same_parse_same_soup rt0 rt html Hparse).
  rewrite multi_compare_dicts by apply content_not_nil.
  unfold dict_hash. rewrite !pop_timestamp_current.
  now rewrite String.eqb_refl.
Qed.

(** X1.  A run over a page whose snapshot file holds what an earlier run
    extracted from the same HTML (parsed alike, at any other time) sends
    nothing and replaces the file by the snapshot of this run; in both
    scripts. *)
Theorem unchanged_page_is_silent (rt0 rt : runtime) (page : page_config) (w : world)
    (html : string) :
  html <> "" ->
  html_parser rt0 html = html_parser rt html ->
  (http_get rt Single.TARGET_URL = Some html ->
   previous Single.SNAPSHOT_FILE w = Single.extract_form_data rt0 html ->
   Single.main rt w
   = (Ok tt,
      after_save Single.SNAPSHOT_FILE (Single.extract_form_data rt html)
        (extend [EvFetch Single.TARGET_URL; EvSaveContent Single.CONTENT_FILE html] w)))
  /\ (http_get rt (url page) = Some html ->
      previous (Multi.get_snapshot_filename (name page)) w
        = py_setitem (Multi.extract_form_data rt0 html) "url" (VStr (url page)) ->
      Multi.monitor_page rt page w
      = (Ok true,
         after_save (Multi.get_snapshot_filename (name page))
           (py_setitem (Multi.extract_form_data rt html) "url" (VStr (url page)))
           (extend [EvFetch (url page);
                    EvSaveContent (Multi.get_content_filename (name page)) html] w))).
Proof.
  intros Hne Hparse. split.
  - intros Hget Hprev.
    assert (Hdec : loadable Single.SNAPSHOT_FILE w = true)
      by (apply truthy_previous_loadable; rewrite Hprev; reflexivity).
    rewrite (single_main_run rt w html Hget Hne Hdec). cbv zeta.
    rewrite Hprev, (single_compare_same_page rt0 rt html Hparse). reflexivity.
  - intros Hget Hprev.
    assert (Hdec : loadable (Multi.get_snapshot_filename (name page)) w = true)
      by (apply truthy_previous_loadable; rewrite Hprev; reflexivity).
    rewrite (multi_monitor_page_run rt page w html Hget Hne Hdec). cbv zeta.
    rewrite Hprev.
    change (py_setitem (Multi.extract_form_data rt0 html) "url" (VStr (url page)))
      with (multi_current rt0 page html).
    rewrite (multi_compare_same_page rt0 rt page html _ Hparse). reflexivity.
Qed.

Lemma unchanged_page_is_silent_witness :
  Single.main (Sample.serving_rev (Some "v1") Sample.evening)
    (Sample.world_with (Sample.snapshot "v1" Sample.morning))
  = (Ok tt,
     after_save Single.SNAPSHOT_FILE
       (Single.extract_form_data (Sample.serving_rev (Some "v1") Sample.evening) "v1")
       (extend [EvFetch Single.TARGET_URL; EvSaveContent Single.CONTENT_FILE "v1"]
          (Sample.world_with (Sample.snapshot "v1" Sample.morning)))).
Proof.
  apply (unchanged_page_is_silent
           (Sample.serving (Some "v1") Sample.morning)
           (Sample.serving_rev (Some "v1") Sample.evening)
           Sample.visit
           (Sample.world_with (Sample.snapshot "v1" Sample.morning)) "v1").
  - discriminate.
  - reflexivity.
  - reflexivity.
  - reflexivity.
Defined.

(* ------------------------------------------------------------------ *)
(** ** The notes of the single-page script, in terms of the snapshots *)

Lemma count_forms_form_count (d : list (string * pyval)) :
  snapshot_shaped (VDict d) = true -> count_forms d = Ok (form_count (VDict d)).
Proof.
  unfold snapshot_shaped, count_forms, form_count.
  destruct (dict_get_default "forms" (VDict []) d); try discriminate. reflexivity.
Qed.

Lemma shaped_texts_ok (d : list (string * pyval)) :
  snapshot_shaped (VDict d) = true ->
  texts_ok "activities" d = true /\ texts_ok "status_elements" d = true.
Proof.
  unfold snapshot_shaped. intros H.
  apply andb_true_iff in H. destruct H as [H Hs].
  apply andb_true_iff in H. destruct H as [_ Ha]. now split.
Qed.

(** The comparison of two snapshots with different hashes. *)
Lemma single_compare_shaped (rt : runtime) (od nd : list (string * pyval)) :
  set_order_sound rt ->
  od <> [] ->
  snapshot_shaped (VDict od) = true ->
  snapshot_shaped (VDict nd) = true ->
  dict_hash od <> dict_hash nd ->
  exists added removed status : list string,
    note_for rt "New activities: " 3
      (map VStr (texts_minus (field_texts "activities" (VDict nd))
                             (field_texts "activities" (VDict od)))) = Ok added
    /\ note_for rt "Removed activities: " 3
         (map VStr (texts_minus (field_texts "activities" (VDict od))
                                (field_texts "activities" (VDict nd)))) = Ok removed
    /\ note_for rt "Status changes: " 2
         (map VStr (texts_minus (field_texts "status_elements" (VDict nd))
                                (field_texts "status_elements" (VDict od)))) = Ok status
    /\ Single.compare_snapshots rt (VDict od) (VDict nd)
       = Ok (Some match (form_note (form_count (VDict od)) (form_count (VDict nd))
                           ++ added ++ removed ++ status)%list with
                  | [] => [Single.FALLBACK_NOTE]
                  | changes => changes
                  end).
Proof.
  intros Hsound Hne Hold Hnew Hhash.
  destruct (shaped_texts_ok od Hold) as [Hoa Hos].
  destruct (shaped_texts_ok nd Hnew) as [Hna Hns].
  rewrite (single_compare_dicts rt od nd _ _ _ _ _ _ Hne Hhash
             (count_forms_form_count od Hold) (count_forms_form_count nd Hnew)
             (text_set_first_seen _ _ Hoa) (text_set_first_seen _ _ Hna)
             (text_set_first_seen _ _ Hos) (text_set_first_seen _ _ Hns)).
  rewrite !text_sets_minus.
  destruct (note_for_texts_cases rt "New activities: " 3
              (field_texts "activities" (VDict nd))
              (field_texts "activities" (VDict od)) Hsound) as (added & Hadded & _).
  destruct (note_for_texts_cases rt "Removed activities: " 3
              (field_texts "activities" (VDict od))
              (field_texts "activities" (VDict nd)) Hsound) as (removed & Hremoved & _).
  destruct (note_for_texts_cases rt "Status changes: " 2
              (field_texts "status_elements" (VDict nd))
              (field_texts "status_elements" (VDict od)) Hsound) as (status & Hstatus & _).
  exists added, removed, status.
  rewrite Hadded, Hremoved, Hstatus. cbn [rbind].
  repeat split.
  destruct (form_note (form_count (VDict od)) (form_count (VDict nd))
              ++ added ++ removed ++ status)%list; reflexivity.
Qed.

Lemma texts_minus_nil_iff (a b : list string) :
  texts_minus a b = [] <-> incl a b.
Proof.
  split.
  - intros Hnil x Hx.
    destruct (in_str x b) eqn:Hb; [now apply in_str_iff |].
    assert (Hin : In x (texts_minus a b)).
    { apply texts_minus_spec. split; [exact Hx |].
      intros Hxb. apply in_str_iff in Hxb. congruence. }
    rewrite Hnil in Hin. destruct Hin.
  - intros Hincl. destruct (texts_minus a b) as [| x rest] eqn:Hd; [reflexivity |].
    assert (Hin : In x (texts_minus a b)) by (rewrite Hd; now left).
    apply texts_minus_spec in Hin. destruct Hin as [Ha Hb]. elim Hb. now apply Hincl.
Qed.

Lemma note_for_nil_iff (rt : runtime) (prefix : string) (k : nat) (l : list string)
    (note : list string) :
  note_for rt prefix k (map VStr l) = Ok note -> (note = [] <-> l = []).
Proof.
  unfold note_for. destruct l as [| x l]; cbn [map].
  - intros [= <-]. tauto.
  - destruct (py_join ", " (firstn k (set_order rt (VStr x :: map VStr l)))); cbn [rbind];
      [| discriminate].
    intros [= <-]. split; discriminate.
Qed.

Lemma note_for_prefix (rt : runtime) (prefix : string) (k : nat) (diff : list pyval)
    (note : list string) :
  note_for rt prefix k diff = Ok note ->
  note = [] \/ exists listed, note = [prefix ++ listed].
Proof.
  unfold note_for. destruct diff as [| x l].
  - intros [= <-]. now left.
  - destruct (py_join ", " (firstn k (set_order rt (x :: l)))); cbn [rbind];
      [| discriminate].
    intros [= <-]. right. now eexists.
Qed.

Lemma form_note_nil_iff (m n : nat) : form_note m n = [] <-> m = n.
Proof.
  unfold form_note. destruct (Nat.eqb_spec m n); simpl; split; congruence.
Qed.

Lemma fallback_note_cases (rt : runtime) (od nd : list (string * pyval)) :
  set_order_sound rt ->
  od <> [] ->
  snapshot_shaped (VDict od) = true ->
  snapshot_shaped (VDict nd) = true ->
  dict_hash od <> dict_hash nd ->
  Single.compare_snapshots rt (VDict od) (VDict nd) = Ok (Some [Single.FALLBACK_NOTE])
  <-> (form_count (VDict od) = form_count (VDict nd)
       /\ incl (field_texts "activities" (VDict nd)) (field_texts "activities" (VDict od))
       /\ incl (field_texts "activities" (VDict od)) (field_texts "activities" (VDict nd))
       /\ incl (field_texts "status_elements" (VDict nd))
               (field_texts "status_elements" (VDict od))).
Proof.
  intros Hsound Hne Hold Hnew Hhash.
  destruct (single_compare_shaped rt od nd Hsound Hne Hold Hnew Hhash)
    as (added & removed & status & Hadded & Hremoved & Hstatus & ->).
  rewrite <- !texts_minus_nil_iff.
  rewrite <- (note_for_nil_iff _ _ _ _ _ Hadded), <- (note_for_nil_iff _ _ _ _ _ Hremoved),
    <- (note_for_nil_iff _ _ _ _ _ Hstatus), <- form_note_nil_iff.
  split.
  - intros Hcmp.
    destruct (form_note (form_count (VDict od)) (form_count (VDict nd))) as [| f fs] eqn:Hf.
    + destruct (note_for_prefix _ _ _ _ _ Hadded) as [-> | (la & ->)];
        [| cbn in Hcmp; discriminate Hcmp].
      destruct (note_for_prefix _ _ _ _ _ Hremoved) as [-> | (lr & ->)];
        [| cbn in Hcmp; discriminate Hcmp].
      destruct (note_for_prefix _ _ _ _ _ Hstatus) as [-> | (ls & ->)];
        [| cbn in Hcmp; discriminate Hcmp].
      tauto.
    + unfold form_note in Hf.
      destruct (negb (form_count (VDict od) =? form_count (VDict nd))%nat);
        [| discriminate Hf].
      injection Hf as <- <-. cbn in Hcmp. discriminate Hcmp.
  - intros (-> & -> & -> & ->). reflexivity.
Qed.

(** X2.  For two snapshots with different hashes the single-page script
    returns exactly the fallback note if and only if the two record the same
    number of forms, the same set of activity texts, and no status text of
    the new one is missing from the old one.  Status texts that have gone are
    not looked at. *)
Theorem fallback_note_iff (rt : runtime) (od nd : list (string * pyval)) :
  set_order_sound rt ->
  od <> [] ->
  snapshot_shaped (VDict od) = true ->
  snapshot_shaped (VDict nd) = true ->
  dict_hash od <> dict_hash nd ->
  Single.compare_snapshots rt (VDict od) (VDict nd) = Ok (Some [Single.FALLBACK_NOTE])
  <-> (form_count (VDict od) = form_count (VDict nd)
       /\ incl (field_texts "activities" (VDict nd)) (field_texts "activities" (VDict od))
       /\ incl (field_texts "activities" (VDict od)) (field_texts "activities" (VDict nd))
       /\ incl (field_texts "status_elements" (VDict nd))
               (field_texts "status_elements" (VDict od))).
Proof. exact (fallback_note_cases rt od nd). Qed.

Lemma fallback_note_iff_witness :
  Single.compare_snapshots (Sample.serving None Sample.evening)
    (VDict (Sample.entries (Sample.snapshot "v1" Sample.morning)))
    (VDict (Sample.entries (Sample.snapshot "v3" Sample.evening)))
  = Ok (Some [Single.FALLBACK_NOTE]).
Proof.
  apply (fallback_note_iff (Sample.serving None Sample.evening)
           (Sample.entries (Sample.snapshot "v1" Sample.morning))
           (Sample.entries (Sample.snapshot "v3" Sample.evening))).
  - intros s. apply Permutation_refl.
  - vm_compute. discriminate.
  - vm_compute. reflexivity.
  - vm_compute. reflexivity.
  - vm_compute. discriminate.
  - vm_compute. repeat split; intros x Hx; simpl in Hx; simpl; tauto.
Defined.

Lemma note_for_length (rt : runtime) (prefix : string) (k : nat) (diff : list pyval)
    (note : list string) :
  note_for rt prefix k diff = Ok note -> List.length note <= 1.
Proof.
  intros H. destruct (note_for_prefix _ _ _ _ _ H) as [-> | (l & ->)]; simpl; lia.
Qed.

(** The comparison of two snapshots with different hashes, with what each
    note lists. *)
Lemma single_compare_examples (rt : runtime) (od nd : list (string * pyval)) :
  set_order_sound rt ->
  od <> [] ->
  snapshot_shaped (VDict od) = true ->
  snapshot_shaped (VDict nd) = true ->
  dict_hash od <> dict_hash nd ->
  let oa := field_texts "activities" (VDict od) in
  let na := field_texts "activities" (VDict nd) in
  let os := field_texts "status_elements" (VDict od) in
  let ns := field_texts "status_elements" (VDict nd) in
  exists added removed status : list string,
    Single.compare_snapshots rt (VDict od) (VDict nd)
    = Ok (Some match (form_note (form_count (VDict od)) (form_count (VDict nd))
                        ++ added ++ removed ++ status)%list with
               | [] => [Single.FALLBACK_NOTE]
               | changes => changes
               end)
    /\ (List.length added <= 1 /\ List.length removed <= 1 /\ List.length status <= 1)
    /\ (added = [] <-> texts_minus na oa = [])
    /\ (removed = [] <-> texts_minus oa na = [])
    /\ (status = [] <-> texts_minus ns os = [])
    /\ (forall note, In note added -> lists_examples rt "New activities: " 3 na oa [note])
    /\ (forall note, In note removed ->
                     lists_examples rt "Removed activities: " 3 oa na [note])
    /\ (forall note, In note status -> lists_examples rt "Status changes: " 2 ns os [note]).
Proof.
  intros Hsound Hne Hold Hnew Hhash oa na os ns.
  destruct (shaped_texts_ok od Hold) as [Hoa Hos].
  destruct (shaped_texts_ok nd Hnew) as [Hna Hns].
  rewrite (single_compare_dicts rt od nd _ _ _ _ _ _ Hne Hhash
             (count_forms_form_count od Hold) (count_forms_form_count nd Hnew)
             (text_set_first_seen _ _ Hoa) (text_set_first_seen _ _ Hna)
             (text_set_first_seen _ _ Hos) (text_set_first_seen _ _ Hns)).
  rewrite !text_sets_minus. fold oa na os ns.
  destruct (note_for_texts_cases rt "New activities: " 3 na oa Hsound)
    as (added & Hadded & Padded).
  destruct (note_for_texts_cases rt "Removed activities: " 3 oa na Hsound)
    as (removed & Hremoved & Premoved).
  destruct (note_for_texts_cases rt "Status changes: " 2 ns os Hsound)
    as (status & Hstatus & Pstatus).
  exists added, removed, status.
  rewrite Hadded, Hremoved, Hstatus. cbn [rbind].
  split; [destruct (form_note _ _ ++ added ++ removed ++ status)%list; reflexivity |].
  split; [repeat split; eapply note_for_length; eassumption |].
  split; [exact (note_for_nil_iff _ _ _ _ _ Hadded) |].
  split; [exact (note_for_nil_iff _ _ _ _ _ Hremoved) |].
  split; [exact (note_for_nil_iff _ _ _ _ _ Hstatus) |].
  split; [| split].
  - intros note Hin.
    assert (Hd : texts_minus na oa <> []).
    { intros Hnil. apply (note_for_nil_iff _ _ _ _ _ Hadded) in Hnil.
      rewrite Hnil in Hin. destruct Hin. }
    destruct (Padded Hd) as (listed & -> & Hprops).
    destruct Hin as [<- | []]. exists listed. split; [now left | exact Hprops].
  - intros note Hin.
    assert (Hd : texts_minus oa na <> []).
    { intros Hnil. apply (note_for_nil_iff _ _ _ _ _ Hremoved) in Hnil.
      rewrite Hnil in Hin. destruct Hin. }
    destruct (Premoved Hd) as (listed & -> & Hprops).
    destruct Hin as [<- | []]. exists listed. split; [now left | exact Hprops].
  - intros note Hin.
    assert (Hd : texts_minus ns os <> []).
    { intros Hnil. apply (note_for_nil_iff _ _ _ _ _ Hstatus) in Hnil.
      rewrite Hnil in Hin. destruct Hin. }
    destruct (Pstatus Hd) as (listed & -> & Hprops).
    destruct Hin as [<- | []]. exists listed. split; [now left | exact Hprops].
Qed.

Lemma lists_examples_weaken (rt : runtime) (prefix : string) (k : nat)
    (a b : list string) (notes notes' : list string) :
  lists_examples rt prefix k a b notes -> incl notes notes' ->
  lists_examples rt prefix k a b notes'.
Proof.
  intros (listed & Hin & Hprops) Hincl. exists listed. split; [now apply Hincl | exact Hprops].
Qed.

(** X3.  For two snapshots with different hashes: when some status text of
    the new one is no status text of the old one, the last of the notes is a
    note [Status changes: ...] that lists distinct such texts, two of them
    or the only one, in the order in which the set difference yields its
    members. *)
Theorem status_note_lists_two (rt : runtime) (od nd : list (string * pyval)) :
  set_order_sound rt ->
  od <> [] ->
  snapshot_shaped (VDict od) = true ->
  snapshot_shaped (VDict nd) = true ->
  dict_hash od <> dict_hash nd ->
  texts_minus (field_texts "status_elements" (VDict nd))
              (field_texts "status_elements" (VDict od)) <> [] ->
  exists (notes : list string) (note : string),
    Single.compare_snapshots rt (VDict od) (VDict nd) = Ok (Some (notes ++ [note])%list)
    /\ lists_examples rt "Status changes: " 2
         (field_texts "status_elements" (VDict nd))
         (field_texts "status_elements" (VDict od)) [note].
Proof.
  intros Hsound Hne Hold Hnew Hhash Hdiff.
  destruct (single_compare_examples rt od nd Hsound Hne Hold Hnew Hhash)
    as (added & removed & status & Hcmp & (_ & _ & Hlen) & _ & _ & Hnil & _ & _ & Hstatus).
  destruct status as [| note rest].
  - elim Hdiff. now apply Hnil.
  - assert (Hone : rest = []) by (destruct rest; [reflexivity | simpl in Hlen; lia]).
    subst rest.
    exists (form_note (form_count (VDict od)) (form_count (VDict nd)) ++ added ++ removed)%list,
           note.
    split.
    + rewrite Hcmp. rewrite !app_assoc.
      destruct (((form_note (form_count (VDict od)) (form_count (VDict nd)) ++ added)
                   ++ removed) ++ [note])%list eqn:Happ; [| reflexivity].
      apply app_eq_nil in Happ. destruct Happ as [_ Habs]. discriminate Habs.
    + apply Hstatus. now left.
Qed.

Lemma status_note_lists_two_witness :
  exists (notes : list string) (note : string),
    Single.compare_snapshots (Sample.serving_rev None Sample.evening)
      (VDict (Sample.entries (Sample.snapshot "v4" Sample.morning)))
      (VDict (Sample.entries (Sample.snapshot "v2" Sample.evening)))
    = Ok (Some (notes ++ [note])%list)
    /\ lists_examples (Sample.serving_rev None Sample.evening) "Status changes: " 2
         (field_texts "status_elements"
            (VDict (Sample.entries (Sample.snapshot "v2" Sample.evening))))
         (field_texts "status_elements"
            (VDict (Sample.entries (Sample.snapshot "v4" Sample.morning))))
         [note].
Proof.
  apply (status_note_lists_two (Sample.serving_rev None Sample.evening)
           (Sample.entries (Sample.snapshot "v4" Sample.morning))
           (Sample.entries (Sample.snapshot "v2" Sample.evening))).
  - intros s. apply Permutation_sym, Permutation_rev.
  - vm_compute. discriminate.
  - vm_compute. reflexivity.
  - vm_compute. reflexivity.
  - vm_compute. discriminate.
  - vm_compute. discriminate.
Defined.

(** X4.  For two snapshots with different hashes that record different
    numbers of forms, the first note gives the two numbers; at most three
    notes follow it. *)
Theorem form_count_note_first (rt : runtime) (od nd : list (string * pyval)) :
  set_order_sound rt ->
  od <> [] ->
  snapshot_shaped (VDict od) = true ->
  snapshot_shaped (VDict nd) = true ->
  dict_hash od <> dict_hash nd ->
  form_count (VDict od) <> form_count (VDict nd) ->
  exists rest : list string,
    Single.compare_snapshots rt (VDict od) (VDict nd)
    = Ok (Some (("Number of forms changed: " ++ str_of_nat (form_count (VDict od))
                   ++ " -> " ++ str_of_nat (form_count (VDict nd))) :: rest))
    /\ List.length rest <= 3.
Proof.
  intros Hsound Hne Hold Hnew Hhash Hcount.
  destruct (single_compare_examples rt od nd Hsound Hne Hold Hnew Hhash)
    as (added & removed & status & Hcmp & (La & Lr & Ls) & _).
  exists (added ++ removed ++ status)%list. split.
  - rewrite Hcmp. unfold form_note.
    apply Nat.eqb_neq in Hcount. rewrite Hcount. reflexivity.
  - rewrite !length_app. lia.
Qed.

Lemma form_count_note_first_witness :
  exists rest : list string,
    Single.compare_snapshots (Sample.serving None Sample.evening)
      (VDict (Sample.entries (Sample.snapshot "v4" Sample.morning)))
      (VDict (Sample.entries (Sample.snapshot "v2" Sample.evening)))
    = Ok (Some ("Number of forms changed: 0 -> 1" :: rest))
    /\ List.length rest <= 3.
Proof.
  apply (form_count_note_first (Sample.serving None Sample.evening)
           (Sample.entries (Sample.snapshot "v4" Sample.morning))
           (Sample.entries (Sample.snapshot "v2" Sample.evening))).
  - intros s. apply Permutation_refl.
  - vm_compute. discriminate.
  - vm_compute. reflexivity.
  - vm_compute. reflexivity.
  - vm_compute. discriminate.
  - vm_compute. discriminate.
Defined.

Lemma not_incl_by (x : string) (a b : list string) :
  in_str x a = true -> in_str x b = false -> ~ incl a b.
Proof.
  intros Ha Hb Hincl. apply in_str_iff in Ha. apply Hincl in Ha.
  apply in_str_iff in Ha. congruence.
Qed.

(** X5.  When the stored snapshot and the fetched page differ in the number
    of forms, in activity texts both ways and in a status text of the page,
    the comparison returns four notes and [main] sends a message that shows
    the first three: the note on status changes is not in it. *)
Theorem message_shows_three_notes (rt : runtime) (w : world) (html : string)
    (od : list (string * pyval)) :
  set_order_sound rt ->
  html <> "" ->
  http_get rt Single.TARGET_URL = Some html ->
  previous Single.SNAPSHOT_FILE w = VDict od ->
  od <> [] ->
  snapshot_shaped (VDict od) = true ->
  let new := Single.extract_form_data rt html in
  dict_hash od <> dict_hash (entries_of new) ->
  form_count (VDict od) <> form_count new ->
  ~ incl (field_texts "activities" new) (field_texts "activities" (VDict od)) ->
  ~ incl (field_texts "activities" (VDict od)) (field_texts "activities" new) ->
  ~ incl (field_texts "status_elements" new) (field_texts "status_elements" (VDict od)) ->
  exists forms added removed status : string,
    Single.compare_snapshots rt (VDict od) new = Ok (Some [forms; added; removed; status])
    /\ lists_examples rt "Status changes: " 2
         (field_texts "status_elements" new) (field_texts "status_elements" (VDict od))
         [status]
    /\ notified (snd (Single.main rt w))
       = (notified w ++ [message_text [forms; added; removed]])%list.
Proof.
  intros Hsound Hne Hget Hprev Hod Hold new Hhash Hcount Hadd Hrem Hsta.
  assert (Hnew : snapshot_shaped new = true) by apply single_extract_shaped.
  assert (Hdict : new = VDict (entries_of new)).
  { unfold new. rewrite single_extract_eq. reflexivity. }
  rewrite Hdict in Hnew, Hcount, Hadd, Hrem, Hsta.
  pose proof (single_main_notifies rt w html) as Hmain. rewrite Hprev in Hmain.
  fold new in Hmain.
  destruct (single_compare_examples rt od (entries_of new) Hsound Hod Hold Hnew Hhash)
    as (added & removed & status & Hcmp & (La & Lr & Ls) & Na & Nr & Ns & _ & _ & Hstatus).
  rewrite texts_minus_nil_iff in Na, Nr, Ns.
  destruct added as [| a added']; [elim Hadd; now apply Na |].
  destruct removed as [| r removed']; [elim Hrem; now apply Nr |].
  destruct status as [| s status']; [elim Hsta; now apply Ns |].
  destruct added' as [| ? ?]; [| simpl in La; lia].
  destruct removed' as [| ? ?]; [| simpl in Lr; lia].
  destruct status' as [| ? ?]; [| simpl in Ls; lia].
  unfold form_note in Hcmp. apply Nat.eqb_neq in Hcount. rewrite Hcount in Hcmp.
  cbn [negb app] in Hcmp.
  rewrite <- Hdict in Hcmp, Hstatus.
  eexists _, a, r, s.
  split; [exact Hcmp |]. split; [apply Hstatus; now left |].
  assert (Hdec : loadable Single.SNAPSHOT_FILE w = true).
  { apply truthy_previous_loadable. rewrite Hprev.
    destruct od; [congruence | reflexivity]. }
  now rewrite (Hmain _ _ Hget Hne Hdec Hcmp).
Qed.

Lemma message_shows_three_notes_witness :
  exists forms added removed status : string,
    Single.compare_snapshots (Sample2.serving (Some "v5") Sample.evening)
      (VDict (Sample.entries (Sample.snapshot "v4" Sample.morning)))
      (Single.extract_form_data (Sample2.serving (Some "v5") Sample.evening) "v5")
    = Ok (Some [forms; added; removed; status])
    /\ lists_examples (Sample2.serving (Some "v5") Sample.evening) "Status changes: " 2
         (field_texts "status_elements"
            (Single.extract_form_data (Sample2.serving (Some "v5") Sample.evening) "v5"))
         (field_texts "status_elements"
            (VDict (Sample.entries (Sample.snapshot "v4" Sample.morning))))
         [status]
    /\ notified (snd (Single.main (Sample2.serving (Some "v5") Sample.evening)
                        (Sample.world_with (Sample.snapshot "v4" Sample.morning))))
       = (notified (Sample.world_with (Sample.snapshot "v4" Sample.morning))
            ++ [message_text [forms; added; removed]])%list.
Proof.
  apply (message_shows_three_notes (Sample2.serving (Some "v5") Sample.evening)
           (Sample.world_with (Sample.snapshot "v4" Sample.morning)) "v5"
           (Sample.entries (Sample.snapshot "v4" Sample.morning))).
  - intros s. apply Permutation_refl.
  - discriminate.
  - reflexivity.
  - reflexivity.
  - vm_compute. discriminate.
  - vm_compute. reflexivity.
  - vm_compute. discriminate.
  - vm_compute. discriminate.
  - apply (not_incl_by "Library Open House"); vm_compute; reflexivity.
  - apply (not_incl_by "Campus Tour - Register Now"); vm_compute; reflexivity.
  - apply (not_incl_by "Sold Out"); vm_compute; reflexivity.
Defined.

(* ------------------------------------------------------------------ *)
(** ** When the multi-page script alerts *)

Lemma contains_after_form_prefix (page_name : string) :
  contains "details unclear" ("Form changes detected for " ++ page_name)
  = contains "details unclear" page_name.
Proof. reflexivity. Qed.

Lemma contains_after_activity_prefix (page_name : string) :
  contains "details unclear" ("Activity changes detected for " ++ page_name)
  = contains "details unclear" page_name.
Proof. reflexivity. Qed.

Lemma contains_after_status_prefix (page_name : string) :
  contains "details unclear" ("Status changes detected for " ++ page_name)
  = contains "details unclear" page_name.
Proof. reflexivity. Qed.

Lemma multi_notes_decision (od nd : list (string * pyval)) (page_name : string) :
  List.length (multi_notes od nd page_name) = fields_differing od nd
  /\ (fields_differing od nd = 1 ->
      Multi.only_details_unclear (multi_notes od nd page_name)
      = contains "details unclear" page_name)
  /\ (fields_differing od nd <> 1 ->
      Multi.only_details_unclear (multi_notes od nd page_name) = false).
Proof.
  unfold multi_notes, fields_differing, list_append, Multi.only_details_unclear.
  destruct (py_eqb (dict_get_default "forms" (VDict []) od)
                   (dict_get_default "forms" (VDict []) nd));
    destruct (py_eqb (dict_get_default "activities" (VList []) od)
                     (dict_get_default "activities" (VList []) nd));
    destruct (py_eqb (dict_get_default "status_elements" (VList []) od)
                     (dict_get_default "status_elements" (VList []) nd));
    cbn [negb app List.length Nat.add Nat.eqb andb nth];
    repeat split; intros; try reflexivity; try lia; try congruence.
Qed.

Lemma multi_alert_run (rt : runtime) (od nd : list (string * pyval))
    (page_name : string) (w : world) :
  od <> [] ->
  exists message : string,
    Multi.compare_snapshots rt (VDict od) (VDict nd) page_name w
    = if multi_alerts od nd page_name
      then (Ok true, extend (multi_delivery rt message) w)
      else (Ok false, w).
Proof.
  intros Hne.
  exists (multi_message rt (multi_notes od nd page_name) nd page_name).
  rewrite (multi_compare_dicts rt od nd page_name w Hne). unfold multi_alerts.
  destruct (String.eqb (dict_hash od) (dict_hash nd)); cbn [negb andb]; [reflexivity |].
  destruct (multi_notes_decision od nd page_name) as (Hlen & Hone & Hmore).
  destruct (multi_notes od nd page_name) as [| c cs] eqn:Hnotes.
  - simpl in Hlen. rewrite <- Hlen. reflexivity.
  - cbv zeta. rewrite <- Hnotes in *.
    destruct (Nat.eqb_spec (fields_differing od nd) 1) as [H1 | H1].
    + rewrite (Hone H1), H1. cbn [Nat.ltb Nat.leb andb].
      destruct (contains "details unclear" page_name); reflexivity.
    + rewrite (Hmore H1). cbn [andb negb].
      replace (0 <? fields_differing od nd)%nat with true; [reflexivity |].
      symmetry. apply Nat.ltb_lt. rewrite <- Hlen, Hnotes. simpl. lia.
Qed.

(** X6.  For a previous snapshot that is a dict with entries, the multi-page
    comparison returns [True], having called [send_notification] once, when
    the hashes differ and at least one of [forms], [activities] and
    [status_elements] differs, unless exactly one of them differs and the name
    of the page contains the words [details unclear]; in every other case it
    returns [False] and does nothing. *)
Theorem multi_alert_decision (rt : runtime) (od nd : list (string * pyval))
    (page_name : string) (w : world) :
  od <> [] ->
  exists message : string,
    Multi.compare_snapshots rt (VDict od) (VDict nd) page_name w
    = if multi_alerts od nd page_name
      then (Ok true, extend (multi_delivery rt message) w)
      else (Ok false, w).
Proof. exact (multi_alert_run rt od nd page_name w). Qed.

(** A change of the forms alone, on a page named with the words of the
    guard, is held back. *)
Example page_name_trips_the_guard :
  Multi.compare_snapshots (Sample.serving None Sample.evening)
    (Sample2.multi_snapshot Sample.visit "v4" Sample.morning)
    (py_setitem (Sample2.multi_snapshot Sample.visit "v4" Sample.evening)
       "forms" (VDict [("form_0", VNone)]))
    "visit (details unclear)" Sample.empty_world
  = (Ok false, Sample.empty_world)
  /\ fst (Multi.compare_snapshots (Sample.serving None Sample.evening)
            (Sample2.multi_snapshot Sample.visit "v4" Sample.morning)
            (py_setitem (Sample2.multi_snapshot Sample.visit "v4" Sample.evening)
               "forms" (VDict [("form_0", VNone)]))
            "visit" Sample.empty_world)
     = Ok true.
Proof. split; vm_compute; reflexivity. Qed.

Lemma multi_alert_decision_witness :
  exists message : string,
    Multi.compare_snapshots (Sample.serving None Sample.evening)
      (VDict (Sample.entries (Sample2.multi_snapshot Sample.visit "v1" Sample.morning)))
      (VDict (Sample.entries (Sample2.multi_snapshot Sample.visit "v2" Sample.evening)))
      "visit" Sample.empty_world
    = if multi_alerts
           (Sample.entries (Sample2.multi_snapshot Sample.visit "v1" Sample.morning))
           (Sample.entries (Sample2.multi_snapshot Sample.visit "v2" Sample.evening))
           "visit"
      then (Ok true,
            extend (multi_delivery (Sample.serving None Sample.evening) message)
              Sample.empty_world)
      else (Ok false, Sample.empty_world).
Proof.
  apply (multi_alert_decision (Sample.serving None Sample.evening)
           (Sample.entries (Sample2.multi_snapshot Sample.visit "v1" Sample.morning))
           (Sample.entries (Sample2.multi_snapshot Sample.visit "v2" Sample.evening))
           "visit" Sample.empty_world).
  vm_compute. discriminate.
Defined.

(* ------------------------------------------------------------------ *)
(** ** What the snapshot file holds *)




Lemma foreign_hash_raises (v : pyval) :
  foreign v = true ->
  truthy v = true /\ Single.calculate_content_hash v = Raise (hash_error v)
  /\ Multi.calculate_content_hash v = Raise (hash_error v).
Proof.
  unfold foreign. intros H. apply andb_true_iff in H. destruct H as [Ht Hd].
  split; [exact Ht |]. destruct v; try discriminate Hd; split; reflexivity.
Qed.

Lemma foreign_snapshot_run (rt : runtime) (page : page_config) (w : world)
    (html : string) :
  html <> "" ->
  (http_get rt Single.TARGET_URL = Some html ->
   foreign (previous Single.SNAPSHOT_FILE w) = true ->
   Single.main rt w
   = (Raise (hash_error (previous Single.SNAPSHOT_FILE w)),
      extend [EvFetch Single.TARGET_URL; EvSaveContent Single.CONTENT_FILE html] w))
  /\ (http_get rt (url page) = Some html ->
      foreign (previous (Multi.get_snapshot_filename (name page)) w) = true ->
      Multi.monitor_page rt page w
      = (Raise (hash_error (previous (Multi.get_snapshot_filename (name page)) w)),
         extend [EvFetch (url page);
                 EvSaveContent (Multi.get_content_filename (name page)) html] w)).
Proof.
  intros Hne. split; intros Hget Hforeign;
    destruct (foreign_hash_raises _ Hforeign) as (Htruthy & Hsingle & Hmulti).
  - rewrite (single_main_run rt w html Hget Hne
               (truthy_previous_loadable _ _ Htruthy)). cbv zeta.
    unfold Single.compare_snapshots. rewrite Htruthy, Hsingle. reflexivity.
  - rewrite (multi_monitor_page_run rt page w html Hget Hne
               (truthy_previous_loadable _ _ Htruthy)). cbv zeta.
    unfold Multi.compare_snapshots. rewrite Htruthy. cbn [negb].
    unfold bind at 1. unfold lift at 1. rewrite Hmulti. reflexivity.
Qed.

(** X8.  A snapshot file that holds a JSON document which is not an object
    (a non-empty list or string, a number other than 0, [true]) makes the run
    of its page raise, after the page has been fetched and its HTML saved and
    before anything is compared, sent or written: the snapshot file stays as
    it is, so every later run of the page raises again.  In both scripts. *)
Theorem foreign_snapshot_blocks_page (rt : runtime) (page : page_config) (w : world)
    (html : string) :
  html <> "" ->
  (http_get rt Single.TARGET_URL = Some html ->
   foreign (previous Single.SNAPSHOT_FILE w) = true ->
   Single.main rt w
   = (Raise (hash_error (previous Single.SNAPSHOT_FILE w)),
      extend [EvFetch Single.TARGET_URL; EvSaveContent Single.CONTENT_FILE html] w))
  /\ (http_get rt (url page) = Some html ->
      foreign (previous (Multi.get_snapshot_filename (name page)) w) = true ->
      Multi.monitor_page rt page w
      = (Raise (hash_error (previous (Multi.get_snapshot_filename (name page)) w)),
         extend [EvFetch (url page);
                 EvSaveContent (Multi.get_content_filename (name page)) html] w)).
Proof. exact (foreign_snapshot_run rt page w html). Qed.

Lemma foreign_snapshot_blocks_page_witness :
  Single.main (Sample.serving (Some "v1") Sample.morning)
    (Sample.world_with (VList [VInt 1]))
  = (Raise TypeError,
     extend [EvFetch Single.TARGET_URL; EvSaveContent Single.CONTENT_FILE "v1"]
       (Sample.world_with (VList [VInt 1]))).
Proof.
  apply (foreign_snapshot_blocks_page (Sample.serving (Some "v1") Sample.morning)
           Sample.visit (Sample.world_with (VList [VInt 1])) "v1").
  - discriminate.
  - reflexivity.
  - reflexivity.
Defined.

(* ------------------------------------------------------------------ *)
(** ** One snapshot file per page name *)

Lemma append_inj_l (s a b : string) : s ++ a = s ++ b -> a = b.
Proof.
  induction s as [| c s IH]; simpl; intros H; [exact H |].
  injection H as H. now apply IH.
Qed.







(* ------------------------------------------------------------------ *)
(** ** The whole multi-page run *)

Lemma monitor_all_count (rt : runtime) (pages : list page_config) :
  forall (count : nat) (w : world) (count' : nat) (w' : world),
    Multi.monitor_all rt pages count w = (Ok count', w') ->
    count <= count' <= count + List.length pages.
Proof.
  induction pages as [| page rest IH]; intros count w count' w' Hrun.
  - injection Hrun as <- <-. simpl. lia.
  - simpl in Hrun. unfold bind at 1 in Hrun. unfold try_except in Hrun.
    destruct (Multi.monitor_page rt page w) as [[b | e] w1].
    + apply IH in Hrun. destruct b; simpl; lia.
    + unfold ret in Hrun. apply IH in Hrun. simpl. lia.
Qed.

(** X10.  [main] of the multi-page script always ends normally.  Without a
    configured page it does nothing, not even in test mode; in test mode it
    sends the test message and fetches nothing; otherwise it fetches every
    configured page once, in order, and the number of pages it counts as
    monitored is at most the number of pages. *)
Theorem multi_main_always_completes (rt : runtime) (w : world) :
  exists w' : world,
    Multi.main rt w = (Ok tt, w')
    /\ (target_urls rt = [] -> w' = w)
    /\ (target_urls rt <> [] -> test_email rt = true ->
        w' = extend (multi_delivery rt test_message) w)
    /\ (test_email rt = false ->
        fetched w' = (fetched w ++ map url (target_urls rt))%list
        /\ exists count : nat,
             Multi.monitor_all rt (target_urls rt) 0 w = (Ok count, w')
             /\ count <= List.length (target_urls rt)).
Proof.
  unfold Multi.main.
  destruct (target_urls rt) as [| page rest] eqn:Hpages.
  - exists w. split; [reflexivity |]. split; [reflexivity |]. split; [congruence |].
    intros _. split; [simpl; now rewrite app_nil_r |].
    exists 0. split; [reflexivity | simpl; lia].
  - destruct (test_email rt) eqn:Htest.
    + fold test_message. rewrite multi_send_notification_run.
      eexists. split; [reflexivity |]. split; [discriminate |].
      split; [reflexivity | discriminate].
    + destruct (multi_monitor_all_fetches rt (page :: rest) 0 w)
        as (count & w' & Hrun & Hfetched).
      exists w'. unfold bind. rewrite Hrun. split; [reflexivity |].
      split; [discriminate |]. split; [discriminate |].
      intros _. split; [exact Hfetched |].
      exists count. split; [reflexivity |].
      apply monitor_all_count in Hrun. lia.
Qed.

(* ------------------------------------------------------------------ *)
(** ** The forms of a page *)

Lemma nat_of_str_of_nat (n : nat) : nat_of_str (str_of_nat n) = Some n.
Proof.
  unfold nat_of_str, str_of_nat.
  pose proof (DecimalNat.Unsigned.of_to n) as Hn.
  destruct (Nat.to_uint n) as [| d | d | d | d | d | d | d | d | d | d] eqn:Hd;
    try (rewrite NilZero.usu by discriminate; simpl; now rewrite <- Hn).
  rewrite NilZero.usu_nil. simpl. now rewrite <- Hn.
Qed.

Lemma str_of_nat_inj (m n : nat) : str_of_nat m = str_of_nat n -> m = n.
Proof.
  intros H. apply (f_equal nat_of_str) in H.
  rewrite !nat_of_str_of_nat in H. congruence.
Qed.

Lemma form_key_inj (m n : nat) :
  "form_" ++ str_of_nat m = "form_" ++ str_of_nat n -> m = n.
Proof.
  intros H. apply str_of_nat_inj. exact (append_inj_l "form_" _ _ H).
Qed.

Lemma dict_set_fresh (k : string) (v : pyval) (d : list (string * pyval)) :
  dict_get k d = None -> dict_set k v d = (d ++ [(k, v)])%list.
Proof.
  induction d as [| [k' v'] d IH]; simpl; [reflexivity |].
  destruct (String.eqb k k'); [discriminate |]. intros H. now rewrite IH.
Qed.

Lemma dict_get_app_fresh (k k' : string) (v : pyval) (d : list (string * pyval)) :
  k <> k' -> dict_get k d = None -> dict_get k (d ++ [(k', v)])%list = None.
Proof.
  intros Hne. induction d as [| [k0 v0] d IH]; simpl.
  - apply String.eqb_neq in Hne. now rewrite Hne.
  - destruct (String.eqb k k0); [discriminate | exact IH].
Qed.

Lemma keyed_forms_fold (forms : list Bs4.node) :
  forall (start : nat) (acc : list (string * pyval)),
    (forall j, start <= j -> dict_get ("form_" ++ str_of_nat j) acc = None) ->
    fold_left (fun fd '(i, form) =>
                 dict_set ("form_" ++ str_of_nat i) (Single.form_entry form) fd)
              (combine (seq start (List.length forms)) forms) acc
    = (acc ++ map keyed_form (combine (seq start (List.length forms)) forms))%list.
Proof.
  induction forms as [| form rest IH]; intros start acc Hfresh.
  - simpl. now rewrite app_nil_r.
  - simpl. rewrite dict_set_fresh by (apply Hfresh; lia).
    rewrite IH.
    + rewrite <- app_assoc. reflexivity.
    + intros j Hj. apply dict_get_app_fresh; [| apply Hfresh; lia].
      intros Heq. apply (form_key_inj j start) in Heq. lia.
Qed.

Lemma length_enumerate {A : Type} (l : list A) : List.length (enumerate l) = List.length l.
Proof. unfold enumerate. rewrite length_combine, length_seq. apply Nat.min_id. Qed.

Lemma keyed_form_lookup (forms : list Bs4.node) :
  forall (start i : nat) (form : Bs4.node),
    nth_error forms i = Some form ->
    dict_get ("form_" ++ str_of_nat (start + i))
             (map keyed_form (combine (seq start (List.length forms)) forms))
    = Some (Single.form_entry form).
Proof.
  induction forms as [| f rest IH]; intros start i form Hnth.
  - destruct i; discriminate Hnth.
  - destruct i as [| i].
    + injection Hnth as ->.
      cbn [List.length seq combine map keyed_form fst snd dict_get].
      rewrite Nat.add_0_r. now rewrite String.eqb_refl.
    + simpl in Hnth.
      cbn [List.length seq combine map keyed_form fst snd dict_get].
      destruct (String.eqb ("form_" ++ str_of_nat (start + S i))
                           ("form_" ++ str_of_nat start)) eqn:Heq.
      * apply String.eqb_eq in Heq. apply (form_key_inj (start + S i) start) in Heq. lia.
      * replace (start + S i) with (S start + i) by lia. now apply IH.
Qed.

Lemma content_forms (soup : Bs4.node) (tail : list (string * pyval)) :
  dict_get_default "forms" (VDict []) (content_of soup ++ tail)%list
  = VDict (map keyed_form (enumerate (Bs4.find_all ["form"] soup))).
Proof.
  transitivity
    (VDict (fold_left (fun fd '(i, form) =>
                         dict_set ("form_" ++ str_of_nat i) (Single.form_entry form) fd)
                      (enumerate (Bs4.find_all ["form"] soup)) [])).
  - reflexivity.
  - f_equal. unfold enumerate.
    now rewrite (keyed_forms_fold (Bs4.find_all ["form"] soup) 0 []).
Qed.

(** X11.  The snapshot records one entry per [form] element of the page, in
    document order, under the keys [form_0], [form_1], ...: the form at
    position [i] is found under [form_i], and the number of forms a snapshot
    records is the number of [form] elements. *)
Theorem forms_are_keyed_by_position (rt : runtime) (html : string) :
  let forms := Bs4.find_all ["form"] (Bs4.BeautifulSoup (html_parser rt) html) in
  py_get (Single.extract_form_data rt html) "forms" (VDict [])
    = Ok (VDict (map keyed_form (enumerate forms)))
  /\ form_count (Single.extract_form_data rt html) = List.length forms
  /\ (forall i form, nth_error forms i = Some form ->
        dict_get ("form_" ++ str_of_nat i) (map keyed_form (enumerate forms))
        = Some (Single.form_entry form)).
Proof.
  intros forms.
  assert (Hfold : py_get (Single.extract_form_data rt html) "forms" (VDict [])
                  = Ok (VDict (map keyed_form (enumerate forms)))).
  { rewrite single_extract_eq. unfold py_get. f_equal. apply content_forms. }
  split; [exact Hfold |]. split.
  - rewrite single_extract_eq. unfold form_count. rewrite content_forms.
    now rewrite length_map, length_enumerate.
  - intros i form Hnth. unfold enumerate.
    exact (keyed_form_lookup forms 0 i form Hnth).
Qed.

(* ------------------------------------------------------------------ *)
(** ** A document without elements *)

Lemma descendants_text_only (name : string) (attrs : list (string * Bs4.attr))
    (texts : list string) :
  Bs4.descendants (Bs4.Tag name attrs (map Bs4.Text texts)) = map Bs4.Text texts.
Proof.
  simpl. induction texts as [| t rest IH]; simpl; [reflexivity | now rewrite IH].
Qed.

Lemma filter_none {A : Type} (f : A -> bool) (l : list A) :
  (forall x, In x l -> f x = false) -> filter f l = [].
Proof.
  induction l as [| x l IH]; intros H; simpl; [reflexivity |].
  rewrite (H x (or_introl eq_refl)). apply IH. intros y Hy. apply H. now right.
Qed.

Lemma find_all_text_only (names : list string) (name : string)
    (attrs : list (string * Bs4.attr)) (texts : list string) :
  Bs4.find_all names (Bs4.Tag name attrs (map Bs4.Text texts)) = [].
Proof.
  unfold Bs4.find_all. rewrite descendants_text_only.
  apply filter_none. intros x Hx. apply in_map_iff in Hx.
  destruct Hx as (t & <- & _). reflexivity.
Qed.

Lemma select_text_only (selector : string) (name : string)
    (attrs : list (string * Bs4.attr)) (texts : list string) :
  Bs4.select selector (Bs4.Tag name attrs (map Bs4.Text texts)) = [].
Proof.
  unfold Bs4.select. destruct (Bs4.compile selector) as [c |]; [| reflexivity].
  rewrite descendants_text_only.
  apply filter_none. intros x Hx. apply in_map_iff in Hx.
  destruct Hx as (t & <- & _). reflexivity.
Qed.

Lemma all_strings_text_only (name : string) (attrs : list (string * Bs4.attr))
    (texts : list string) :
  Bs4.all_strings (Bs4.Tag name attrs (map Bs4.Text texts))
  = map (fun t => {| Bs4.ns_text := t;
                     Bs4.ns_parent := Some (Bs4.Tag name attrs (map Bs4.Text texts)) |})
        texts.
Proof.
  unfold Bs4.all_strings.
  generalize (Bs4.Tag name attrs (map Bs4.Text texts)) as root. intros root.
  induction texts as [| t rest IH]; simpl; [reflexivity | now rewrite IH].
Qed.

Lemma flat_map_nil {A B : Type} (f : A -> list B) (l : list A) :
  (forall x, f x = []) -> flat_map f l = [].
Proof.
  intros H. induction l as [| x l IH]; simpl; [reflexivity |]. now rewrite H, IH.
Qed.

Lemma status_text_only (keyword : string) (attrs : list (string * Bs4.attr))
    (children : list Bs4.node) (texts : list string) :
  attrs = [] ->
  flat_map (Single.status_entry keyword)
           (filter (fun e => Single.mentions keyword (Bs4.ns_text e))
                   (map (fun t => {| Bs4.ns_text := t;
                                     Bs4.ns_parent :=
                                       Some (Bs4.Tag "[document]" attrs children) |})
                        texts))
  = map (top_level_status keyword) (filter (Single.mentions keyword) texts).
Proof.
  intros ->. induction texts as [| t rest IH]; simpl; [reflexivity |].
  destruct (Single.mentions keyword t); simpl; now rewrite IH.
Qed.

(** X12.  For a document that holds no element, only strings: the snapshot
    has no form and no activity, its [page_title] is the empty string, and it
    has one status entry for every keyword and every string that mentions
    the keyword, with [[document]] as [parent_tag] and no class. *)
Theorem document_without_elements (rt : runtime) (html : string) (texts : list string) :
  html_parser rt html = map Bs4.Text texts ->
  Single.extract_form_data rt html
  = VDict [("forms", VDict []);
           ("activities", VList []);
           ("status_elements",
            VList (flat_map (fun keyword =>
                               map (top_level_status keyword)
                                   (filter (Single.mentions keyword) texts))
                            Single.status_keywords));
           ("page_title", VStr "");
           ("timestamp", VStr (now_iso rt))].
Proof.
  intros Hparse. rewrite single_extract_eq.
  unfold Bs4.BeautifulSoup. rewrite Hparse. unfold content_of.
  unfold Bs4.title. rewrite !find_all_text_only.
  rewrite all_strings_text_only.
  rewrite (flat_map_nil
             (fun selector =>
                flat_map (Single.activity_entry selector)
                         (Bs4.select selector (Bs4.Tag "[document]" [] (map Bs4.Text texts))))).
  2: { intros selector. now rewrite select_text_only. }
  cbn [enumerate List.length seq combine fold_left hd_error app].
  do 3 f_equal. f_equal. f_equal. f_equal.
  apply flat_map_ext. intros keyword. now apply status_text_only.
Qed.

Lemma document_without_elements_witness :
  Single.extract_form_data (Sample2.serving None Sample.morning) "empty"
  = VDict [("forms", VDict []); ("activities", VList []); ("status_elements", VList []);
           ("page_title", VStr ""); ("timestamp", VStr Sample.morning)].
Proof.
  apply (document_without_elements (Sample2.serving None Sample.morning) "empty" []).
  reflexivity.
Defined.

(* ------------------------------------------------------------------ *)
(** ** The configured pages *)

Section NumberedUrls.

Variable vars : list (string * string).

Lemma getenv_in (key value : string) :
  MultiEnv.getenv vars key = Some value -> In key (map fst vars).
Proof.
  induction vars as [| [k v] rest IH]; simpl; [discriminate |].
  destruct (String.eqb_spec key k) as [-> | _]; [now left |].
  intros H. right. now apply IH.
Qed.

(** Every round that adds a page has found its variable. *)
Lemma numbered_urls_keys (fuel : nat) :
  forall i j,
    j < List.length (MultiEnv.numbered_urls vars fuel i) ->
    In ("TARGET_URL_" ++ str_of_nat (i + j)) (map fst vars).
Proof.
  induction fuel as [| fuel IH]; intros i j Hj; [simpl in Hj; lia |].
  cbn [MultiEnv.numbered_urls] in Hj.
  destruct (MultiEnv.getenv vars ("TARGET_URL_" ++ str_of_nat i)) as [[| c u] |] eqn:Hget;
    cbn [List.length] in Hj; try lia.
  destruct j as [| j].
  - rewrite Nat.add_0_r. eapply getenv_in; eassumption.
  - replace (i + S j) with (S i + j) by lia. apply IH. lia.
Qed.

Lemma url_key_inj (m n : nat) :
  "TARGET_URL_" ++ str_of_nat m = "TARGET_URL_" ++ str_of_nat n -> m = n.
Proof.
  intros H. apply str_of_nat_inj. exact (append_inj_l "TARGET_URL_" _ _ H).
Qed.

Lemma numbered_urls_bounded (fuel i : nat) :
  List.length (MultiEnv.numbered_urls vars fuel i) <= List.length vars.
Proof.
  set (n := List.length (MultiEnv.numbered_urls vars fuel i)).
  assert (Hincl : incl (map (fun j => "TARGET_URL_" ++ str_of_nat (i + j)) (seq 0 n))
                       (map fst vars)).
  { intros key Hkey. apply in_map_iff in Hkey. destruct Hkey as (j & <- & Hj).
    apply in_seq in Hj. apply numbered_urls_keys with (fuel := fuel). fold n. lia. }
  assert (Hnodup : NoDup (map (fun j => "TARGET_URL_" ++ str_of_nat (i + j)) (seq 0 n))).
  { apply Finite.Injective_map_NoDup; [| apply seq_NoDup].
    intros a b Hab. apply url_key_inj in Hab. lia. }
  pose proof (NoDup_incl_length Hnodup Hincl) as Hlen.
  rewrite !length_map, length_seq in Hlen. exact Hlen.
Qed.

(** A loop that ended before its fuel did gives the same with more fuel. *)
Lemma numbered_urls_stable (fuel : nat) :
  forall i fuel',
    List.length (MultiEnv.numbered_urls vars fuel i) < fuel ->
    fuel <= fuel' ->
    MultiEnv.numbered_urls vars fuel' i = MultiEnv.numbered_urls vars fuel i.
Proof.
  induction fuel as [| fuel IH]; intros i fuel' Hlen Hle; [lia |].
  destruct fuel' as [| fuel']; [lia |].
  cbn [MultiEnv.numbered_urls] in *.
  destruct (MultiEnv.getenv vars ("TARGET_URL_" ++ str_of_nat i)) as [[| c u] |];
    try reflexivity.
  cbn [List.length] in Hlen. f_equal. apply IH; lia.
Qed.

(** The fuel [get_target_urls] gives the loop is enough. *)
Lemma numbered_urls_enough (fuel i : nat) :
  S (List.length vars) <= fuel ->
  MultiEnv.numbered_urls vars fuel i
  = MultiEnv.numbered_urls vars (S (List.length vars)) i.
Proof.
  intros Hle. apply numbered_urls_stable; [| exact Hle].
  pose proof (numbered_urls_bounded (S (List.length vars)) i). lia.
Qed.

(** With the first [count] numbered URLs set and the next one missing or
    empty, the loop returns these [count] pages, whatever else is set. *)
Lemma numbered_urls_prefix (count : nat) :
  forall (fuel i : nat) (pages : list (string * string)),
    count < fuel ->
    List.length pages = count ->
    (forall j name url, nth_error pages j = Some (name, url) ->
        MultiEnv.getenv vars ("TARGET_URL_" ++ str_of_nat (i + j)) = Some url
        /\ url <> ""
        /\ MultiEnv.getenv_default vars ("TARGET_NAME_" ++ str_of_nat (i + j))
             ("page_" ++ str_of_nat (i + j)) = name) ->
    (MultiEnv.getenv vars ("TARGET_URL_" ++ str_of_nat (i + count)) = None
     \/ MultiEnv.getenv vars ("TARGET_URL_" ++ str_of_nat (i + count)) = Some "") ->
    MultiEnv.numbered_urls vars fuel i
    = map (fun p => MultiEnv.page_entry (fst p) (snd p)) pages.
Proof.
  induction count as [| count IH]; intros fuel i pages Hfuel Hlen Hpages Hstop.
  - destruct pages; [| discriminate]. rewrite Nat.add_0_r in Hstop.
    destruct fuel as [| fuel]; [lia |]. cbn [MultiEnv.numbered_urls].
    destruct Hstop as [-> | ->]; reflexivity.
  - destruct pages as [| [name url] rest]; [discriminate |].
    destruct fuel as [| fuel]; [lia |]. cbn [MultiEnv.numbered_urls map fst snd].
    destruct (Hpages 0 name url eq_refl) as (Hurl & Hne & Hname).
    rewrite Nat.add_0_r in Hurl, Hname. rewrite Hurl, Hname.
    destruct url as [| c u]; [congruence |].
    f_equal. apply IH.
    + lia.
    + simpl in Hlen. lia.
    + intros j n u' Hnth. replace (S i + j) with (i + S j) by lia.
      now apply Hpages.
    + replace (S i + count) with (i + S count) by lia. exact Hstop.
Qed.

End NumberedUrls.

Lemma numbered_urls_entries (vars : list (string * string)) (fuel : nat) :
  forall i, exists pages : list page_config,
    MultiEnv.numbered_urls vars fuel i = map entry_of pages.
Proof.
  induction fuel as [| fuel IH]; intros i; [now exists [] |].
  cbn [MultiEnv.numbered_urls].
  destruct (MultiEnv.getenv vars ("TARGET_URL_" ++ str_of_nat i)) as [[| c u] |];
    try (now exists []).
  destruct (IH (S i)) as (pages & ->).
  exists ({| name := MultiEnv.getenv_default vars ("TARGET_NAME_" ++ str_of_nat i)
                       ("page_" ++ str_of_nat i);
             url := String c u |} :: pages).
  reflexivity.
Qed.

(** X13.  With [TARGET_URL] unset or empty, and the variables
    [TARGET_URL_1] ... [TARGET_URL_n] set to non-empty values (n at least 1)
    while [TARGET_URL_(n+1)] is unset or empty, [get_target_urls] returns
    these n pages in order, each with the name in [TARGET_NAME_i] or
    [page_i] when that is unset; numbered variables after the gap and
    [urls_config.json] are not looked at. *)
Theorem numbered_urls_stop_at_gap (env : MultiEnv.environment)
    (pages : list (string * string)) :
  (MultiEnv.getenv (MultiEnv.vars env) "TARGET_URL" = None
   \/ MultiEnv.getenv (MultiEnv.vars env) "TARGET_URL" = Some "") ->
  pages <> [] ->
  (forall j name url, nth_error pages j = Some (name, url) ->
      MultiEnv.getenv (MultiEnv.vars env) ("TARGET_URL_" ++ str_of_nat (1 + j)) = Some url
      /\ url <> ""
      /\ MultiEnv.getenv_default (MultiEnv.vars env) ("TARGET_NAME_" ++ str_of_nat (1 + j))
           ("page_" ++ str_of_nat (1 + j)) = name) ->
  (MultiEnv.getenv (MultiEnv.vars env)
     ("TARGET_URL_" ++ str_of_nat (1 + List.length pages)) = None
   \/ MultiEnv.getenv (MultiEnv.vars env)
        ("TARGET_URL_" ++ str_of_nat (1 + List.length pages)) = Some "") ->
  MultiEnv.get_target_urls env
  = Ok (VList (map (fun p => MultiEnv.page_entry (fst p) (snd p)) pages)).
Proof.
  intros Hsingle Hne Hpages Hstop.
  assert (Hshort : MultiEnv.numbered_urls (MultiEnv.vars env) (S (List.length pages)) 1
                   = map (fun p => MultiEnv.page_entry (fst p) (snd p)) pages).
  { apply numbered_urls_prefix with (count := List.length pages); auto. }
  assert (Hbound : List.length pages <= List.length (MultiEnv.vars env)).
  { pose proof (numbered_urls_bounded (MultiEnv.vars env) (S (List.length pages)) 1) as H.
    rewrite Hshort, length_map in H. exact H. }
  assert (Hurls : MultiEnv.numbered_urls (MultiEnv.vars env)
                    (S (List.length (MultiEnv.vars env))) 1
                  = map (fun p => MultiEnv.page_entry (fst p) (snd p)) pages).
  { apply numbered_urls_prefix with (count := List.length pages); auto. lia. }
  unfold MultiEnv.get_target_urls. rewrite Hurls.
  destruct pages as [| p rest]; [congruence |].
  destruct Hsingle as [-> | ->]; reflexivity.
Qed.

Lemma numbered_urls_stop_at_gap_witness :
  MultiEnv.get_target_urls
    {| MultiEnv.vars := [("TARGET_URL_1", "https://example.org/visit");
                         ("TARGET_URL_3", "https://example.org/late");
                         ("TARGET_NAME_1", "visit")];
       MultiEnv.urls_config := Some (Json (VInt 5)) |}
  = Ok (VList [MultiEnv.page_entry "visit" "https://example.org/visit"]).
Proof.
  apply (numbered_urls_stop_at_gap
           {| MultiEnv.vars := [("TARGET_URL_1", "https://example.org/visit");
                                ("TARGET_URL_3", "https://example.org/late");
                                ("TARGET_NAME_1", "visit")];
              MultiEnv.urls_config := Some (Json (VInt 5)) |}
           [("visit", "https://example.org/visit")]).
  - left. reflexivity.
  - discriminate.
  - intros [| j] name url Hnth; [| destruct j; discriminate Hnth].
    injection Hnth as <- <-. repeat split. discriminate.
  - left. reflexivity.
Defined.

(** X14.  When the environment names no page, [get_target_urls] reads
    [urls_config.json].  A file that is missing, or cannot be opened or
    parsed as JSON ([IOError], [json.JSONDecodeError]), gives no page, and
    [main] returns at once.  An object gives what it has under [urls] (no
    page without that key).  A file whose read raises another exception
    ([UnicodeDecodeError] for a file that is no text) makes [get_target_urls]
    raise that exception, and any JSON document other than an object makes it
    raise [AttributeError]; [main] catches neither. *)
Theorem config_file_is_last_resort (env : MultiEnv.environment) (rt : runtime)
    (w : world) :
  (MultiEnv.getenv (MultiEnv.vars env) "TARGET_URL" = None
   \/ MultiEnv.getenv (MultiEnv.vars env) "TARGET_URL" = Some "") ->
  (MultiEnv.getenv (MultiEnv.vars env) "TARGET_URL_1" = None
   \/ MultiEnv.getenv (MultiEnv.vars env) "TARGET_URL_1" = Some "") ->
  match MultiEnv.urls_config env with
  | None | Some Garbled =>
      MultiEnv.get_target_urls env = Ok (VList [])
      /\ MultiEnv.main env rt w = (Ok tt, w)
  | Some (Unloadable e) =>
      MultiEnv.get_target_urls env = Raise e
      /\ MultiEnv.main env rt w = (Raise e, w)
  | Some (Json (VDict config)) =>
      MultiEnv.get_target_urls env = Ok (dict_get_default "urls" (VList []) config)
  | Some (Json _) =>
      MultiEnv.get_target_urls env = Raise AttributeError
      /\ MultiEnv.main env rt w = (Raise AttributeError, w)
  end.
Proof.
  intros Hsingle Hfirst.
  assert (Hurls : MultiEnv.numbered_urls (MultiEnv.vars env)
                    (S (List.length (MultiEnv.vars env))) 1 = []).
  { cbn [MultiEnv.numbered_urls]. change (str_of_nat 1) with "1".
    change ("TARGET_URL_" ++ "1") with "TARGET_URL_1".
    destruct Hfirst as [-> | ->]; reflexivity. }
  assert (Hget : MultiEnv.get_target_urls env
                 = match MultiEnv.urls_config env with
                   | Some (Json config) => py_get config "urls" (VList [])
                   | Some (Unloadable e) => Raise e
                   | _ => Ok (VList [])
                   end).
  { unfold MultiEnv.get_target_urls. rewrite Hurls.
    destruct Hsingle as [-> | ->]; destruct (MultiEnv.urls_config env) as [[e | | c] |];
      reflexivity. }
  unfold MultiEnv.main. rewrite Hget.
  destruct (MultiEnv.urls_config env) as [[e | | config] |];
    [split; reflexivity | split; reflexivity | | split; reflexivity].
  destruct config; first [reflexivity | split; reflexivity].
Qed.

Lemma config_file_is_last_resort_witness :
  MultiEnv.get_target_urls
    {| MultiEnv.vars := [("TEST_EMAIL", "true")];
       MultiEnv.urls_config := Some (Json (VList [VStr "https://example.org/visit"])) |}
  = Raise AttributeError
  /\ MultiEnv.main
       {| MultiEnv.vars := [("TEST_EMAIL", "true")];
          MultiEnv.urls_config := Some (Json (VList [VStr "https://example.org/visit"])) |}
       (Sample.serving None Sample.morning) Sample.empty_world
     = (Raise AttributeError, Sample.empty_world).
Proof.
  apply (config_file_is_last_resort
           {| MultiEnv.vars := [("TEST_EMAIL", "true")];
              MultiEnv.urls_config := Some (Json (VList [VStr "https://example.org/visit"])) |}
           (Sample.serving None Sample.morning) Sample.empty_world).
  - left. reflexivity.
  - left. reflexivity.
Defined.

(* ------------------------------------------------------------------ *)
(** ** Pages that lack a name or a URL *)

(** X15.  A configured page from which [page_config['name']] cannot be read
    (an object without the key [name], or a value that is no object) ends the
    whole run with that exception: [monitor_page] raises at its first line,
    the handler of the loop raises again while it prints the name, and the
    pages after it are never fetched. *)
Theorem nameless_page_aborts_the_run (rt : runtime) (first rest : list pyval)
    (page_config : pyval) (e : exn) (count count' : nat) (w w' : world) :
  py_subscript page_config "name" = Raise e ->
  MultiEnv.monitor_all rt first count w = (Ok count', w') ->
  MultiEnv.monitor_all rt (first ++ page_config :: rest) count w = (Raise e, w').
Proof.
  intros Hname Hfirst. rewrite monitor_all_app, Hfirst.
  cbn [MultiEnv.monitor_all]. unfold bind at 1. unfold try_except.
  rewrite (monitor_page_nameless rt page_config e w' Hname).
  unfold bind, lift. rewrite Hname. reflexivity.
Qed.

Lemma nameless_page_aborts_the_run_witness :
  MultiEnv.monitor_all (Sample.serving (Some "v1") Sample.morning)
    ([] ++ [VDict [("url", VStr "https://example.org/visit")]; entry_of Sample.tours])
    0 Sample.empty_world
  = (Raise KeyError, Sample.empty_world).
Proof.
  apply (nameless_page_aborts_the_run (Sample.serving (Some "v1") Sample.morning)
           [] [entry_of Sample.tours] (VDict [("url", VStr "https://example.org/visit")])
           KeyError 0 0 Sample.empty_world Sample.empty_world).
  - reflexivity.
  - reflexivity.
Defined.

(** X16.  A configured page that has a name but from which
    [page_config['url']] cannot be read is passed over: nothing is fetched or
    written for it, it is not counted, and the loop goes on with the next
    page. *)
Theorem page_without_url_is_skipped (rt : runtime) (rest : list pyval)
    (page_config page_name : pyval) (e : exn) (count : nat) (w : world) :
  py_subscript page_config "name" = Ok page_name ->
  py_subscript page_config "url" = Raise e ->
  MultiEnv.monitor_page rt page_config w = (Raise e, w)
  /\ MultiEnv.monitor_all rt (page_config :: rest) count w
     = MultiEnv.monitor_all rt rest count w.
Proof.
  intros Hname Hurl.
  assert (Hpage : MultiEnv.monitor_page rt page_config w = (Raise e, w)).
  { unfold MultiEnv.monitor_page, bind, lift. rewrite Hname, Hurl. reflexivity. }
  split; [exact Hpage |].
  cbn [MultiEnv.monitor_all]. unfold bind at 1. unfold try_except. rewrite Hpage.
  unfold bind, lift, ret. rewrite Hname. reflexivity.
Qed.

Lemma page_without_url_is_skipped_witness :
  MultiEnv.monitor_all (Sample.serving (Some "v1") Sample.morning)
    [VDict [("name", VStr "visit")]; entry_of Sample.tours] 0 Sample.empty_world
  = MultiEnv.monitor_all (Sample.serving (Some "v1") Sample.morning)
      [entry_of Sample.tours] 0 Sample.empty_world.
Proof.
  apply (page_without_url_is_skipped (Sample.serving (Some "v1") Sample.morning)
           [entry_of Sample.tours] (VDict [("name", VStr "visit")]) (VStr "visit")
           KeyError 0 Sample.empty_world).
  - reflexivity.
  - reflexivity.
Defined.

Lemma get_target_urls_entries (env : MultiEnv.environment) :
  match MultiEnv.urls_config env with
  | None | Some Garbled => True
  | _ => False
  end ->
  exists pages : list page_config,
    MultiEnv.get_target_urls env = Ok (VList (map entry_of pages)).
Proof.
  intros Hconfig. unfold MultiEnv.get_target_urls.
  destruct (MultiEnv.getenv (MultiEnv.vars env) "TARGET_URL") as [[| c u] |].
  - destruct (numbered_urls_entries (MultiEnv.vars env)
                (S (List.length (MultiEnv.vars env))) 1) as (pages & ->).
    exists pages.
    destruct (map entry_of pages), (MultiEnv.urls_config env) as [[e | | config] |];
      try reflexivity; contradiction.
  - now exists [{| name := "default"; url := String c u |}].
  - destruct (numbered_urls_entries (MultiEnv.vars env)
                (S (List.length (MultiEnv.vars env))) 1) as (pages & ->).
    exists pages.
    destruct (map entry_of pages), (MultiEnv.urls_config env) as [[e | | config] |];
      try reflexivity; contradiction.
Qed.

(** X17.  When [urls_config.json] is missing, or cannot be opened or parsed
    as JSON ([IOError], [json.JSONDecodeError]), so that the pages can only
    come from the environment, [main] ends normally whatever the environment
    holds, whatever the pages return and whatever the snapshot files hold
    (files that cannot be loaded included: the loop catches their
    exception). *)
Theorem environment_pages_never_abort (env : MultiEnv.environment) (rt : runtime)
    (w : world) :
  match MultiEnv.urls_config env with
  | None | Some Garbled => True
  | _ => False
  end ->
  exists w' : world, MultiEnv.main env rt w = (Ok tt, w').
Proof.
  intros Hconfig.
  destruct (get_target_urls_entries env Hconfig) as (pages & Hget).
  unfold MultiEnv.main. rewrite Hget. unfold bind at 1. unfold lift at 1.
  destruct pages as [| page rest]; [now exists w |].
  cbn [map truthy negb]. unfold bind at 1. unfold lift at 1. cbn [py_len].
  destruct (String.eqb _ "true").
  - rewrite multi_send_notification_run. now eexists.
  - unfold bind at 1. unfold lift at 1. cbn [py_iter]. unfold bind at 1.
    change (entry_of page :: map entry_of rest) with (map entry_of (page :: rest)).
    rewrite monitor_all_entries.
    destruct (multi_monitor_all_fetches rt (page :: rest) 0 w) as (c & w' & -> & _).
    now exists w'.
Qed.

Lemma environment_pages_never_abort_witness :
  exists w' : world,
    MultiEnv.main
      {| MultiEnv.vars := [("TARGET_URL", "https://example.org/visit")];
         MultiEnv.urls_config := None |}
      (Sample.serving (Some "v1") Sample.morning)
      {| files := [(Multi.get_snapshot_filename "default", Unloadable UnicodeDecodeError)]; trace := [] |}
    = (Ok tt, w').
Proof.
  apply (environment_pages_never_abort
           {| MultiEnv.vars := [("TARGET_URL", "https://example.org/visit")];
              MultiEnv.urls_config := None |}
           (Sample.serving (Some "v1") Sample.morning)
           {| files := [(Multi.get_snapshot_filename "default", Unloadable UnicodeDecodeError)];
              trace := [] |}).
  exact I.
Defined.

(* ------------------------------------------------------------------ *)
(** ** The delivery channels of the multi-page script *)

(** X18.  [send_notification] of the multi-page script tries Twilio, then
    the Gmail SMS gateway, then e-mail, and stops at the first channel that
    reports success: a channel is tried only when all before it failed, so at
    most one channel delivers the message.  It never raises. *)
Theorem channels_tried_until_one_succeeds (rt : runtime) (message : string) (w : world) :
  Multi.send_notification rt message w
  = (Ok tt,
     extend (EvNotify message ::
             until_first_success
               [(EvSmsTwilio message, twilio_ok rt message);
                (EvSmsGmail message, gmail_sms_ok rt message);
                (EvEmail "Page Monitor Alert" message,
                 email_ok rt "Page Monitor Alert" message)]) w).
Proof.
  rewrite multi_send_notification_run. unfold multi_delivery, until_first_success.
  destruct (twilio_ok rt message), (gmail_sms_ok rt message),
    (email_ok rt "Page Monitor Alert" message); reflexivity.
Qed.

(* ------------------------------------------------------------------ *)
(** ** One element, several selectors *)

Lemma prefix_self (s : string) : String.prefix s s = true.
Proof. induction s as [| c s IH]; simpl; [reflexivity |]. now destruct (ascii_dec c c). Qed.

Lemma prefix_app (sub s t : string) :
  String.prefix sub s = true -> String.prefix sub (s ++ t) = true.
Proof.
  revert s. induction sub as [| c sub IH]; intros s H; [now destruct (s ++ t) |].
  destruct s as [| d s]; [discriminate |]. simpl in *.
  destruct (ascii_dec c d); [now apply IH | discriminate].
Qed.

Lemma contains_unfold (sub s : string) :
  contains sub s
  = if String.prefix sub s then true
    else match s with
         | EmptyString => false
         | String _ s' => contains sub s'
         end.
Proof. destruct s; reflexivity. Qed.

Lemma contains_app_r (sub s t : string) :
  contains sub s = true -> contains sub (s ++ t) = true.
Proof.
  induction s as [| c s IH]; intros H.
  - rewrite contains_unfold in H. destruct (String.prefix sub "") eqn:Hp; [| discriminate].
    rewrite contains_unfold. now rewrite (prefix_app sub "" t Hp).
  - rewrite contains_unfold in H.
    change (String c s ++ t) with (String c (s ++ t)). rewrite contains_unfold.
    destruct (String.prefix sub (String c s)) eqn:Hp.
    + change (String c (s ++ t)) with (String c s ++ t). now rewrite (prefix_app _ _ t Hp).
    + destruct (String.prefix sub (String c (s ++ t))); [reflexivity | now apply IH].
Qed.

Lemma contains_app_l (sub s t : string) :
  contains sub s = true -> contains sub (t ++ s) = true.
Proof.
  intros H. induction t as [| c t IH]; [exact H |].
  change (String c t ++ s) with (String c (t ++ s)). rewrite contains_unfold.
  destruct (String.prefix sub (String c (t ++ s))); [reflexivity | exact IH].
Qed.

Lemma contains_self (s : string) : contains s s = true.
Proof. rewrite contains_unfold. now rewrite prefix_self. Qed.

Lemma contains_join (cl : string) (l : list string) :
  In cl l -> contains cl (join " " l) = true.
Proof.
  unfold join. induction l as [| x l IH]; intros Hin; [destruct Hin |].
  destruct l as [| y l].
  - destruct Hin as [<- | []]. apply contains_self.
  - change (String.concat " " (x :: y :: l)) with (x ++ " " ++ String.concat " " (y :: l)).
    destruct Hin as [<- | Hin].
    + apply contains_app_r, contains_self.
    + apply contains_app_l, contains_app_l. now apply IH.
Qed.

Lemma append_assoc (a b c : string) : (a ++ b) ++ c = a ++ (b ++ c).
Proof. induction a as [| x a IH]; simpl; [reflexivity | now rewrite IH]. Qed.

Lemma split_ws_aux_contains (t : string) (s : string) :
  forall cur, In t (split_ws_aux cur s) -> contains t (cur ++ s) = true.
Proof.
  induction s as [| c s IH]; intros cur Hin.
  - simpl in Hin. destruct cur as [| d cur]; [destruct Hin |].
    destruct Hin as [<- | []]. apply contains_app_r, contains_self.
  - simpl in Hin. destruct (is_space c).
    + destruct cur as [| d cur].
      * apply (contains_app_l t s (String c "")). exact (IH "" Hin).
      * destruct Hin as [<- | Hin]; [apply contains_app_r, contains_self |].
        apply contains_app_l. apply (contains_app_l t s (String c "")). exact (IH "" Hin).
    + specialize (IH (cur ++ str_of_char c) Hin).
      unfold str_of_char in IH. now rewrite append_assoc in IH.
Qed.

Lemma split_ws_contains (t s : string) : In t (split_ws s) -> contains t s = true.
Proof. intros H. exact (split_ws_aux_contains t s "" H). Qed.

Lemma existsb_eqb_in (x : string) (l : list string) :
  existsb (String.eqb x) l = true -> In x l.
Proof. exact (proj1 (in_str_iff x l)). Qed.

(** A class token is part of the text of the [class] attribute. *)
Lemma class_token_in_attribute (cl : string) (n : Bs4.node) :
  Bs4.matches (Bs4.CssClass cl) n = true ->
  Bs4.matches (Bs4.CssAttrContains None "class" cl) n = true.
Proof.
  destruct n as [t | name attrs children]; [discriminate |].
  cbn [Bs4.matches Bs4.classes_of andb]. intros H. apply existsb_eqb_in in H.
  destruct (Bs4.attr_lookup "class" attrs) as [[s | l] |]; cbn [Bs4.attr_text].
  - now apply split_ws_contains.
  - now apply contains_join.
  - destruct H.
Qed.

Lemma select_in (selector : string) (c : Bs4.css) (root elem : Bs4.node) :
  Bs4.compile selector = Some c ->
  (In elem (Bs4.select selector root)
   <-> In elem (Bs4.descendants root) /\ Bs4.matches c elem = true).
Proof. intros Hc. unfold Bs4.select. rewrite Hc. apply filter_In. Qed.

Lemma activity_entry_long (selector : string) (elem : Bs4.node) :
  5 < String.length (Bs4.get_text_strip elem) ->
  Single.activity_entry selector elem = [activity_of selector elem].
Proof.
  intros Hlen. unfold Single.activity_entry.
  replace (5 <? String.length (Bs4.get_text_strip elem))%nat with true
    by (symmetry; now apply Nat.ltb_lt).
  destruct (Bs4.get_text_strip elem) eqn:Htext; [simpl in Hlen; lia |].
  unfold activity_of. rewrite Htext. reflexivity.
Qed.

Lemma activities_of_content (rt : runtime) (html : string) (selector : string)
    (elem : Bs4.node) :
  In selector Single.activity_selectors ->
  In elem (Bs4.select selector (Bs4.BeautifulSoup (html_parser rt) html)) ->
  5 < String.length (Bs4.get_text_strip elem) ->
  exists activities,
    py_get (Single.extract_form_data rt html) "activities" (VList [])
      = Ok (VList activities)
    /\ In (activity_of selector elem) activities.
Proof.
  intros Hsel Helem Hlen. eexists. split; [reflexivity |].
  apply in_flat_map. exists selector. split; [exact Hsel |].
  apply in_flat_map. exists elem. split; [exact Helem |].
  rewrite activity_entry_long by assumption. now left.
Qed.

(** X19.  The rules overlap: an element with the class [activity] (or
    [event]) whose text is longer than 5 characters is matched by the rule
    for the class and again by the rule for a [class] attribute that contains
    the word, so [activities] has an entry for it under each of the two
    selectors. *)
Theorem class_rules_overlap (rt : runtime) (html : string) (cl : string)
    (elem : Bs4.node) :
  cl = "activity" \/ cl = "event" ->
  In elem (Bs4.select ("." ++ cl) (Bs4.BeautifulSoup (html_parser rt) html)) ->
  5 < String.length (Bs4.get_text_strip elem) ->
  exists activities : list pyval,
    py_get (Single.extract_form_data rt html) "activities" (VList [])
      = Ok (VList activities)
    /\ In (activity_of ("." ++ cl) elem) activities
    /\ In (activity_of (attr_selector "" "class" cl) elem) activities
    /\ activity_of ("." ++ cl) elem <> activity_of (attr_selector "" "class" cl) elem.
Proof.
  intros Hcl Helem Hlen.
  assert (Hboth : In elem (Bs4.select (attr_selector "" "class" cl)
                             (Bs4.BeautifulSoup (html_parser rt) html))).
  { destruct Hcl as [-> | ->].
    - apply (select_in _ (Bs4.CssAttrContains None "class" "activity")); [reflexivity |].
      apply (select_in _ (Bs4.CssClass "activity")) in Helem; [| reflexivity].
      destruct Helem as [Hin Hm]. split; [exact Hin |]. now apply class_token_in_attribute.
    - apply (select_in _ (Bs4.CssAttrContains None "class" "event")); [reflexivity |].
      apply (select_in _ (Bs4.CssClass "event")) in Helem; [| reflexivity].
      destruct Helem as [Hin Hm]. split; [exact Hin |]. now apply class_token_in_attribute. }
  destruct (activities_of_content rt html ("." ++ cl) elem) as (activities & Hget & Hin1);
    [destruct Hcl as [-> | ->]; simpl; tauto | exact Helem | exact Hlen |].
  destruct (activities_of_content rt html (attr_selector "" "class" cl) elem)
    as (activities' & Hget' & Hin2);
    [destruct Hcl as [-> | ->]; cbv; tauto | exact Hboth | exact Hlen |].
  rewrite Hget in Hget'. injection Hget' as <-.
  exists activities. repeat split; try assumption.
  destruct Hcl as [-> | ->]; discriminate.
Qed.

Lemma class_rules_overlap_witness :
  exists activities : list pyval,
    py_get (Single.extract_form_data (Sample.serving None Sample.morning) "v1")
      "activities" (VList []) = Ok (VList activities)
    /\ In (activity_of ("." ++ "activity") Sample.tour) activities
    /\ In (activity_of (attr_selector "" "class" "activity") Sample.tour) activities
    /\ activity_of ("." ++ "activity") Sample.tour
       <> activity_of (attr_selector "" "class" "activity") Sample.tour.
Proof.
  apply (class_rules_overlap (Sample.serving None Sample.morning) "v1" "activity"
           Sample.tour).
  - now left.
  - vm_compute. tauto.
  - vm_compute. lia.
Defined.

(* ------------------------------------------------------------------ *)
(** ** What the result of [monitor_page] tells *)



Lemma multi_main_always_completes_witness :
  exists w' : world,
    Multi.main (Sample2.serving (Some "v1") Sample.morning)
      {| files := [(Multi.get_snapshot_filename "visit", Json (VInt 5))]; trace := [] |}
    = (Ok tt, w')
    /\ fetched w' = [url Sample.visit; url Sample.tours].
Proof.
  destruct (multi_main_always_completes (Sample2.serving (Some "v1") Sample.morning)
              {| files := [(Multi.get_snapshot_filename "visit", Json (VInt 5))];
                 trace := [] |})
    as (w' & Hrun & _ & _ & Hloop).
  exists w'. split; [exact Hrun |]. now destruct (Hloop eq_refl) as [Hfetched _].
Defined.

Lemma forms_are_keyed_by_position_witness :
  dict_get ("form_" ++ str_of_nat 0)
    (map keyed_form
       (enumerate (Bs4.find_all ["form"]
                     (Bs4.BeautifulSoup (html_parser (Sample.serving None Sample.morning))
                        "v1"))))
  = Some (Single.form_entry Sample.signup_form).
Proof.
  apply (forms_are_keyed_by_position (Sample.serving None Sample.morning) "v1").
  reflexivity.
Defined.

(* ------------------------------------------------------------------ *)
(** ** The two comparisons side by side *)

Lemma py_eqb_dict_inv (d e : list (string * pyval)) :
  py_eqb (VDict d) (VDict e) = true ->
  List.length d = List.length e
  /\ forall k v, In (k, v) d -> exists w, dict_get k e = Some w /\ py_eqb v w = true.
Proof.
  intros H. cbn [py_eqb] in H. apply andb_true_iff in H. destruct H as [Hlen Hgo].
  split; [now apply Nat.eqb_eq |]. clear Hlen.
  induction d as [| [k0 v0] d IH]; intros k v Hin; [destruct Hin |].
  apply andb_true_iff in Hgo. destruct Hgo as [Hhead Htail].
  destruct Hin as [[= <- <-] | Hin].
  - destruct (dict_get k0 e) as [w |]; [| discriminate]. now exists w.
  - now apply IH.
Qed.

Lemma dict_get_in (k : string) (v : pyval) (d : list (string * pyval)) :
  dict_get k d = Some v -> In (k, v) d.
Proof.
  induction d as [| [k0 v0] d IH]; simpl; [discriminate |].
  destruct (String.eqb_spec k k0) as [-> | _].
  - intros [= ->]. now left.
  - intros H. right. now apply IH.
Qed.

Lemma py_eqb_item_text (a b : pyval) :
  py_eqb a b = true -> has_text a = true -> text_of a = text_of b.
Proof.
  intros Heq Ha.
  destruct a as [| | | | | e1]; try discriminate Ha.
  destruct b as [| | | | | e2]; try discriminate Heq.
  unfold has_text in Ha. unfold text_of.
  destruct (dict_get "text" e1) as [[| | | s | |] |] eqn:H1; try discriminate Ha.
  destruct (py_eqb_dict_inv e1 e2 Heq) as [_ Hall].
  destruct (Hall "text" (VStr s) (dict_get_in _ _ _ H1)) as (w & -> & Hw).
  destruct w; try discriminate Hw.
  cbn [py_eqb] in Hw. apply String.eqb_eq in Hw. now subst.
Qed.

Lemma py_eqb_list_texts (l m : list pyval) :
  py_eqb (VList l) (VList m) = true ->
  forallb has_text l = true ->
  flat_map text_of l = flat_map text_of m.
Proof.
  revert m. induction l as [| a l IH]; intros m Heq Hl.
  - destruct m; [reflexivity | discriminate Heq].
  - destruct m as [| b m]; [discriminate Heq |].
    change (py_eqb (VList (a :: l)) (VList (b :: m)))
      with (py_eqb a b && py_eqb (VList l) (VList m)) in Heq.
    apply andb_true_iff in Heq. destruct Heq as [Hab Hlm].
    simpl in Hl. apply andb_true_iff in Hl. destruct Hl as [Ha Hl].
    simpl. now rewrite (py_eqb_item_text a b Hab Ha), (IH m Hlm Hl).
Qed.

Lemma equal_field_same_texts (key : string) (od nd : list (string * pyval)) :
  py_eqb (dict_get_default key (VList []) od) (dict_get_default key (VList []) nd) = true ->
  texts_ok key od = true ->
  field_texts key (VDict od) = field_texts key (VDict nd).
Proof.
  unfold texts_ok, field_texts.
  destruct (dict_get_default key (VList []) od) as [| | | | l |]; try discriminate.
  destruct (dict_get_default key (VList []) nd) as [| | | | m |]; try discriminate.
  apply py_eqb_list_texts.
Qed.

Lemma equal_forms_same_count (od nd : list (string * pyval)) :
  py_eqb (dict_get_default "forms" (VDict []) od)
         (dict_get_default "forms" (VDict []) nd) = true ->
  snapshot_shaped (VDict od) = true ->
  form_count (VDict od) = form_count (VDict nd).
Proof.
  unfold snapshot_shaped, form_count.
  destruct (dict_get_default "forms" (VDict []) od) as [| | | | | f]; try discriminate.
  destruct (dict_get_default "forms" (VDict []) nd) as [| | | | | g]; try discriminate.
  intros Heq _. now destruct (py_eqb_dict_inv f g Heq).
Qed.

(** X21.  The multi-page comparison is at least as sharp as the single-page
    one: for two snapshots with different hashes in which the multi-page
    script finds [forms], [activities] and [status_elements] equal, the
    single-page script has nothing to report either and returns exactly the
    fallback note. *)
Theorem no_multi_note_no_single_note (rt : runtime) (od nd : list (string * pyval)) :
  set_order_sound rt ->
  od <> [] ->
  snapshot_shaped (VDict od) = true ->
  snapshot_shaped (VDict nd) = true ->
  dict_hash od <> dict_hash nd ->
  fields_differing od nd = 0 ->
  Single.compare_snapshots rt (VDict od) (VDict nd) = Ok (Some [Single.FALLBACK_NOTE])
  /\ forall page_name w,
       Multi.compare_snapshots rt (VDict od) (VDict nd) page_name w = (Ok false, w).
Proof.
  intros Hsound Hne Hold Hnew Hhash Hsame.
  unfold fields_differing in Hsame.
  destruct (py_eqb (dict_get_default "forms" (VDict []) od)
                   (dict_get_default "forms" (VDict []) nd)) eqn:Hf;
    [| simpl in Hsame; lia].
  destruct (py_eqb (dict_get_default "activities" (VList []) od)
                   (dict_get_default "activities" (VList []) nd)) eqn:Ha;
    [| simpl in Hsame; lia].
  destruct (py_eqb (dict_get_default "status_elements" (VList []) od)
                   (dict_get_default "status_elements" (VList []) nd)) eqn:Hs;
    [| simpl in Hsame; lia].
  destruct (shaped_texts_ok od Hold) as [Hoa Hos].
  split.
  - apply fallback_note_cases; try assumption.
    rewrite (equal_forms_same_count od nd Hf Hold).
    rewrite (equal_field_same_texts "activities" od nd Ha Hoa).
    rewrite (equal_field_same_texts "status_elements" od nd Hs Hos).
    repeat split; apply incl_refl.
  - intros page_name w.
    rewrite (multi_compare_dicts rt od nd page_name w Hne).
    apply String.eqb_neq in Hhash. rewrite Hhash.
    unfold multi_notes. rewrite Hf, Ha, Hs. reflexivity.
Qed.

Lemma no_multi_note_no_single_note_witness :
  Single.compare_snapshots (Sample.serving None Sample.evening)
    (VDict (Sample.entries (Sample.snapshot "v1" Sample.morning)))
    (VDict (Sample.entries (Sample.snapshot "v3" Sample.evening)))
  = Ok (Some [Single.FALLBACK_NOTE]).
Proof.
  apply (no_multi_note_no_single_note (Sample.serving None Sample.evening)
           (Sample.entries (Sample.snapshot "v1" Sample.morning))
           (Sample.entries (Sample.snapshot "v3" Sample.evening))).
  - intros s. apply Permutation_refl.
  - vm_compute. discriminate.
  - vm_compute. reflexivity.
  - vm_compute. reflexivity.
  - vm_compute. discriminate.
  - vm_compute. reflexivity.
Defined.
